(* ===== verification/_CoqProject ===== *)
-Q . S2P
Prelude.v
JsRuntime.v
Contract.v
Filtering.v
Pagination.v
ContractsApi.v
Dashboard.v
Auth.v
Json.v
Upload.v
UploadView.v
DetailPage.v
DetailView.v
Shell.v
DashboardView.v
