(* ===== verification/Prelude.v ===== *)
(** * A verified model of the contract dashboard (rebel1321/AssignmentSAttri)

    The repository is a React single-page application: a contracts
    dashboard backed by a static [contracts.json], a mocked login flow
    and a simulated file-upload dialog.  This development models, as
    executable Rocq definitions, the parts of the program that hold
    logic and state, and proves the properties that make them correct.

    ** The program and how its parts interact

    - [src/src/services/api.js]: [contractsApi] (fetch the contract list,
      look a contract up by id, search, filter), [authApi] (mock login
      and logout), [uploadApi] (mock upload).  The network is an input.
    - [src/src/pages/ContractsDashboard.jsx]: the core.  Its state is
      [contracts], [filteredContracts], [loading], [error],
      [searchQuery], [filters], [currentPage] and [showFilters]; its
      handlers are [loadContracts], [handleFilterChange],
      [clearFilters], [goToPage] and the input callbacks; an effect
      re-runs [applyFiltersAndSearch] whenever [contracts],
      [searchQuery] or [filters] change, and that resets the page.
      Rendering derives [totalPages], [startIndex], [endIndex] and the
      visible slice [currentContracts].
    - [src/src/contexts/AuthContext.jsx]: the [authReducer] state
      machine, and the provider's [login], [logout] and session
      restore, which also write [localStorage].
    - [src/src/components/UploadModal.jsx]: the upload dialog.  Its
      state is [files] and [dragActive] (and the [isOpen] prop); each
      picked or dropped file starts an asynchronous [uploadFile] whose
      progress interval and [uploadApi.uploadFile] result update the
      shared list by id, interleaved with [removeFile] and
      [handleClose]; the rows show [getStatusText] and
      [formatFileSize].
    - [src/src/pages/ContractDetailPage.jsx]: the contract page.  An
      effect on the route's [id] calls [loadContract], which awaits
      [contractsApi.getContractById(id)] and stores the contract or the
      error; the evidence cards open a drawer.  Requests are not tied
      to the id that issued them, so several can be pending at once.
    - [src/src/App.jsx] and [src/src/components/DashboardLayout.jsx]:
      the shell.  [AppLayout] owns [uploadModalOpen] (set by a global
      [upload-modal-open] event that the layout's Upload Files button
      dispatches) and the route table; [DashboardLayout] owns the
      sidebar and user-menu flags, marks the current navigation item,
      and signs out through the provider's [logout].

    ** Files, in dependency order

    - [Prelude.v] (this file): the notation scope [jsm_scope], the hint
      databases [jsm] and [jsm_rw], the tactics [bool_props] and
      [case_if], and the list ([List.filter], [take]) and integer
      (clamp) lemmas the components share.
    - [JsRuntime.v]: the JavaScript built-ins the code calls, as
      ECMA-262 defines them: [Promise] with [await] ([bind]) and
      [try/catch] ([catch]); [Array.prototype.slice] and [includes];
      [Math.ceil] of an integer quotient (notation [⌈ a ⁄ b ⌉]);
      [toLowerCase], [toUpperCase], [includes], [trim], [charAt(0)],
      [slice(1)] on strings.
    - [Contract.v]: the contract record of [contracts.json].
    - [Filtering.v], [Module Filtering]: [applyFiltersAndSearch]'s three
      passes ([applyFilters]), [handleFilterChange] ([toggle]), the
      composed predicate [keep].  The class [ViewProjector] states the
      spec's View Projector (an order-preserving projection by one
      predicate); the code is an instance of it.  Facet selections are
      compared up to their elements ([sameElems]) with [Proper]
      instances.
    - [Pagination.v], [Module Pagination]: [totalPages], [startIndex],
      [endIndex], [currentContracts] (generic in the element type,
      [Section Paginator]), [goToPage]'s clamp, the Previous/Next and
      numbered buttons, the summary line.
    - [ContractsApi.v], [Module ContractsApi]: [getContracts],
      [getContractById], [searchContracts], [filterContracts] over an
      explicit fetch outcome.
    - [Dashboard.v], [Module Dashboard]: the component.  [DashState]
      holds the hooks; one function per setter and per handler; [commit]
      is React's effect run with [Object.is] dependency comparison
      (array and object identity as version counters); [enabled] is
      which controls the current render shows; [step] is a handler then
      the commit; [reachable] is the inductive set of states reachable
      from [mount]; [inv] its invariant.
    - [Auth.v], [Module Auth]: [authReducer], [authApi.login]/[logout],
      and in [Section Provider] (with [JSON.stringify]/[JSON.parse] and
      [btoa] as variables) the session restore, [login] and [logout]
      over [localStorage] as a [gmap]; [authReachable] is the provider's
      reachable states from any initial storage.
    - [Json.v], [Module Json]: [JSON.stringify] ([stringify], with the
      string escapes of ECMA-262), [JSON.parse] (a recursive-descent
      parser [parseValue]/[parseElems]/[parseMembers] on fuel, [parse]
      requiring only white space after the value) and [btoa] (base64),
      and from them the provider's serialisations: [stringifyUser]
      ([JSON.stringify(response.user)]), [parseUser] ([JSON.parse]
      then the view [userOfJSON] of the value as null, a user object or
      anything else) and [btoaJson] (the token of [authApi.login]).
    - [Upload.v], [Module Upload]: [UploadState] holds [files],
      [dragActive], [isOpen], and, by file id, the registered progress
      intervals ([timers]) and the unsettled uploads
      ([pendingUploads]).  [handleFiles] starts every upload
      ([uploadFile_begin]); the interval's callback is [tick], the code
      after [await uploadApi.uploadFile] is [uploadFile_resume]; each
      asynchronous task, user action and parent prop change is an
      [UploadEvent], [uploadEnabled] says when it can happen and
      [uploadStep] runs it; [uploadReachable] and [uploadRun] are the
      reachable states and the runs.  Ids, progress and random draws
      are numbers as [Q], compared by value.
    - [UploadView.v], [Module UploadView]: the dialog's render as a
      value [uploadView]: nothing while closed, one [fileRow] per item
      (icon, name, [formatFileSize], [getStatusText] and its color, the
      progress bar while uploading) and the footer count.
    - [DetailPage.v], [Module DetailPage]: [DetailState] holds the
      hooks, the route id and the pending requests with the id each was
      issued for; [loadContract_begin]/[loadContract_resume] split
      [loadContract] at its [await]; [detailStep] runs a route change
      (the effect on [[id]]), the settling of any pending request, Try
      Again, an evidence card or the drawer's X; [render] is the chain
      of early returns; [detailReachable] the reachable states from
      [mountDetail]; the badge and color lookups and [percent].
    - [DetailView.v], [Module DetailView]: the contract page's render
      as a value [pageView]: the header and information panel (status
      icon [getStatusIcon], badges), one card per clause, insight and
      evidence with their bars ([scoreBar]: width [score * 100] and
      label [Math.round(score * 100)]), and the drawer.
    - [Shell.v], [Module Shell]: the whole application as one state
      [AppState] (location, provider session and [localStorage], layout
      flags, the upload dialog of [Upload]); [routeElement] is the route
      table with React Router 6 matching for its patterns;
      [navigate] sets the pathname [browserPath] of its target (search
      and hash dropped, dot segments resolved); a page load takes the
      [/] redirect with the provider's initial state, before the
      session is restored; [handleNavigation], [handleLogout] and [openUploadModal] are the
      layout's handlers; [appStep] runs any event (page load, login,
      navigation, layout controls, dialog events) and [appReachable]
      is the set of states from any page load, in [Section App] with
      the provider's JSON and [btoa] functions as variables, so that its theorems hold for any
      serialisation.
    - [DashboardView.v], [Module DashboardView]: the dashboard's render
      as a value [dashView] (skeleton, error panel, or the main view
      with the summary, the filter count badge, the Clear button, the
      empty panel's message or the rows with their badge classes and
      View links, and the pager); the View link followed through
      [Shell]'s route table.

    ** What the theorems show

    - Filtering: the sequential passes equal the conjunction of the
      three predicates (membership, order, idempotence, refinement of
      the spec's composer for every non-blank or empty query); the
      search is case-insensitive substring search; a double toggle
      restores the view; toggles keep selections duplicate-free.
    - Pagination: [totalPages] is the ceiling; [goToPage] clamps; the
      pages concatenate to the view; each page has 1-10 rows matching
      the summary; Previous/Next move by one inside the range.
    - API: every failure is reported by one fixed message per function,
      the not-found error included; [filterContracts] agrees with the
      dashboard's filtering.
    - Dashboard: every reachable state satisfies [inv] (rule induction
      over [reachable]); any change of store, query or filters resets
      the page and recomputes the view (scenario D); a failed load keeps
      the store; visible rows are stored contracts passing the filters;
      the page is never out of range; "Try Again" recovers.
    - Auth: the token in memory is the one in [localStorage] whenever
      the session is authenticated; logout clears both; and two defects: a stored user
      [null] restores an authenticated session without user, and a
      failed login leaves the stored session to be restored on reload.
    - Upload: every reachable state satisfies [uploadInv] (distinct
      ids, no item left pending, an item uploading exactly while its
      upload is unsettled, final statuses); [handleFiles] starts a
      batch in order; a settled item's status is final; and three
      defects: progress
      reaches up to 110% ("Uploading... 105%" is reachable), the
      interval of a failed upload is never cleared in any continuation,
      and sizes from 1024 GB read "... undefined" ([formatFileSize] is
      otherwise exact to the hundredth, and can read "1024 KB"); on
      screen, no reachable row is ever "Pending...", since the batch
      that adds an item also marks it uploading.
    - Contract page: every reachable state satisfies [detailInv]; a
      settling request shows its own outcome whatever the route; and
      three defects: a late response for the previous id replaces the
      current contract, a late failure hides a loaded contract behind
      the error panel, and the evidence drawer survives a route change.
    - Contract page view: the [k]-th evidence card opens the drawer on
      exactly its evidence and changes nothing else on the page; a bar's
      label is its width rounded to the nearest integer, within 0-100
      for scores in [0, 1].
    - Application: the dialog embedded in the application only reaches
      states of the dialog alone, and the session stays backed by
      [localStorage] across page loads, logins and sign-outs (the
      components compose); Sign out lands on the login page with the
      session cleared, also after a reload; a page load at [/] with a
      stored session goes to the login page (an example).
    - Dashboard view: a row's View link, passed through [navigate] and
      the route table, reaches the page of exactly its contract for
      every id of URL-safe characters (other ids go astray: examples); the empty panel
      invites a first upload exactly when the store is empty and no
      criterion is set; the filter count is between 1 and 6.

    - JSON: [JSON.parse(JSON.stringify(v))] is [v] for every value
      whose numbers are integer texts; hence, with the serialisations
      the code uses, login then reload restores the same user and token
      for every user name and clock, and a stored [null] user restores
      a session without a user.

    ** Bounds and fuel

    Only [JSON.parse] takes fuel: [parse] gives [parseValue] one step
    more than the length of the text.  Each nesting level costs two
    steps and is paid for by its opening and closing characters, and
    the round-trip theorem ([parseValue_stringify], for any fuel above
    the length) proves that this fuel is enough for every text that
    [JSON.stringify] writes, which are the only texts the program
    stores and reads back.  Every other function is
    structural over a list or a string.  A number is kept as its text;
    [numberLex] writes an integer in decimal, which is what
    [JSON.stringify] does for integers below [10^21] (timestamps are
    near [2^40]).  [btoa] throws on code units above 255, which the
    string model cannot hold, so it never fails here.  JavaScript numbers are modelled as [Z] where the code
    does integer arithmetic (page numbers, indices); all values the code
    computes are integers of modest size, far inside the 2^53 range
    where doubles represent integers exactly, so no rounding is lost.
    The token timestamps are milliseconds as [Z]; [Date.now()] is an
    input.  Strings are modelled as [string], i.e. code units below 256:
    [toLowerCase]/[toUpperCase] map only A-Z/a-z, which is exact for
    ASCII text and leaves other letters unmapped where JavaScript would
    map them.  Each [delay(ms)] of [api.js] only postpones a promise and
    is not modelled; the order of events is explicit in the step
    relations instead.  In the upload dialog the 200 ms interval and
    the 2000 ms upload are not timed: any interleaving of ticks,
    settlings and user actions is a run, which covers every timing.
    Fresh ids ([Date.now() + Math.random()]) are assumed distinct from
    the ids in use ([freshIds]), as the code assumes.  [formatFileSize]
    computes the unit index as the floor of the base-1024 logarithm
    exactly ([Z.log2 bytes / 10]); the floating-point quotient of
    logarithms agrees with it for every size below [1024^5 - 1], and
    [toFixed(2)] on [bytes / 1024^i] (exact in binary) is rounding
    to the nearest hundredth, halves up.

    ** Not modelled

    Visual presentation (class names, icons, layout); React Router's
    matching machinery beyond the patterns of the table (its ranking);
    the percent-encoding of a path and its decoding in [:id] (the
    route theorem is for ids of characters that need none); [ProtectedRoute] and [LoginPage], imported
    by [App.jsx] but not in the repository: a protected route is
    marked as such, what [ProtectedRoute] renders is left open, and
    login is any call of the provider's [login]; the [fetch] and timer
    implementations (their outcomes are inputs); [Math.random] (an
    input).  Whether React keeps [DashboardLayout]'s state when the
    location moves between two of its routes depends on the router's
    element tree; the model keeps the flags, and no theorem depends on
    it.  The upload dialog's drag highlight and its hidden file input
    ([fileInputRef.current.click()]) are presentation; the footer
    count is [uploadedCount]. *)

From stdpp Require Export base list sets strings.
From Stdlib Require Export ZArith Lia Bool.

#[export] Set Warnings "-clear-no-such-hyp".

Declare Scope jsm_scope.
Delimit Scope jsm_scope with jsm.
Open Scope jsm_scope.

Create HintDb jsm discriminated.
Create Rewrite HintDb jsm_rw.

(** ** Tactics *)

(** Turn the boolean connectives of the code's conditions into
    propositions. *)
Ltac bool_props :=
  repeat match goal with
  | H : (_ && _)%bool = true |- _ => apply andb_true_iff in H as [? ?]
  | H : (_ || _)%bool = true |- _ => apply orb_true_iff in H as [H | H]
  | H : (_ && _)%bool = false |- _ => apply andb_false_iff in H as [H | H]
  | H : (_ || _)%bool = false |- _ => apply orb_false_iff in H as [? ?]
  | H : negb _ = true |- _ => apply negb_true_iff in H
  | H : negb _ = false |- _ => apply negb_false_iff in H
  end.

(** Case on the innermost [if] or [match] of the goal, remembering the
    equation. *)
Ltac case_if :=
  match goal with
  | |- context [if ?b then _ else _] =>
      let E := fresh "E" in destruct b eqn:E
  end.

(** ** Lists filtered by a boolean callback ([Array.prototype.filter]) *)

Section Filter.
Context {A : Type}.
Implicit Types (f g : A -> bool) (l : list A).

Lemma filter_filter_andb f g l :
  List.filter g (List.filter f l) = List.filter (fun x => f x && g x) l.
Proof.
  induction l as [|x l IH]; simpl; [done|].
  destruct (f x) eqn:Ef; simpl; [destruct (g x) eqn:Eg; simpl|]; by rewrite ?IH.
Qed.

Lemma filter_all_true f l :
  (forall x, In x l -> f x = true) -> List.filter f l = l.
Proof.
  intros H. rewrite (filter_ext_in f (fun _ => true)); [apply filter_true|].
  intros; by apply H.
Qed.

Lemma filter_idem f l : List.filter f (List.filter f l) = List.filter f l.
Proof.
  apply filter_all_true. intros x Hx. by apply filter_In in Hx as [_ ?].
Qed.

Lemma filter_sublist_of f l : sublist (List.filter f l) l.
Proof.
  induction l as [|x l IH]; simpl; [constructor|].
  destruct (f x); by constructor.
Qed.

Lemma filter_length_le f l : length (List.filter f l) <= length l.
Proof. apply sublist_length, filter_sublist_of. Qed.

Lemma filter_app_distr f l1 l2 :
  List.filter f (l1 ++ l2) = List.filter f l1 ++ List.filter f l2.
Proof.
  induction l1 as [|x l1 IH]; simpl; [done|].
  destruct (f x); simpl; by rewrite IH.
Qed.
End Filter.

(** ** Prefixes and suffixes of lists *)

Lemma take_min_length {A} (l : list A) n : take n l = take (n `min` length l) l.
Proof. rewrite <- (take_ge l (length l)) at 1 by lia. by rewrite take_take. Qed.

Lemma sublist_map {A B} (f : A -> B) l1 l2 :
  sublist l1 l2 -> sublist (map f l1) (map f l2).
Proof. induction 1; simpl; by constructor. Qed.

(** A list filtered by a callback keeps the distinctness of its image. *)
Lemma NoDup_map_filter {A B} (f : A -> B) (p : A -> bool) l :
  NoDup (map f l) -> NoDup (map f (List.filter p l)).
Proof. intros H. eapply sublist_NoDup; [exact H|]. apply sublist_map, filter_sublist_of. Qed.

(** Looking up index [i] of a mapped list. *)
Lemma lookup_map_opt {A B} (f : A -> B) l i : List.map f l !! i = option_map f (l !! i).
Proof. revert i. induction l as [|x l IH]; intros [|i]; simpl; auto. Qed.

#[export] Hint Rewrite @filter_filter_andb @filter_idem : jsm_rw.
#[export] Hint Rewrite @lookup_map_opt : jsm_rw.
#[export] Hint Resolve filter_sublist_of filter_length_le NoDup_map_filter : jsm.

(** ** Strings

    stdpp makes [String.append] ([+:+]) opaque to [simpl]; these are
    its defining equations and the monoid laws. *)

Lemma str_app_nil (b : string) : EmptyString +:+ b = b.
Proof. reflexivity. Qed.

Lemma str_app_cons x (a b : string) : String x a +:+ b = String x (a +:+ b).
Proof. reflexivity. Qed.

Lemma str_app_assoc (a b c : string) : (a +:+ b) +:+ c = a +:+ (b +:+ c).
Proof. induction a as [|x a IH]; [done | rewrite !str_app_cons; by f_equal]. Qed.

Lemma str_length_app (a b : string) :
  String.length (a +:+ b) = String.length a + String.length b.
Proof. induction a as [|x a IH]; [done | rewrite str_app_cons; simpl; by f_equal]. Qed.

#[export] Hint Rewrite str_app_nil str_app_cons : jsm_rw.

(** ** Integers *)

(** [Math.max(lo, Math.min(hi, x))]: the clamp the code writes. *)
Lemma clamp_bounds (lo hi x : Z) :
  (lo <= Z.max lo (Z.min hi x) <= Z.max lo hi)%Z.
Proof. lia. Qed.

Lemma clamp_id (lo hi x : Z) :
  (lo <= x <= hi)%Z -> Z.max lo (Z.min hi x) = x.
Proof. lia. Qed.

#[export] Hint Resolve clamp_bounds : jsm.
