(* ===== verification/JsRuntime.v ===== *)
(** The JavaScript built-ins the program calls, as ECMA-262 defines them:
    [Array.prototype.slice] and [includes], [Math.ceil] of an integer
    quotient, [String.prototype.toLowerCase], [includes] and [trim].
    Strings are sequences of code units below 256 ([string]); case
    mapping and white space are those of that range. *)

From S2P Require Import Prelude.
From Stdlib Require Import Ascii.
From Stdlib Require QArith Qround.
From Stdlib Require String.


(** ** Promises

    The settled value of a promise the code awaits: resolved with a
    value, or rejected with an [Error] whose [message] the handlers read.
    [await] inside an [async] function is [bind]; [try { .. } catch]
    is [catch]. *)

Inductive Promise (A : Type) : Type :=
| Resolve (a : A)
| Reject (message : string).
Arguments Resolve {A} a.
Arguments Reject {A} message.

Definition bind {A B} (p : Promise A) (k : A -> Promise B) : Promise B :=
  match p with Resolve a => k a | Reject m => Reject m end.

(** [try { body } catch (error) { handler(error.message) }]. *)
Definition catch {A} (p : Promise A) (handler : string -> Promise A) : Promise A :=
  match p with Resolve a => Resolve a | Reject m => handler m end.

Notation "'await' x <- p 'in' k" := (bind p (fun x => k))
  (at level 10, x name, p at level 100, k at level 200) : jsm_scope.

Lemma bind_resolve {A B} (a : A) (k : A -> Promise B) : bind (Resolve a) k = k a.
Proof. done. Qed.

Lemma catch_reject {A} m (handler : string -> Promise A) :
  catch (Reject m) handler = handler m.
Proof. done. Qed.

#[export] Hint Rewrite @bind_resolve @catch_reject : jsm_rw.

Module JsArray.
(** RelativeStart/RelativeEnd of [slice]: negative indices count from
    the end, and both are clamped to [0, len]. *)
Definition relIndex (len k : Z) : Z :=
  if (k <? 0)%Z then Z.max (len + k) 0 else Z.min k len.

(** [l.slice(start, end)]: [max(final - k, 0)] elements from [k]. *)
Definition slice {A} (l : list A) (start fin : Z) : list A :=
  let len := Z.of_nat (length l) in
  let k := relIndex len start in
  let final := relIndex len fin in
  take (Z.to_nat (final - k)) (drop (Z.to_nat k) l).

(** [l.includes(v)] with SameValueZero, which on strings is equality. *)
Definition includes {A} `{EqDecision A} (l : list A) (v : A) : bool :=
  existsb (fun y => bool_decide (y = v)) l.

Lemma array_includes_spec {A} `{EqDecision A} (l : list A) v :
  includes l v = true <-> v ∈ l.
Proof.
  unfold includes. rewrite existsb_exists, list_elem_of_In. split.
  - intros (y & Hy & E). apply bool_decide_eq_true in E. by subst.
  - intros H. exists v. split; [done|]. by apply bool_decide_eq_true.
Qed.

Lemma relIndex_nat (n a : nat) :
  relIndex (Z.of_nat n) (Z.of_nat a) = Z.of_nat (a `min` n).
Proof. unfold relIndex. destruct (Z.ltb_spec (Z.of_nat a) 0); lia. Qed.

(** For non-negative indices, [slice] is [take] after [drop]. *)
Lemma slice_nat {A} (l : list A) (a b : nat) :
  a <= b -> slice l (Z.of_nat a) (Z.of_nat b) = take (b - a) (drop a l).
Proof.
  intros Hab. unfold slice. rewrite !relIndex_nat, Nat2Z.id.
  replace (Z.to_nat _) with (b `min` length l - a `min` length l) by lia.
  destruct (decide (a <= length l)) as [Ha|Ha].
  - rewrite (Nat.min_l a) by lia.
    rewrite take_min_length, (take_min_length (drop a l) (b - a)), length_drop.
    f_equal. lia.
  - rewrite !drop_ge by lia. by rewrite !take_nil.
Qed.
End JsArray.

Module JsMath.
(** [Math.ceil(a / b)] for integers [a] and [b > 0]: the least integer
    not below the real quotient, i.e. minus the floor of [-a / b]. *)
Definition ceilDiv (a b : Z) : Z := (- ((- a) / b))%Z.

Lemma ceilDiv_spec a b :
  (0 < b)%Z -> (b * (ceilDiv a b - 1) < a <= b * ceilDiv a b)%Z.
Proof.
  intros Hb. unfold ceilDiv.
  pose proof (Z.div_mod (- a) b ltac:(lia)).
  pose proof (Z.mod_pos_bound (- a) b Hb). lia.
Qed.

Lemma ceilDiv_nonneg a b : (0 < b)%Z -> (0 <= a)%Z -> (0 <= ceilDiv a b)%Z.
Proof. intros Hb Ha. pose proof (ceilDiv_spec a b Hb). nia. Qed.

Lemma ceilDiv_zero_iff a b :
  (0 < b)%Z -> (0 <= a)%Z -> ceilDiv a b = 0%Z <-> a = 0%Z.
Proof. intros Hb Ha. pose proof (ceilDiv_spec a b Hb). split; intros; nia. Qed.

(** [Math.round(x)]: the nearest integer, halves rounded up. *)
Definition round (x : QArith_base.Q) : Z :=
  Qround.Qfloor (QArith_base.Qplus x (QArith_base.Qmake 1 2)).

Lemma round_mono x y : QArith_base.Qle x y -> (round x <= round y)%Z.
Proof.
  intros H. apply Qround.Qfloor_resp_le.
  by apply QArith_base.Qplus_le_compat; [|apply QArith_base.Qle_refl].
Qed.

End JsMath.

Notation "⌈ a ⁄ b ⌉" := (JsMath.ceilDiv a b)
  (at level 0, a at level 50, b at level 50) : jsm_scope.

Module JsString.
Import String.

Definition isUpper (c : ascii) : bool :=
  let n := nat_of_ascii c in (65 <=? n)%nat && (n <=? 90)%nat.

(** The lower-case mapping of one code unit: A-Z to a-z. *)
Definition lowerChar (c : ascii) : ascii :=
  if isUpper c then ascii_of_nat (nat_of_ascii c + 32) else c.

(** [s.toLowerCase()]. *)
Fixpoint toLowerCase (s : string) : string :=
  match s with
  | EmptyString => EmptyString
  | String c s' => String (lowerChar c) (toLowerCase s')
  end.

Definition isLower (c : ascii) : bool :=
  let n := nat_of_ascii c in (97 <=? n)%nat && (n <=? 122)%nat.

(** The upper-case mapping of one code unit: a-z to A-Z. *)
Definition upperChar (c : ascii) : ascii :=
  if isLower c then ascii_of_nat (nat_of_ascii c - 32) else c.

(** [s.toUpperCase()]. *)
Fixpoint toUpperCase (s : string) : string :=
  match s with
  | EmptyString => EmptyString
  | String c s' => String (upperChar c) (toUpperCase s')
  end.

(** [s.charAt(0)] and [s.slice(1)]. *)
Definition charAt0 (s : string) : string :=
  match s with EmptyString => EmptyString | String c _ => String c EmptyString end.
Definition slice1 (s : string) : string :=
  match s with EmptyString => EmptyString | String _ s' => s' end.

(** [s.startsWith(t)]. *)
Fixpoint startsWith (s t : string) : bool :=
  match t, s with
  | EmptyString, _ => true
  | String c t', String d s' => bool_decide (c = d) && startsWith s' t'
  | String _ _, EmptyString => false
  end.

(** [s.includes(t)]: some suffix of [s] starts with [t]. *)
Fixpoint includes (s t : string) : bool :=
  startsWith s t ||
  match s with
  | EmptyString => false
  | String _ s' => includes s' t
  end.

(** WhiteSpace and LineTerminator code units below 256: TAB, LF, VT,
    FF, CR, SPACE and NO-BREAK SPACE. *)
Definition isSpace (c : ascii) : bool :=
  match nat_of_ascii c with
  | 9 | 10 | 11 | 12 | 13 | 32 | 160 => true
  | _ => false
  end.

Fixpoint trimStart (s : string) : string :=
  match s with
  | EmptyString => EmptyString
  | String c s' => if isSpace c then trimStart s' else s
  end.

Fixpoint trimEnd (s : string) : string :=
  match s with
  | EmptyString => EmptyString
  | String c s' =>
      match trimEnd s' with
      | EmptyString => if isSpace c then EmptyString else String c EmptyString
      | r => String c r
      end
  end.

(** [s.trim()]. *)
Definition trim (s : string) : string := trimEnd (trimStart s).

(** JavaScript truthiness of a string: it is not empty. *)
Definition truthy (s : string) : bool :=
  match s with EmptyString => false | _ => true end.

Fixpoint allSpace (s : string) : bool :=
  match s with
  | EmptyString => true
  | String c s' => isSpace c && allSpace s'
  end.

(** *** Lemmas *)
Local Open Scope string_scope.

Lemma startsWith_spec s t : startsWith s t = true <-> exists v, s = t ++ v.
Proof.
  revert s. induction t as [|c t IH]; intros [|d s]; simpl.
  - split; [by exists EmptyString | done].
  - split; [by exists (String d s) | done].
  - split; [done | by intros [v ?]].
  - rewrite andb_true_iff, bool_decide_eq_true, IH. split.
    + intros [-> [v ->]]. by exists v.
    + intros [v [= -> ->]]. eauto.
Qed.

(** [s.includes(t)] iff [t] occurs in [s] at some position. *)
Lemma includes_spec s t : includes s t = true <-> exists u v, s = u ++ t ++ v.
Proof.
  induction s as [|c s IH]; cbn [includes]; rewrite orb_true_iff, startsWith_spec.
  - split.
    + intros [[v E] | E]; [by exists EmptyString, v | done].
    + intros ([|] & v & E); [left; by exists v | done].
  - rewrite IH. split.
    + intros [[v E] | (u & v & ->)]; [by exists EmptyString, v|].
      by exists (String c u), v.
    + intros ([|d u] & v & E); simpl in E; [left; by exists v|].
      injection E as -> ->. right. eauto.
Qed.

Lemma includes_empty s : includes s EmptyString = true.
Proof. apply includes_spec. by exists EmptyString, s. Qed.

Lemma lowerChar_idem c : lowerChar (lowerChar c) = lowerChar c.
Proof. destruct c as [[] [] [] [] [] [] [] []]; vm_compute; reflexivity. Qed.

Lemma toLowerCase_app s1 s2 :
  toLowerCase (s1 ++ s2) = toLowerCase s1 ++ toLowerCase s2.
Proof. induction s1 as [|c s1 IH]; simpl; by rewrite ?IH. Qed.

Lemma toLowerCase_idem s : toLowerCase (toLowerCase s) = toLowerCase s.
Proof. induction s as [|c s IH]; simpl; by rewrite ?lowerChar_idem, ?IH. Qed.

(** A decomposition of a lower-cased string lifts to the original. *)
Lemma toLowerCase_app_inv s a b :
  toLowerCase s = a ++ b ->
  exists s1 s2, s = s1 ++ s2 /\ toLowerCase s1 = a /\ toLowerCase s2 = b.
Proof.
  revert s. induction a as [|c a IH]; intros s E; simpl in E.
  - by exists EmptyString, s.
  - destruct s as [|d s]; simpl in E; [done|]. injection E as <- E.
    destruct (IH s E) as (s1 & s2 & -> & <- & <-).
    by exists (String d s1), s2.
Qed.

(** The case-insensitive match the code writes,
    [s.toLowerCase().includes(q.toLowerCase())], holds iff some
    substring of [s] equals [q] up to case. *)
Lemma includes_lower_spec s q :
  includes (toLowerCase s) (toLowerCase q) = true <->
  exists u w v, s = u ++ w ++ v /\ toLowerCase w = toLowerCase q.
Proof.
  rewrite includes_spec. split.
  - intros (u' & v' & E).
    destruct (toLowerCase_app_inv _ _ _ E) as (u & s2 & -> & <- & E2).
    destruct (toLowerCase_app_inv _ _ _ E2) as (w & v & -> & Hw & <-).
    by exists u, w, v.
  - intros (u & w & v & -> & Hw).
    exists (toLowerCase u), (toLowerCase v). by rewrite !toLowerCase_app, Hw.
Qed.

Lemma trimStart_empty_iff s : trimStart s = EmptyString <-> allSpace s = true.
Proof.
  induction s as [|c s IH]; simpl; [done|].
  destruct (isSpace c); simpl; [done|]. split; done.
Qed.

Lemma trimEnd_empty_iff s : trimEnd s = EmptyString <-> allSpace s = true.
Proof.
  induction s as [|c s IH]; simpl; [done|].
  destruct (trimEnd s) eqn:E; destruct (isSpace c); simpl;
    rewrite <- ?IH; split; done.
Qed.

Lemma trimStart_allSpace s : allSpace (trimStart s) = allSpace s.
Proof.
  induction s as [|c s IH]; simpl; [done|].
  destruct (isSpace c) eqn:E; simpl; by rewrite ?E.
Qed.

(** [s.trim()] is empty exactly when [s] is all white space. *)
Lemma trim_empty_iff s : trim s = EmptyString <-> allSpace s = true.
Proof. unfold trim. by rewrite trimEnd_empty_iff, trimStart_allSpace. Qed.

Lemma truthy_trim s : truthy (trim s) = negb (allSpace s).
Proof.
  destruct (allSpace s) eqn:E.
  - apply trim_empty_iff in E. by rewrite E.
  - destruct (trim s) eqn:T; [|done]. apply trim_empty_iff in T. congruence.
Qed.
End JsString.
