(* ===== verification/Contract.v ===== *)
(** The contract record of [contracts.json] as the pages read it
    ([ContractsDashboard.jsx] reads [id], [name], [parties], [expiry],
    [status] and [risk]; [ContractDetailPage.jsx] also reads [start],
    [clauses], [insights] and [evidence]).  [status] and [risk] are kept
    as the strings the JSON holds, since the code compares them as
    strings and a value outside the enumerations is possible. *)

From S2P Require Import Prelude.
From Stdlib Require Import QArith.

Record Clause := mkClause {
  clause_title : string;
  clause_summary : string;
  confidence : Q;
}.

Record Insight := mkInsight {
  insight_risk : string;
  insight_message : string;
}.

Record Evidence := mkEvidence {
  evidence_source : string;
  evidence_snippet : string;
  relevance : Q;
}.

Record Contract := mkContract {
  id : string;
  name : string;
  parties : string;
  start : string;
  expiry : string;
  status : string;
  risk : string;
  clauses : list Clause;
  insights : list Insight;
  evidence : list Evidence;
}.

(** The facet values the dashboard offers as check boxes. *)
Definition statusOptions : list string := ["Active"; "Renewal Due"; "Expired"]%string.
Definition riskOptions : list string := ["Low"; "Medium"; "High"]%string.

(** A contract with the fields the list view reads, for examples. *)
Definition mkRow (i n p e s r : string) : Contract :=
  mkContract i n p ""%string e s r [] [] [].
