(* ===== verification/Filtering.v ===== *)
(** The list-management logic of [ContractsDashboard.jsx]: the filter
    state, [handleFilterChange], and [applyFiltersAndSearch]'s three
    successive [filter] passes (search, status, risk).

    The spec's Predicate Composer and View Projector are stated as the
    class [ViewProjector]: a projection that keeps, in order, exactly
    the records satisfying one predicate.  The code's sequential
    filtering is an instance of it ([applyFilters_keep]), so the
    generic order, membership and idempotence lemmas apply to it.  The
    facet selections are compared up to having the same elements
    ([sameElems]), the equivalence the filters respect, with [Proper]
    instances for setoid rewriting. *)

From S2P Require Import Prelude JsRuntime Contract.
From Stdlib Require Import Morphisms Btauto.

(** ** The abstract view projector *)

Class ViewProjector (F : Type) := {
  view_keep : F -> Contract -> bool;
  project : F -> list Contract -> list Contract;
  project_filter : forall f l, project f l = List.filter (view_keep f) l;
}.

Section ProjectorLaws.
Context `{ViewProjector F}.

Lemma project_sublist f l : sublist (project f l) l.
Proof. rewrite project_filter. apply filter_sublist_of. Qed.

Lemma project_In f l c : In c (project f l) <-> In c l /\ view_keep f c = true.
Proof. rewrite project_filter. apply filter_In. Qed.

Lemma project_idem f l : project f (project f l) = project f l.
Proof. rewrite !project_filter. apply filter_idem. Qed.

Lemma project_all f l :
  (forall c, In c l -> view_keep f c = true) -> project f l = l.
Proof. rewrite project_filter. apply filter_all_true. Qed.

Lemma project_app f l1 l2 : project f (l1 ++ l2) = project f l1 ++ project f l2.
Proof. rewrite !project_filter. apply filter_app_distr. Qed.
End ProjectorLaws.

#[export] Hint Resolve project_sublist : jsm.

(** ** Lists compared by their elements *)

Definition sameElems (l1 l2 : list string) : Prop := forall x, x ∈ l1 <-> x ∈ l2.

#[export] Instance sameElems_equiv : Equivalence sameElems.
Proof. split; red; unfold sameElems; firstorder. Qed.

#[export] Instance includes_sameElems :
  Proper (sameElems ==> eq ==> eq) (@JsArray.includes string _).
Proof.
  intros l1 l2 Hl v ? <-. apply eq_bool_prop_intro.
  rewrite !Is_true_true, !JsArray.array_includes_spec. apply Hl.
Qed.

Lemma nonempty_sameElems l1 l2 :
  sameElems l1 l2 -> (0 <? length l1)%nat = (0 <? length l2)%nat.
Proof.
  intros Hl. destruct l1 as [|x l1], l2 as [|y l2]; simpl; try done.
  - exfalso. apply (not_elem_of_nil y), Hl. set_solver.
  - exfalso. apply (not_elem_of_nil x), Hl. set_solver.
Qed.

Module Filtering.

(** [filters]: [{ status: [], risk: [] }]. *)
Record Filters := mkFilters { f_status : list string; f_risk : list string }.

(** The [filterType] argument of [handleFilterChange]. *)
Inductive FilterType := FStatus | FRisk.

Definition emptyFilters : Filters := mkFilters [] [].

Definition getFilter (ft : FilterType) (fs : Filters) : list string :=
  match ft with FStatus => f_status fs | FRisk => f_risk fs end.

(** [{ ...prev, [filterType]: l }]. *)
Definition setFilter (ft : FilterType) (prev : Filters) (l : list string) : Filters :=
  match ft with
  | FStatus => mkFilters l (f_risk prev)
  | FRisk => mkFilters (f_status prev) l
  end.

(** [prev[t].includes(value) ? prev[t].filter(item => item !== value)
    : [...prev[t], value]]. *)
Definition toggle (l : list string) (value : string) : list string :=
  if JsArray.includes l value
  then List.filter (fun item => negb (bool_decide (item = value))) l
  else l ++ [value].

Definition handleFilterChange (ft : FilterType) (value : string) (prev : Filters) : Filters :=
  setFilter ft prev (toggle (getFilter ft prev) value).

(** The search callback: [name] or [parties] contains the query,
    both lower-cased. *)
Definition matchesSearch (q : string) (c : Contract) : bool :=
  JsString.includes (JsString.toLowerCase (name c)) (JsString.toLowerCase q)
  || JsString.includes (JsString.toLowerCase (parties c)) (JsString.toLowerCase q).

(** [applyFiltersAndSearch]'s computation of [filtered]. *)
Definition applyFilters (contracts : list Contract) (searchQuery : string)
    (filters : Filters) : list Contract :=
  let filtered := contracts in
  let filtered :=
    if JsString.truthy (JsString.trim searchQuery)
    then List.filter (matchesSearch searchQuery) filtered else filtered in
  let filtered :=
    if (0 <? length (f_status filters))%nat
    then List.filter (fun c => JsArray.includes (f_status filters) (status c)) filtered
    else filtered in
  if (0 <? length (f_risk filters))%nat
  then List.filter (fun c => JsArray.includes (f_risk filters) (risk c)) filtered
  else filtered.

(** ** The composed predicate *)

(** A facet with no selection accepts every value. *)
Definition facetOk (sel : list string) (v : string) : bool :=
  negb (0 <? length sel)%nat || JsArray.includes sel v.

Definition keep (searchQuery : string) (filters : Filters) (c : Contract) : bool :=
  (negb (JsString.truthy (JsString.trim searchQuery)) || matchesSearch searchQuery c)
  && facetOk (f_status filters) (status c)
  && facetOk (f_risk filters) (risk c).

Definition filters_equiv (a b : Filters) : Prop :=
  sameElems (f_status a) (f_status b) /\ sameElems (f_risk a) (f_risk b).

#[export] Instance filters_equiv_equiv : Equivalence filters_equiv.
Proof.
  unfold filters_equiv. split; red.
  - done.
  - intros ? ? []; split; by symmetry.
  - intros ? ? ? [] []; split; by etransitivity.
Qed.

#[export] Instance facetOk_proper : Proper (sameElems ==> eq ==> eq) facetOk.
Proof.
  intros l1 l2 Hl v ? <-. unfold facetOk.
  by rewrite (nonempty_sameElems _ _ Hl), Hl.
Qed.

#[export] Instance keep_proper : Proper (eq ==> filters_equiv ==> eq ==> eq) keep.
Proof.
  intros q ? <- a b [Hs Hr] c ? <-. unfold keep. by rewrite Hs, Hr.
Qed.

(** ** The spec's search predicate (4.1), for comparison *)

(** The spec: the search predicate holds when the query is empty, or
    when [name] or [parties] contains it, ignoring case. *)
Definition specSearchOk (searchQuery : string) (c : Contract) : bool :=
  negb (JsString.truthy searchQuery) || matchesSearch searchQuery c.

Definition specKeep (searchQuery : string) (filters : Filters) (c : Contract) : bool :=
  specSearchOk searchQuery c
  && facetOk (f_status filters) (status c)
  && facetOk (f_risk filters) (risk c).

(** ** Lemmas *)

Lemma facet_guard (sel : list string) (v : string) :
  (0 <? length sel)%nat = false -> facetOk sel v = true.
Proof. unfold facetOk. by intros ->. Qed.

(** The three successive passes keep exactly the records of the
    conjunction of the three predicates, in their original order. *)
Lemma applyFilters_keep cs q fs :
  applyFilters cs q fs = List.filter (keep q fs) cs.
Proof.
  rewrite <- (filter_true cs) at 1. unfold applyFilters, keep, facetOk.
  destruct (JsString.truthy _), (0 <? length (f_status fs))%nat,
    (0 <? length (f_risk fs))%nat;
    rewrite ?filter_filter_andb; apply filter_ext; intros c; simpl; btauto.
Qed.

#[export] Instance applyFilters_projector : ViewProjector (string * Filters) := {
  view_keep qf := keep qf.1 qf.2;
  project qf cs := applyFilters cs qf.1 qf.2;
  project_filter qf cs := applyFilters_keep cs qf.1 qf.2;
}.

#[export] Instance applyFilters_proper :
  Proper (eq ==> eq ==> filters_equiv ==> eq) applyFilters.
Proof.
  intros cs ? <- q ? <- a b Hab. rewrite !applyFilters_keep.
  apply filter_ext. intros c. by rewrite Hab.
Qed.

Lemma toggle_elem l v x :
  x ∈ toggle l v <-> (x ∈ l /\ x <> v) \/ (x = v /\ v ∉ l).
Proof.
  unfold toggle. destruct (JsArray.includes l v) eqn:E.
  - apply JsArray.array_includes_spec in E.
    rewrite list_elem_of_In, filter_In, <- list_elem_of_In, negb_true_iff,
      bool_decide_eq_false. naive_solver.
  - assert (v ∉ l) by (rewrite <- JsArray.array_includes_spec; congruence).
    rewrite elem_of_app, list_elem_of_singleton. naive_solver.
Qed.

Lemma toggle_NoDup l v : NoDup l -> NoDup (toggle l v).
Proof.
  intros Hl. unfold toggle. destruct (JsArray.includes l v) eqn:E.
  - apply NoDup_ListNoDup, List.NoDup_filter, NoDup_ListNoDup, Hl.
  - apply NoDup_app. split_and!; [done | | apply NoDup_singleton].
    intros x Hx ->%list_elem_of_singleton.
    rewrite <- JsArray.array_includes_spec in Hx. congruence.
Qed.

Lemma toggle_toggle l v : sameElems (toggle (toggle l v) v) l.
Proof.
  intros x. rewrite !toggle_elem.
  destruct (decide (x = v)) as [->|]; [|naive_solver].
  destruct (decide (v ∈ l)); naive_solver.
Qed.

Lemma specKeep_keep q fs c :
  (JsString.allSpace q = true -> q = EmptyString) -> specKeep q fs c = keep q fs c.
Proof.
  intros Hq. unfold specKeep, keep, specSearchOk. f_equal. f_equal.
  rewrite JsString.truthy_trim.
  destruct (JsString.allSpace q) eqn:E; [by rewrite (Hq eq_refl) |].
  destruct q; [done | reflexivity].
Qed.

(** ** Properties *)

(** C3. A contract appears in the filtered view iff it is in the store
    and passes all three sub-predicates: the search test (skipped when
    the trimmed query is empty), the status facet and the risk facet
    (each skipped when nothing is selected). *)
Theorem applyFilters_In cs q fs c :
  In c (applyFilters cs q fs) <->
  In c cs
  /\ (negb (JsString.truthy (JsString.trim q)) || matchesSearch q c) = true
  /\ facetOk (f_status fs) (status c) = true
  /\ facetOk (f_risk fs) (risk c) = true.
Proof.
  pose proof (project_In (F := string * Filters) (q, fs) cs c) as H. simpl in H.
  rewrite H. unfold keep. rewrite !andb_true_iff. tauto.
Qed.

(** Filtering an already filtered view again with the same inputs
    changes nothing. *)
Theorem applyFilters_idem cs q fs :
  applyFilters (applyFilters cs q fs) q fs = applyFilters cs q fs.
Proof. exact (project_idem (F := string * Filters) (q, fs) cs). Qed.

(** C4. Refinement: for every query that is empty or has a non-blank
    character, the code's view is the spec's projection (4.1, 4.2): the
    records satisfying "query empty or name/parties contains it, ignoring
    case", "status selected or none selected" and the same for risk, in
    store order. *)
Theorem applyFilters_refines_spec cs q fs :
  (JsString.allSpace q = true -> q = EmptyString) ->
  applyFilters cs q fs = List.filter (specKeep q fs) cs.
Proof.
  intros Hq. rewrite applyFilters_keep. apply filter_ext. intros c.
  by rewrite specKeep_keep.
Qed.

(** With no facet selected and a query made only of white space
    (the empty query included), the view is the whole store. *)
Theorem applyFilters_no_filters cs q :
  JsString.allSpace q = true -> applyFilters cs q emptyFilters = cs.
Proof.
  intros Hq. unfold applyFilters. by rewrite JsString.truthy_trim, Hq.
Qed.

(** C25. The search test is case-insensitive substring search: it holds
    iff [name] or [parties] has a substring equal to the query up to
    case. *)
Theorem matchesSearch_spec q c :
  matchesSearch q c = true <->
  (exists u w v, name c = (u ++ w ++ v)%string
                 /\ JsString.toLowerCase w = JsString.toLowerCase q)
  \/ (exists u w v, parties c = (u ++ w ++ v)%string
                 /\ JsString.toLowerCase w = JsString.toLowerCase q).
Proof. unfold matchesSearch. by rewrite orb_true_iff, !JsString.includes_lower_spec. Qed.

(** Toggling the same facet value twice restores the view, whatever
    the store, the query and the other facet. *)
Theorem handleFilterChange_twice cs q ft v fs :
  applyFilters cs q (handleFilterChange ft v (handleFilterChange ft v fs))
  = applyFilters cs q fs.
Proof.
  apply applyFilters_proper; [done | done |].
  destruct ft; split; simpl; by rewrite ?toggle_toggle.
Qed.

(** A toggle never duplicates a selected value: both facet lists
    stay free of duplicates. *)
Theorem handleFilterChange_NoDup ft v fs :
  NoDup (f_status fs) -> NoDup (f_risk fs) ->
  NoDup (f_status (handleFilterChange ft v fs))
  /\ NoDup (f_risk (handleFilterChange ft v fs)).
Proof. intros Hs Hr. destruct ft; simpl; split; by try apply toggle_NoDup. Qed.

(** ** Scenarios and witnesses *)

Definition fixture : list Contract :=
  [ mkRow "1" "Acme Supply" "Acme Corp, Beta LLC" "2025-01-01" "Active" "Low";
    mkRow "2" "Lease" "Beta" "2024-06-30" "Expired" "High";
    mkRow "3" "Gamma NDA" "ACME Holdings" "2025-09-01" "Renewal Due" "Medium";
    mkRow "4" "Delta MSA" "Delta Inc" "2023-12-31" "Expired" "Low" ]%string.

(** Scenario B: the query "Acme" matches "Acme" and "ACME" alike. *)
Example scenario_B :
  map id (applyFilters fixture "Acme" emptyFilters) = ["1"; "3"]%string.
Proof. vm_compute. reflexivity. Qed.

(** Scenario C: the two facets intersect; an empty intersection gives
    an empty view. *)
Example scenario_C :
  map id (applyFilters fixture "" (mkFilters ["Expired"] ["High"])) = ["2"]%string
  /\ applyFilters fixture "" (mkFilters ["Active"] ["High"]) = [].
Proof. split; vm_compute; reflexivity. Qed.

(** A query of one blank keeps a record that contains no blank, which
    the spec's search predicate rejects. *)
Example blank_query_keeps_all :
  applyFilters [mkRow "2" "Lease" "Beta" "" "Expired" "High"] " " emptyFilters
    = [mkRow "2" "Lease" "Beta" "" "Expired" "High"]
  /\ List.filter (specKeep " " emptyFilters) [mkRow "2" "Lease" "Beta" "" "Expired" "High"] = [].
Proof. split; vm_compute; reflexivity. Qed.

Lemma applyFilters_refines_spec_witness :
  (JsString.allSpace "acme" = true -> "acme"%string = EmptyString)
  /\ applyFilters fixture "acme" (mkFilters ["Active"] [])
     = List.filter (specKeep "acme" (mkFilters ["Active"] [])) fixture.
Proof.
  split; [vm_compute; discriminate|].
  apply applyFilters_refines_spec. vm_compute. discriminate.
Defined.

Lemma applyFilters_no_filters_witness :
  JsString.allSpace " 	" = true /\ applyFilters fixture " 	" emptyFilters = fixture.
Proof.
  split; [vm_compute; reflexivity|].
  apply applyFilters_no_filters. vm_compute. reflexivity.
Defined.

Lemma handleFilterChange_NoDup_witness :
  NoDup (f_status (mkFilters ["Active"] [])) /\ NoDup (f_risk (mkFilters ["Active"] []))
  /\ NoDup (f_status (handleFilterChange FStatus "Expired" (mkFilters ["Active"] [])))
     /\ NoDup (f_risk (handleFilterChange FStatus "Expired" (mkFilters ["Active"] []))).
Proof.
  split; [simpl; apply NoDup_singleton|]. split; [simpl; apply NoDup_nil_2|].
  apply handleFilterChange_NoDup; simpl; [apply NoDup_singleton | apply NoDup_nil_2].
Defined.
End Filtering.
