(* ===== verification/Pagination.v ===== *)
(** The pagination of [ContractsDashboard.jsx] (lines 128-136, the
    summary line 268 and the controls 350-411): [totalPages] as
    [Math.ceil(length / itemsPerPage)], the visible slice
    [filteredContracts.slice(startIndex, endIndex)], [goToPage]'s clamp,
    and the handlers of the Previous, Next and numbered buttons.  Page
    numbers are JavaScript numbers that stay integers, modelled as [Z].
    The paginator does not look at the records, so it is stated for
    lists of any type ([Section Paginator]). *)

From S2P Require Import Prelude JsRuntime.

Module Pagination.

Definition itemsPerPage : Z := 10.

(** [Math.ceil(filteredContracts.length / itemsPerPage)]. *)
Definition totalPages (n : nat) : Z := ⌈ Z.of_nat n ⁄ itemsPerPage ⌉.

Definition startIndex (currentPage : Z) : Z := ((currentPage - 1) * itemsPerPage)%Z.

Definition endIndex (currentPage : Z) : Z := (startIndex currentPage + itemsPerPage)%Z.

(** [setCurrentPage(Math.max(1, Math.min(totalPages, page)))]: the page
    [goToPage] stores. *)
Definition goToPage (totalPages page : Z) : Z := Z.max 1 (Z.min totalPages page).

(** The Previous and Next buttons: [goToPage(currentPage - 1)] and
    [goToPage(currentPage + 1)]. *)
Definition prevPage (totalPages currentPage : Z) : Z := goToPage totalPages (currentPage - 1).
Definition nextPage (totalPages currentPage : Z) : Z := goToPage totalPages (currentPage + 1).

(** "Showing {startIndex + 1}-{Math.min(endIndex, n)} of {n} contracts". *)
Definition summary (n : nat) (currentPage : Z) : Z * Z * Z :=
  ((startIndex currentPage + 1)%Z, Z.min (endIndex currentPage) (Z.of_nat n), Z.of_nat n).

(** The numbered buttons: [[...Array(totalPages)].map((_, index) => index + 1)]. *)
Definition pageNumbers (totalPages : Z) : list Z :=
  map (fun i => Z.of_nat i + 1)%Z (seq 0 (Z.to_nat totalPages)).

Section Paginator.
Context {A : Type}.
Implicit Types (l : list A).

(** [filteredContracts.slice(startIndex, endIndex)]. *)
Definition currentContracts l (currentPage : Z) : list A :=
  JsArray.slice l (startIndex currentPage) (endIndex currentPage).

(** ** Lemmas *)

Lemma totalPages_spec n :
  (10 * (totalPages n - 1) < Z.of_nat n <= 10 * totalPages n)%Z.
Proof. apply JsMath.ceilDiv_spec. unfold itemsPerPage. lia. Qed.

Lemma totalPages_nonneg n : (0 <= totalPages n)%Z.
Proof. apply JsMath.ceilDiv_nonneg; unfold itemsPerPage; lia. Qed.

(** From page 1 on, the slice is the [p]-th block of ten. *)
Lemma currentContracts_block l p :
  (1 <= p)%Z ->
  currentContracts l p = take 10 (drop (10 * (Z.to_nat p - 1)) l).
Proof.
  intros Hp. unfold currentContracts, endIndex, startIndex, itemsPerPage.
  replace ((p - 1) * 10)%Z with (Z.of_nat (10 * (Z.to_nat p - 1))) by lia.
  replace (Z.of_nat (10 * (Z.to_nat p - 1)) + 10)%Z
    with (Z.of_nat (10 * (Z.to_nat p - 1) + 10)) by lia.
  rewrite JsArray.slice_nat by lia. f_equal. lia.
Qed.

(** Consecutive blocks of [m] concatenate to a prefix of the list. *)
Lemma concat_blocks l m k j :
  concat (map (fun i => take m (drop (m * (i + j)) l)) (seq 0 k))
  = take (m * k) (drop (m * j) l).
Proof.
  revert j. induction k as [|k IH]; intros j; simpl; [by rewrite Nat.mul_0_r, take_0|].
  rewrite <- seq_shift, map_map.
  erewrite map_ext; [rewrite (IH (S j))|].
  - replace (m * (0 + j)) with (m * j) by lia.
    replace (m * S j) with (m * j + m) by lia.
    rewrite <- drop_drop, take_take_drop. f_equal. lia.
  - intros i. simpl. do 3 f_equal. lia.
Qed.

Lemma currentContracts_length l p :
  (1 <= p)%Z ->
  length (currentContracts l p) = 10 `min` (length l - 10 * (Z.to_nat p - 1)).
Proof. intros Hp. by rewrite currentContracts_block, length_take, length_drop. Qed.

Lemma currentContracts_nonempty l p :
  (1 <= p <= totalPages (length l))%Z -> (1 <= length (currentContracts l p))%nat.
Proof.
  intros Hp. pose proof (totalPages_spec (length l)).
  rewrite currentContracts_length by lia. lia.
Qed.

Lemma currentContracts_sublist l p : (1 <= p)%Z -> sublist (currentContracts l p) l.
Proof.
  intros Hp. rewrite currentContracts_block by done.
  etransitivity; [apply sublist_take | apply sublist_drop].
Qed.

(** ** Properties *)

(** C23. [totalPages] is the ceiling of [n / 10]: the least page count
    whose pages hold [n] records. *)
Theorem totalPages_least n t :
  (Z.of_nat n <= 10 * t)%Z <-> (totalPages n <= t)%Z.
Proof. pose proof (totalPages_spec n). split; intros; nia. Qed.

(** C8. [goToPage] always stores a page in [1, max(1, totalPages)], and
    keeps a requested page that is already in range. *)
Theorem goToPage_range t p :
  (1 <= goToPage t p <= Z.max 1 t)%Z
  /\ ((1 <= p <= t)%Z -> goToPage t p = p).
Proof. unfold goToPage. split; [apply clamp_bounds | apply clamp_id]. Qed.

(** C7. The pages, in the order of their buttons, concatenate to the
    whole filtered view: every record is on exactly one page, in view
    order. *)
Theorem pages_concat l :
  concat (map (currentContracts l) (pageNumbers (totalPages (length l)))) = l.
Proof.
  unfold pageNumbers. rewrite map_map.
  erewrite map_ext_in; [rewrite (concat_blocks l 10 _ 0)|].
  - rewrite drop_0. apply take_ge. pose proof (totalPages_spec (length l)).
    pose proof (totalPages_nonneg (length l)). lia.
  - intros i _. rewrite currentContracts_block by lia. do 3 f_equal. lia.
Qed.

(** C24. Every page from 1 to [totalPages] shows between one and ten
    records, and the summary line's range matches them:
    [to - from + 1] is the number of rows shown. *)
Theorem page_rows_summary l p :
  (1 <= p <= totalPages (length l))%Z ->
  let '(from, to, total) := summary (length l) p in
  (1 <= length (currentContracts l p) <= 10)%nat
  /\ (to - from + 1)%Z = Z.of_nat (length (currentContracts l p))
  /\ total = Z.of_nat (length l).
Proof.
  intros Hp. pose proof (currentContracts_nonempty l p Hp).
  pose proof (totalPages_spec (length l)).
  unfold summary, endIndex, startIndex, itemsPerPage.
  rewrite currentContracts_length in * by lia. lia.
Qed.

(** Next at the last page and Previous at page 1 stay put; inside
    the range they move by exactly one page. *)
Theorem prev_next_moves t p :
  (1 <= p <= t)%Z ->
  nextPage t p = (if (p <? t)%Z then p + 1 else p)%Z
  /\ prevPage t p = (if (1 <? p)%Z then p - 1 else p)%Z.
Proof.
  intros Hp. unfold nextPage, prevPage, goToPage.
  destruct (Z.ltb_spec p t), (Z.ltb_spec 1 p); lia.
Qed.
End Paginator.

(** C37. With no matching record, [totalPages] is 0 (the spec asks for
    1), every [goToPage] stores page 1, and the summary line reads
    "Showing 1-0 of 0". *)
Theorem empty_view_pagination p :
  totalPages 0 = 0%Z /\ goToPage (totalPages 0) p = 1%Z /\ summary 0 1 = (1, 0, 0)%Z.
Proof.
  assert (totalPages 0 = 0%Z) as E by reflexivity.
  unfold goToPage. rewrite E. split_and!; [done | lia | done].
Qed.

(** Scenario A: 25 records give three pages; page 1 holds records 1-10
    and page 3 records 21-25. *)
Example scenario_A :
  let l := seq 1 25 in
  totalPages (length l) = 3%Z
  /\ currentContracts l 1 = seq 1 10 /\ currentContracts l 3 = seq 21 5.
Proof. vm_compute. split_and!; reflexivity. Qed.

Lemma goToPage_range_witness :
  (1 <= 2 <= 3)%Z /\ goToPage 3 2 = 2%Z /\ goToPage 3 0 = 1%Z /\ goToPage 3 (3 + 5) = 3%Z.
Proof.
  split; [lia|]. split; [apply (goToPage_range 3 2); lia|].
  split; vm_compute; reflexivity.
Defined.

Lemma page_rows_summary_witness :
  (1 <= 3 <= totalPages (length (seq 1 25)))%Z
  /\ (let '(from, to, total) := summary (length (seq 1 25)) 3 in
      (1 <= length (currentContracts (seq 1 25) 3) <= 10)%nat
      /\ (to - from + 1)%Z = Z.of_nat (length (currentContracts (seq 1 25) 3))
      /\ total = Z.of_nat (length (seq 1 25))).
Proof.
  split; [vm_compute; split; discriminate|].
  apply page_rows_summary. vm_compute. split; discriminate.
Defined.

Lemma prev_next_moves_witness :
  (1 <= 3 <= 3)%Z /\ nextPage 3 3 = 3%Z /\ prevPage 3 3 = 2%Z.
Proof.
  split; [lia|]. exact (prev_next_moves 3 3 ltac:(lia)).
Defined.
End Pagination.
