(* ===== verification/ContractsApi.v ===== *)
(** [contractsApi] of [src/src/services/api.js] (lines 7-88).  Each
    function awaits a delay (not modelled: it only postpones), fetches
    [/contracts.json], checks [response.ok], parses the body and
    computes its result, all inside a [try] whose [catch] replaces any
    error by a message of its own.  The network is an input: the fetch
    either fails or yields a response with an [ok] flag and a body
    that parses to a list of contracts or does not parse. *)

From S2P Require Import Prelude JsRuntime Contract Filtering.

Module ContractsApi.

Record Response := mkResponse {
  ok : bool;
  json_body : option (list Contract);
}.

(** What [fetch('/contracts.json')] does: [None] is a network failure. *)
Definition FetchOutcome := option Response.

Definition fetch (o : FetchOutcome) : Promise Response :=
  match o with Some r => Resolve r | None => Reject "Failed to fetch" end.

(** [await response.json()]: a body that does not parse rejects. *)
Definition responseJson (r : Response) : Promise (list Contract) :=
  match json_body r with
  | Some cs => Resolve cs
  | None => Reject "Unexpected token in JSON"
  end.

(** [getContracts()]. *)
Definition getContracts (o : FetchOutcome) : Promise (list Contract) :=
  catch
    (await response <- fetch o in
     if negb (ok response) then Reject "Failed to fetch contracts" else
     await contracts <- responseJson response in
     Resolve contracts)
    (fun _ => Reject "Failed to load contracts data").

(** [contracts.find(c => c.id === id)]. *)
Definition findById (i : string) (contracts : list Contract) : option Contract :=
  List.find (fun c => bool_decide (id c = i)) contracts.

(** [getContractById(id)]. *)
Definition getContractById (o : FetchOutcome) (i : string) : Promise Contract :=
  catch
    (await response <- fetch o in
     if negb (ok response) then Reject "Failed to fetch contract" else
     await contracts <- responseJson response in
     match findById i contracts with
     | None => Reject "Contract not found"
     | Some contract => Resolve contract
     end)
    (fun _ => Reject "Failed to load contract details").

(** [searchContracts(query)]: the dashboard's search callback, with no
    [trim] guard. *)
Definition searchContracts (o : FetchOutcome) (query : string) : Promise (list Contract) :=
  catch
    (await response <- fetch o in
     if negb (ok response) then Reject "Failed to search contracts" else
     await contracts <- responseJson response in
     Resolve (List.filter (Filtering.matchesSearch query) contracts))
    (fun _ => Reject "Failed to search contracts").

(** The [filters] argument of [filterContracts]: either field may be
    absent ([undefined]). *)
Record ApiFilters := mkApiFilters {
  api_status : option (list string);
  api_risk : option (list string);
}.

(** [filters.x && filters.x.length > 0]. *)
Definition selected (sel : option (list string)) : option (list string) :=
  match sel with
  | Some l => if (0 <? length l)%nat then Some l else None
  | None => None
  end.

(** [filterContracts(filters)]. *)
Definition filterContracts (o : FetchOutcome) (filters : ApiFilters) : Promise (list Contract) :=
  catch
    (await response <- fetch o in
     if negb (ok response) then Reject "Failed to filter contracts" else
     await contracts <- responseJson response in
     let contracts :=
       match selected (api_status filters) with
       | Some l => List.filter (fun c => JsArray.includes l (status c)) contracts
       | None => contracts
       end in
     let contracts :=
       match selected (api_risk filters) with
       | Some l => List.filter (fun c => JsArray.includes l (risk c)) contracts
       | None => contracts
       end in
     Resolve contracts)
    (fun _ => Reject "Failed to filter contracts").


(** ** Lemmas *)

(** The shape of every function: a good response with a parsed body
    runs the body's computation, anything else rejects with the
    function's own message. *)
Lemma api_shape {A} (o : FetchOutcome) (m1 m2 : string)
    (f : list Contract -> Promise A) :
  catch (await response <- fetch o in
         if negb (ok response) then Reject m1 else
         await contracts <- responseJson response in f contracts)
        (fun _ => Reject m2)
  = match o with
    | Some (mkResponse true (Some cs)) => catch (f cs) (fun _ => Reject m2)
    | _ => Reject m2
    end.
Proof. by destruct o as [[[] [cs|]]|]. Qed.

Lemma findById_spec i cs c :
  findById i cs = Some c <->
  exists pre post, cs = pre ++ c :: post /\ id c = i /\ Forall (fun d => id d <> i) pre.
Proof.
  unfold findById. induction cs as [|d cs IH]; simpl.
  - split; [done|]. intros ([|] & ? & ? & _); discriminate.
  - case_bool_decide as Hd.
    + split.
      * intros [= <-]. exists [], cs. by split_and!.
      * intros ([|e pre] & post & E & Hc & Hpre); simpl in E; [congruence|].
        injection E as -> ->. by apply Forall_cons_1 in Hpre as [? _].
    + rewrite IH. split.
      * intros (pre & post & -> & Hc & Hpre). exists (d :: pre), post. by split_and!; [| | constructor].
      * intros ([|e pre] & post & E & Hc & Hpre); simpl in E; injection E as -> E; [congruence|].
        apply Forall_cons_1 in Hpre as [_ Hpre]. eauto.
Qed.

(** ** Properties *)

(** C27. [getContracts] resolves with the parsed list exactly when the
    fetch succeeds with an [ok] response whose body parses; every other
    outcome (network failure, HTTP error, bad JSON) rejects with the one
    message "Failed to load contracts data". *)
Theorem getContracts_result o :
  getContracts o =
  match o with
  | Some (mkResponse true (Some cs)) => Resolve cs
  | _ => Reject "Failed to load contracts data"
  end.
Proof. unfold getContracts. rewrite api_shape. by destruct o as [[[] [cs|]]|]. Qed.

(** C28. [getContractById] resolves with the first contract of the list
    whose id is the requested one; when none has it, or the fetch or
    the parse fails, it rejects with "Failed to load contract details":
    the "Contract not found" error it throws is replaced by its own
    [catch]. *)
Theorem getContractById_result o i :
  match getContractById o i with
  | Resolve c =>
      exists cs pre post, o = Some (mkResponse true (Some cs))
      /\ cs = pre ++ c :: post /\ id c = i /\ Forall (fun d => id d <> i) pre
  | Reject m =>
      m = "Failed to load contract details"%string
      /\ forall cs, o = Some (mkResponse true (Some cs)) -> findById i cs = None
  end.
Proof.
  unfold getContractById. rewrite api_shape.
  destruct o as [[[] [cs|]]|]; simpl; try (split; [done | by intros ? [=]]).
  destruct (findById i cs) eqn:E; simpl.
  - apply findById_spec in E as (pre & post & ? & ? & ?). by exists cs, pre, post.
  - split; [done|]. by intros ? [= <-].
Qed.

(** [filterContracts] with both facets given filters as the
    dashboard does with an empty query. *)
Theorem filterContracts_agrees cs s r :
  filterContracts (Some (mkResponse true (Some cs))) (mkApiFilters (Some s) (Some r))
  = Resolve (Filtering.applyFilters cs "" (Filtering.mkFilters s r)).
Proof.
  unfold filterContracts, Filtering.applyFilters, selected. simpl.
  by destruct (0 <? length s)%nat, (0 <? length r)%nat.
Qed.

(** [searchContracts] has no [trim] guard: a blank query keeps only the
    records containing it, where the dashboard keeps every record. *)
Example searchContracts_blank :
  searchContracts (Some (mkResponse true (Some Filtering.fixture))) " " =
  Resolve [mkRow "1" "Acme Supply" "Acme Corp, Beta LLC" "2025-01-01" "Active" "Low";
           mkRow "3" "Gamma NDA" "ACME Holdings" "2025-09-01" "Renewal Due" "Medium";
           mkRow "4" "Delta MSA" "Delta Inc" "2023-12-31" "Expired" "Low"]%string
  /\ Filtering.applyFilters Filtering.fixture " " Filtering.emptyFilters = Filtering.fixture.
Proof. split; vm_compute; reflexivity. Qed.

End ContractsApi.
