(* ===== verification/Dashboard.v ===== *)
(** [ContractsDashboard.jsx] as a state machine.

    The component's [useState] hooks are the fields of [DashState]; each
    setter is a function on it, and each handler is composed of the
    setters it calls.  After a handler, React renders and then runs the
    effect [useEffect(applyFiltersAndSearch, [contracts, searchQuery,
    filters])] when one of its dependencies changed since its last run,
    compared with [Object.is]: by value for the string, by identity for
    the array and the object.  Identity is modelled by a version counter
    that each [setContracts] and [setFilters] call advances, since both
    always receive a fresh array or object.  [loadContracts] is split at
    its [await]: [loadContracts_begin] runs the code before it,
    [loadContracts_resume] the code after it (and the [finally]) once
    [getContracts] settles; [inflight] counts the calls waiting there.

    [enabled] says which controls the current render shows (the loading
    skeleton has none, the error view only "Try Again", disabled
    pagination buttons fire nothing); [reachable] is the set of states
    the user and the network can drive the component into. *)

From S2P Require Import Prelude JsRuntime Contract Filtering Pagination ContractsApi.

Module Dashboard.
Import Filtering ContractsApi.

Record DashState := mkDash {
  contracts : list Contract;
  contractsVer : nat;
  filteredContracts : list Contract;
  loading : bool;
  error : option string;
  searchQuery : string;
  filters : Filters;
  filtersVer : nat;
  currentPage : Z;
  showFilters : bool;
  inflight : nat;
  lastDeps : option (nat * string * nat);
}.

(** ** The [useState] setters *)

Definition setContracts (data : list Contract) (s : DashState) : DashState :=
  mkDash data (S (contractsVer s)) (filteredContracts s) (loading s) (error s)
    (searchQuery s) (filters s) (filtersVer s) (currentPage s) (showFilters s)
    (inflight s) (lastDeps s).

Definition setFilteredContracts (l : list Contract) (s : DashState) : DashState :=
  mkDash (contracts s) (contractsVer s) l (loading s) (error s)
    (searchQuery s) (filters s) (filtersVer s) (currentPage s) (showFilters s)
    (inflight s) (lastDeps s).

Definition setLoading (b : bool) (s : DashState) : DashState :=
  mkDash (contracts s) (contractsVer s) (filteredContracts s) b (error s)
    (searchQuery s) (filters s) (filtersVer s) (currentPage s) (showFilters s)
    (inflight s) (lastDeps s).

Definition setError (e : option string) (s : DashState) : DashState :=
  mkDash (contracts s) (contractsVer s) (filteredContracts s) (loading s) e
    (searchQuery s) (filters s) (filtersVer s) (currentPage s) (showFilters s)
    (inflight s) (lastDeps s).

Definition setSearchQuery (q : string) (s : DashState) : DashState :=
  mkDash (contracts s) (contractsVer s) (filteredContracts s) (loading s) (error s)
    q (filters s) (filtersVer s) (currentPage s) (showFilters s)
    (inflight s) (lastDeps s).

Definition setFilters (fs : Filters) (s : DashState) : DashState :=
  mkDash (contracts s) (contractsVer s) (filteredContracts s) (loading s) (error s)
    (searchQuery s) fs (S (filtersVer s)) (currentPage s) (showFilters s)
    (inflight s) (lastDeps s).

Definition setCurrentPage (p : Z) (s : DashState) : DashState :=
  mkDash (contracts s) (contractsVer s) (filteredContracts s) (loading s) (error s)
    (searchQuery s) (filters s) (filtersVer s) p (showFilters s)
    (inflight s) (lastDeps s).

Definition setShowFilters (b : bool) (s : DashState) : DashState :=
  mkDash (contracts s) (contractsVer s) (filteredContracts s) (loading s) (error s)
    (searchQuery s) (filters s) (filtersVer s) (currentPage s) b
    (inflight s) (lastDeps s).

Definition setInflight (n : nat) (s : DashState) : DashState :=
  mkDash (contracts s) (contractsVer s) (filteredContracts s) (loading s) (error s)
    (searchQuery s) (filters s) (filtersVer s) (currentPage s) (showFilters s)
    n (lastDeps s).

Definition setLastDeps (d : option (nat * string * nat)) (s : DashState) : DashState :=
  mkDash (contracts s) (contractsVer s) (filteredContracts s) (loading s) (error s)
    (searchQuery s) (filters s) (filtersVer s) (currentPage s) (showFilters s)
    (inflight s) d.

(** ** Handlers *)

(** The first render's state: the [useState] initial values. *)
Definition initialState : DashState :=
  mkDash [] 0 [] true None "" emptyFilters 0 1 false 0 None.

(** [loadContracts] up to [await contractsApi.getContracts()]. *)
Definition loadContracts_begin (s : DashState) : DashState :=
  setInflight (S (inflight s)) (setError None (setLoading true s)).

(** The rest of [loadContracts] once [getContracts] settled: [setContracts]
    or [setError(err.message)], then [finally setLoading(false)]. *)
Definition loadContracts_resume (o : FetchOutcome) (s : DashState) : DashState :=
  let s := match getContracts o with
           | Resolve data => setContracts data s
           | Reject m => setError (Some m) s
           end in
  setLoading false (setInflight (pred (inflight s)) s).

Definition applyFiltersAndSearch (s : DashState) : DashState :=
  setCurrentPage 1
    (setFilteredContracts (applyFilters (contracts s) (searchQuery s) (filters s)) s).

Definition clearFilters (s : DashState) : DashState :=
  setSearchQuery "" (setFilters emptyFilters s).

Definition pageCount (s : DashState) : Z := Pagination.totalPages (length (filteredContracts s)).

(** [goToPage(page)]. *)
Definition goToPage (page : Z) (s : DashState) : DashState :=
  setCurrentPage (Pagination.goToPage (pageCount s) page) s.

(** The effect's dependency list [[contracts, searchQuery, filters]]. *)
Definition deps (s : DashState) : nat * string * nat :=
  (contractsVer s, searchQuery s, filtersVer s).

(** React's commit: run the effect when its dependencies changed. *)
Definition commit (s : DashState) : DashState :=
  if decide (lastDeps s = Some (deps s)) then s
  else setLastDeps (Some (deps s)) (applyFiltersAndSearch s).

(** Mounting: both effects run, [loadContracts()] first. *)
Definition mount : DashState := commit (loadContracts_begin initialState).

(** ** What the user and the network can do *)

(** The controls of the rendered page, and the settling of a pending
    [getContracts()] call. *)
Inductive Event :=
| SearchInput (q : string)                       (** the search box's [onChange] *)
| FiltersButton                                  (** "Filters" *)
| FilterCheckbox (ft : FilterType) (value : string)  (** a status or risk box *)
| ClearButton                                    (** "Clear all filters" *)
| PreviousButton                                 (** "Previous" or the left chevron *)
| NextButton                                     (** "Next" or the right chevron *)
| PageButton (page : Z)                          (** a numbered page button *)
| TryAgainButton                                 (** "Try Again" *)
| LoadSettled (o : FetchOutcome).                (** [getContracts()] settles *)

(** The check boxes offered for a facet. *)
Definition facetOptions (ft : FilterType) : list string :=
  match ft with FStatus => statusOptions | FRisk => riskOptions end.

(** [if (error)]: a non-empty message shows the error view. *)
Definition errorShown (s : DashState) : bool :=
  match error s with Some m => JsString.truthy m | None => false end.

(** Neither [if (loading)] nor [if (error)] returned early. *)
Definition mainShown (s : DashState) : bool := negb (loading s) && negb (errorShown s).

(** [filters.status.length > 0 || filters.risk.length > 0 || searchQuery]. *)
Definition anyCriterion (s : DashState) : bool :=
  (0 <? length (f_status (filters s)))%nat || (0 <? length (f_risk (filters s)))%nat
  || JsString.truthy (searchQuery s).

(** The table (not "No contracts found") with [totalPages > 1]. *)
Definition pagerShown (s : DashState) : bool :=
  (0 <? length (filteredContracts s))%nat && (1 <? pageCount s)%Z.

Definition enabled (ev : Event) (s : DashState) : bool :=
  match ev with
  | LoadSettled _ => (0 <? inflight s)%nat
  | TryAgainButton => negb (loading s) && errorShown s
  | SearchInput _ | FiltersButton => mainShown s
  | FilterCheckbox ft v => mainShown s && showFilters s && JsArray.includes (facetOptions ft) v
  | ClearButton => mainShown s && showFilters s && anyCriterion s
  | PreviousButton => mainShown s && pagerShown s && negb (bool_decide (currentPage s = 1%Z))
  | NextButton => mainShown s && pagerShown s && negb (bool_decide (currentPage s = pageCount s))
  | PageButton p => mainShown s && pagerShown s && JsArray.includes (Pagination.pageNumbers (pageCount s)) p
  end.

(** The handler each control calls. *)
Definition handle (ev : Event) (s : DashState) : DashState :=
  match ev with
  | SearchInput q => setSearchQuery q s
  | FiltersButton => setShowFilters (negb (showFilters s)) s
  | FilterCheckbox ft v => setFilters (handleFilterChange ft v (filters s)) s
  | ClearButton => clearFilters s
  | PreviousButton => goToPage (currentPage s - 1) s
  | NextButton => goToPage (currentPage s + 1) s
  | PageButton p => goToPage p s
  | TryAgainButton => loadContracts_begin s
  | LoadSettled o => loadContracts_resume o s
  end.

(** One event: its handler, then React's render and commit. *)
Definition step (ev : Event) (s : DashState) : DashState := commit (handle ev s).

Inductive reachable : DashState -> Prop :=
| reachable_mount : reachable mount
| reachable_step ev s : reachable s -> enabled ev s = true -> reachable (step ev s).

(** What holds between events: the effect has caught up with its
    dependencies, the view and page agree with the store and the
    criteria, and the controls' own state is well formed. *)
Definition inv_data (s : DashState) : Prop :=
  filteredContracts s = applyFilters (contracts s) (searchQuery s) (filters s)
  /\ (1 <= currentPage s <= Z.max 1 (pageCount s))%Z.

Definition inv_ctrl (s : DashState) : Prop :=
  NoDup (f_status (filters s)) /\ NoDup (f_risk (filters s))
  /\ f_status (filters s) ⊆ statusOptions /\ f_risk (filters s) ⊆ riskOptions
  /\ (inflight s <= 1)%nat /\ (loading s = true <-> inflight s = 1%nat)
  /\ (errorShown s = true -> loading s = false).

Definition inv (s : DashState) : Prop :=
  lastDeps s = Some (deps s) /\ inv_data s /\ inv_ctrl s.

(** ** Lemmas *)

Ltac dash_simpl :=
  unfold step, handle, commit, applyFiltersAndSearch, loadContracts_begin,
    loadContracts_resume, clearFilters, goToPage, pageCount, deps,
    setContracts, setFilteredContracts, setLoading, setError, setSearchQuery,
    setFilters, setCurrentPage, setShowFilters, setInflight, setLastDeps in *; simpl in *.

Lemma commit_inv s :
  inv_ctrl s -> (lastDeps s = Some (deps s) -> inv_data s) -> inv (commit s).
Proof.
  intros Hc Hd. unfold commit. case_decide as E.
  - split; [done|]. split; [by apply Hd | done].
  - destruct Hc as (? & ? & ? & ? & ? & ? & ?).
    unfold inv, inv_data, inv_ctrl, errorShown, pageCount, deps; simpl.
    split_and!; try done; lia.
Qed.

Lemma handle_lastDeps ev s : lastDeps (handle ev s) = lastDeps s.
Proof. destruct ev; dash_simpl; try destruct (getContracts o); done. Qed.

(** A handler that leaves the effect's dependencies alone leaves the
    store, the criteria and the view alone. *)
Lemma handle_data ev s :
  deps (handle ev s) = deps s ->
  contracts (handle ev s) = contracts s /\ searchQuery (handle ev s) = searchQuery s
  /\ filters (handle ev s) = filters s
  /\ filteredContracts (handle ev s) = filteredContracts s.
Proof.
  destruct ev; dash_simpl; intros E; try (injection E; lia); try done.
  - by injection E as ->.
  - destruct (getContracts o); simpl in *; [injection E; lia | done].
Qed.

Lemma handle_page ev s :
  inv_data s -> deps (handle ev s) = deps s ->
  (1 <= currentPage (handle ev s) <= Z.max 1 (pageCount (handle ev s)))%Z.
Proof.
  intros [_ Hp] E. pose proof (handle_data ev s E) as (_ & _ & _ & Hf).
  unfold pageCount in *. rewrite Hf.
  destruct ev; dash_simpl; try apply clamp_bounds; try done.
  destruct (getContracts o); simpl in *; done.
Qed.

Lemma toggle_options ft v l :
  l ⊆ facetOptions ft -> JsArray.includes (facetOptions ft) v = true ->
  toggle l v ⊆ facetOptions ft.
Proof.
  intros Hl Hv x Hx. apply JsArray.array_includes_spec in Hv.
  apply toggle_elem in Hx as [[? _] | [-> _]]; [by apply Hl | done].
Qed.

Lemma handle_ctrl ev s : inv_ctrl s -> enabled ev s = true -> inv_ctrl (handle ev s).
Proof.
  intros (Hns & Hnr & Hss & Hsr & Hin & Hl & He) En.
  destruct ev; simpl in En; bool_props.
  - done.
  - done.
  - destruct ft; dash_simpl; split_and!; try done;
      (apply toggle_NoDup || apply (toggle_options FStatus) || apply (toggle_options FRisk)); done.
  - dash_simpl. split_and!; try done; try constructor; set_solver.
  - done.
  - done.
  - done.
  - assert (inflight s <> 1%nat) by (intros E1; apply Hl in E1; congruence).
    unfold inv_ctrl, errorShown. dash_simpl.
    split_and!; try done; [lia | split; [lia | done]].
  - apply Nat.ltb_lt in En. unfold inv_ctrl, errorShown. dash_simpl.
    destruct (getContracts o); simpl; split_and!; try done; lia.
Qed.

Lemma commit_skip s : lastDeps s = Some (deps s) -> commit s = s.
Proof. unfold commit. by case_decide. Qed.

Lemma commit_run s :
  lastDeps s <> Some (deps s) ->
  commit s = setLastDeps (Some (deps s)) (applyFiltersAndSearch s).
Proof. unfold commit. by case_decide. Qed.

Lemma mount_state :
  mount = mkDash [] 0 [] true None "" emptyFilters 0 1 false 1 (Some (0, ""%string, 0)).
Proof. vm_compute. reflexivity. Qed.

Lemma inv_reachable s : reachable s -> inv s.
Proof.
  induction 1 as [|ev s _ [Hs [Hd Hc]] En].
  - rewrite mount_state. unfold inv, inv_data, inv_ctrl, errorShown, pageCount, deps.
    simpl. split_and!; try done; try lia; try apply NoDup_nil_2; set_solver.
  - apply commit_inv; [by apply handle_ctrl|].
    rewrite handle_lastDeps, Hs. intros E0.
    assert (deps (handle ev s) = deps s) as E by congruence.
    split; [|by apply handle_page].
    pose proof (handle_data ev s E) as (-> & -> & -> & ->). apply Hd.
Qed.

(** A step whose handler leaves the dependencies alone is the handler. *)
Lemma step_same_deps ev s :
  reachable s -> deps (handle ev s) = deps s -> step ev s = handle ev s.
Proof.
  intros Hr E. destruct (inv_reachable s Hr) as [Hs _].
  apply commit_skip. by rewrite handle_lastDeps, Hs, E.
Qed.

(** ** Properties *)

(** C1. Every state the dashboard can reach satisfies the invariant:
    the effect has run for the current store, query and filters, so the
    view is exactly [applyFilters] of them; the current page is within
    [1, max(1, totalPages)]; the facet selections are duplicate-free
    subsets of the offered options; at most one load is pending, and
    [loading] is set exactly while it is; the error view never shows
    while loading. *)
Theorem reachable_inv s : reachable s -> inv s.
Proof. apply inv_reachable. Qed.

(** C2. Whenever an event changes the store, the query or the filters
    (the effect's dependencies), the view is recomputed from the new
    values and the page goes back to 1 (scenario D of the spec). *)
Theorem criteria_change_resets_page ev s :
  reachable s -> deps (handle ev s) <> deps s ->
  currentPage (step ev s) = 1%Z
  /\ filteredContracts (step ev s)
     = applyFilters (contracts (handle ev s)) (searchQuery (handle ev s)) (filters (handle ev s)).
Proof.
  intros Hr Hne. destruct (inv_reachable s Hr) as [Hs _].
  unfold step. rewrite commit_run by (rewrite handle_lastDeps, Hs; congruence). done.
Qed.

(** C12. A load that fails (network error, HTTP error or bad JSON)
    leaves the store, the view and the page as they were, shows the
    message "Failed to load contracts data" and clears [loading]. *)
Theorem load_failure_keeps_store o s :
  reachable s -> (forall cs, o <> Some (mkResponse true (Some cs))) ->
  let s' := step (LoadSettled o) s in
  contracts s' = contracts s /\ filteredContracts s' = filteredContracts s
  /\ currentPage s' = currentPage s
  /\ error s' = Some "Failed to load contracts data"%string /\ loading s' = false.
Proof.
  intros Hr Ho. pose proof (getContracts_result o) as Hg.
  assert (getContracts o = Reject "Failed to load contracts data") as E
    by (destruct o as [[[] [cs|]]|]; try done; by destruct (Ho cs)).
  simpl. rewrite step_same_deps by (try done; dash_simpl; by rewrite E).
  dash_simpl. by rewrite E.
Qed.

(** C5. Every row on the current page is a stored contract that passes
    the search and both facets. *)
Theorem visible_rows_match s c :
  reachable s -> In c (Pagination.currentContracts (filteredContracts s) (currentPage s)) ->
  In c (contracts s) /\ keep (searchQuery s) (filters s) c = true.
Proof.
  intros Hr Hc. destruct (inv_reachable s Hr) as (_ & [Hf Hp] & _).
  assert (c ∈ filteredContracts s) as Hc'.
  { apply (elem_of_sublist _ _ _ (proj2 (list_elem_of_In _ _) Hc)).
    apply Pagination.currentContracts_sublist. lia. }
  apply list_elem_of_In in Hc'. rewrite Hf in Hc'. exact (proj1 (project_In (F := string * Filters) (_, _) _ c) Hc').
Qed.

(** C6. The page shown is never out of range: when the view has a
    record, the current page shows at least one. *)
Theorem visible_page_nonempty s :
  reachable s -> filteredContracts s <> [] ->
  Pagination.currentContracts (filteredContracts s) (currentPage s) <> [].
Proof.
  intros Hr Hne. destruct (inv_reachable s Hr) as (_ & [_ Hp] & _).
  unfold pageCount in Hp. pose proof (Pagination.totalPages_spec (length (filteredContracts s))).
  destruct (filteredContracts s) as [|c l] eqn:E; [done|]. simpl in *.
  intros Hnil. pose proof (Pagination.currentContracts_nonempty (c :: l) (currentPage s)) as H1.
  rewrite Hnil in H1. simpl in H1. lia.
Qed.

(** C36. From the error view, "Try Again" starts a load, and when it
    succeeds the store holds the new list, the error is gone, loading is
    over and the view shows the first page of the new list filtered by
    the unchanged criteria. *)
Theorem try_again_recovers s cs :
  reachable s -> errorShown s = true ->
  enabled TryAgainButton s = true
  /\ enabled (LoadSettled (Some (mkResponse true (Some cs)))) (step TryAgainButton s) = true
  /\ (let s2 := step (LoadSettled (Some (mkResponse true (Some cs)))) (step TryAgainButton s) in
      contracts s2 = cs /\ error s2 = None /\ loading s2 = false /\ currentPage s2 = 1%Z
      /\ filteredContracts s2 = applyFilters cs (searchQuery s) (filters s)).
Proof.
  intros Hr He. destruct (inv_reachable s Hr) as (Hs & _ & (_ & _ & _ & _ & _ & _ & Hel)).
  pose proof (Hel He) as Hlf.
  rewrite (step_same_deps TryAgainButton) by done.
  split; [unfold enabled; by rewrite Hlf, He|].
  split; [reflexivity|].
  unfold step. rewrite commit_run.
  - cbn -[applyFilters]. by split_and!.
  - cbn -[applyFilters]. rewrite Hs. intros [=]; lia.
Qed.

(** ** Scenarios and witnesses *)

(** Twenty-five contracts, enough for three pages. *)
Definition demoRows : list Contract :=
  map (fun n => mkRow (String.string_of_list_ascii [Ascii.ascii_of_nat (65 + n)])
                      "Lease" "Acme" "2025-01-01" "Active" "Low") (seq 0 25).

Definition loadedDemo : DashState :=
  step (LoadSettled (Some (mkResponse true (Some demoRows)))) mount.

Definition failedDemo : DashState := step (LoadSettled None) mount.

Lemma loadedDemo_reachable : reachable loadedDemo.
Proof. apply reachable_step; [apply reachable_mount | vm_compute; reflexivity]. Qed.

Lemma failedDemo_reachable : reachable failedDemo.
Proof. apply reachable_step; [apply reachable_mount | vm_compute; reflexivity]. Qed.

(** Scenario D: after moving to page 2, typing a query brings the page
    back to 1. *)
Example scenario_D :
  currentPage (step (PageButton 2) loadedDemo) = 2%Z
  /\ currentPage (step (SearchInput "lease") (step (PageButton 2) loadedDemo)) = 1%Z.
Proof. split; vm_compute; reflexivity. Qed.

Lemma reachable_inv_witness : reachable loadedDemo /\ inv loadedDemo.
Proof. split; [apply loadedDemo_reachable | apply reachable_inv, loadedDemo_reachable]. Defined.

Lemma criteria_change_resets_page_witness :
  reachable loadedDemo
  /\ deps (handle (SearchInput "acme") loadedDemo) <> deps loadedDemo
  /\ currentPage (step (SearchInput "acme") loadedDemo) = 1%Z
  /\ filteredContracts (step (SearchInput "acme") loadedDemo)
     = applyFilters (contracts (handle (SearchInput "acme") loadedDemo))
         (searchQuery (handle (SearchInput "acme") loadedDemo))
         (filters (handle (SearchInput "acme") loadedDemo)).
Proof.
  assert (H : deps (handle (SearchInput "acme") loadedDemo) <> deps loadedDemo)
    by (vm_compute; discriminate).
  split; [apply loadedDemo_reachable|]. split; [exact H|].
  apply criteria_change_resets_page; [apply loadedDemo_reachable | exact H].
Defined.

Lemma load_failure_keeps_store_witness :
  reachable loadedDemo /\ (forall cs, (None : FetchOutcome) <> Some (mkResponse true (Some cs)))
  /\ (let s' := step (LoadSettled None) loadedDemo in
      contracts s' = contracts loadedDemo /\ filteredContracts s' = filteredContracts loadedDemo
      /\ currentPage s' = currentPage loadedDemo
      /\ error s' = Some "Failed to load contracts data"%string /\ loading s' = false).
Proof.
  split; [apply loadedDemo_reachable|]. split; [intros cs; discriminate|].
  apply load_failure_keeps_store; [apply loadedDemo_reachable | intros cs; discriminate].
Defined.

Lemma visible_rows_match_witness :
  reachable loadedDemo
  /\ In (mkRow "A" "Lease" "Acme" "2025-01-01" "Active" "Low")
       (Pagination.currentContracts (filteredContracts loadedDemo) (currentPage loadedDemo))
  /\ In (mkRow "A" "Lease" "Acme" "2025-01-01" "Active" "Low") (contracts loadedDemo)
  /\ keep (searchQuery loadedDemo) (filters loadedDemo)
       (mkRow "A" "Lease" "Acme" "2025-01-01" "Active" "Low") = true.
Proof.
  assert (H : In (mkRow "A" "Lease" "Acme" "2025-01-01" "Active" "Low")
       (Pagination.currentContracts (filteredContracts loadedDemo) (currentPage loadedDemo)))
    by (vm_compute; left; reflexivity).
  split; [apply loadedDemo_reachable|]. split; [exact H|].
  apply visible_rows_match; [apply loadedDemo_reachable | exact H].
Defined.

Lemma visible_page_nonempty_witness :
  reachable loadedDemo /\ filteredContracts loadedDemo <> []
  /\ Pagination.currentContracts (filteredContracts loadedDemo) (currentPage loadedDemo) <> [].
Proof.
  assert (H : filteredContracts loadedDemo <> []) by (vm_compute; discriminate).
  split; [apply loadedDemo_reachable|]. split; [exact H|].
  apply visible_page_nonempty; [apply loadedDemo_reachable | exact H].
Defined.

Lemma try_again_recovers_witness :
  reachable failedDemo /\ errorShown failedDemo = true
  /\ (enabled TryAgainButton failedDemo = true
      /\ enabled (LoadSettled (Some (mkResponse true (Some demoRows)))) (step TryAgainButton failedDemo) = true
      /\ (let s2 := step (LoadSettled (Some (mkResponse true (Some demoRows)))) (step TryAgainButton failedDemo) in
          contracts s2 = demoRows /\ error s2 = None /\ loading s2 = false /\ currentPage s2 = 1%Z
          /\ filteredContracts s2 = applyFilters demoRows (searchQuery failedDemo) (filters failedDemo))).
Proof.
  assert (H : errorShown failedDemo = true) by (vm_compute; reflexivity).
  split; [apply failedDemo_reachable|]. split; [exact H|].
  apply (try_again_recovers failedDemo demoRows); [apply failedDemo_reachable | exact H].
Defined.

End Dashboard.
