(* ===== verification/Auth.v ===== *)
(** Authentication: [authApi] of [src/src/services/api.js] (lines
    90-120) and [src/src/contexts/AuthContext.jsx]: the [authReducer]
    state machine, and the provider's session restore, [login] and
    [logout], which also write [localStorage].

    [localStorage] is a finite map from keys to strings ([gmap]).  The
    serialisations the code calls, [JSON.stringify]/[JSON.parse] of the
    user and [btoa(JSON.stringify(payload))] of the token, are the
    variables of [Section Provider], with the facts the code relies on
    as hypotheses: parsing a stringified user gives it back, and
    [JSON.parse("null")] is [null]; [Json] defines them and proves
    those facts.  [login] is split at its [await]
    like the dashboard's loader. *)

From S2P Require Import Prelude JsRuntime.
From stdpp Require Import gmap.

Module Auth.

Record User := mkUser { username : string; email : string; uname : string }.

(** The object [btoa(JSON.stringify(...))] encodes. *)
Record TokenPayload := mkPayload { p_username : string; exp : Z; iat : Z }.

Record LoginResponse := mkLoginResponse { resp_token : string; resp_user : User }.

(** What [JSON.parse(localStorage.getItem('auth_user'))] can give. *)
Inductive UserValue := UNull | UObj (u : User) | UOther.

(** [username.charAt(0).toUpperCase() + username.slice(1)]. *)
Definition capitalize (u : string) : string :=
  (JsString.toUpperCase (JsString.charAt0 u) ++ JsString.slice1 u)%string.

(** The user object [authApi.login] returns. *)
Definition mkLoginUser (u : string) : User :=
  mkUser u (u ++ "@example.com")%string (capitalize u).

(** ** [authReducer] *)

Record AuthState := mkAuth {
  isAuthenticated : bool;
  user : UserValue;
  token : option string;
  loading : bool;
  error : option string;
}.

(** The actions [AUTH_ACTIONS], and any other [type]. *)
Inductive Action :=
| LOGIN_START
| LOGIN_SUCCESS (u : User) (t : string)
| LOGIN_FAILURE (msg : string)
| LOGOUT
| RESTORE_SESSION (u : UserValue) (t : string)
| OTHER_ACTION.

Definition initialState : AuthState := mkAuth false UNull None false None.

Definition authReducer (state : AuthState) (action : Action) : AuthState :=
  match action with
  | LOGIN_START => mkAuth (isAuthenticated state) (user state) (token state) true None
  | LOGIN_SUCCESS u t => mkAuth true (UObj u) (Some t) false None
  | LOGIN_FAILURE msg => mkAuth false UNull None false (Some msg)
  | LOGOUT => mkAuth false UNull None false None
  | RESTORE_SESSION u t => mkAuth true u (Some t) false (error state)
  | OTHER_ACTION => state
  end.

Section Provider.
Context (stringifyUser : User -> string).
Context (parseUser : string -> option UserValue).
Context (btoaJson : TokenPayload -> string).

(** ** [authApi] *)

(** [authApi.login(username, password)]; the payload reads the clock
    twice, [Date.now()] is [tExp] when [exp] is computed and [tIat]
    when [iat] is (ms). *)
Definition authApi_login (username password : string) (tExp tIat : Z) : Promise LoginResponse :=
  if negb (bool_decide (password = "test123"%string)) then Reject "Invalid credentials"
  else Resolve (mkLoginResponse
                  (btoaJson (mkPayload username (tExp + 24 * 60 * 60 * 1000) tIat))
                  (mkLoginUser username)).

(** [authApi.logout()]. *)
Definition authApi_logout : Promise bool := Resolve true.

(** ** The provider *)

Abbreviation Storage := (gmap string string) (only parsing).

(** [localStorage.getItem(k)] is truthy. *)
Definition storedTruthy (ls : Storage) (k : string) : bool :=
  match ls !! k with Some v => JsString.truthy v | None => false end.

(** The mount effect: restore the session from [localStorage]; a user
    that does not parse removes both keys. *)
Definition restoreSession (st : AuthState) (ls : Storage) : AuthState * Storage :=
  match ls !! "auth_token"%string, ls !! "auth_user"%string with
  | Some t, Some u =>
      if JsString.truthy t && JsString.truthy u then
        match parseUser u with
        | Some parsed => (authReducer st (RESTORE_SESSION parsed t), ls)
        | None => (st, delete "auth_user"%string (delete "auth_token"%string ls))
        end
      else (st, ls)
  | _, _ => (st, ls)
  end.

(** [login] up to [await authApi.login(...)]. *)
Definition login_begin (st : AuthState) : AuthState := authReducer st LOGIN_START.

(** The rest of [login]: store and dispatch success, or dispatch failure. *)
Definition login_resume (r : Promise LoginResponse) (st : AuthState) (ls : Storage)
    : AuthState * Storage :=
  match r with
  | Resolve resp =>
      let ls := <["auth_token"%string := resp_token resp]> ls in
      let ls := <["auth_user"%string := stringifyUser (resp_user resp)]> ls in
      (authReducer st (LOGIN_SUCCESS (resp_user resp) (resp_token resp)), ls)
  | Reject m => (authReducer st (LOGIN_FAILURE m), ls)
  end.

(** [logout]: [authApi.logout()] never fails; the [finally] clears the
    storage and dispatches [LOGOUT]. *)
Definition logout (st : AuthState) (ls : Storage) : AuthState * Storage :=
  (authReducer st LOGOUT, delete "auth_user"%string (delete "auth_token"%string ls)).

(** What can happen to the provider: a page load (a fresh provider whose
    mount effect restores the session), a login attempt (begin, then its
    result, with the two clock readings of [authApi.login]), a logout. *)
Inductive AuthEvent :=
| Reload
| LoginBegin
| LoginSettled (username password : string) (tExp tIat : Z)
| Logout.

Definition authStep (ev : AuthEvent) (p : AuthState * Storage) : AuthState * Storage :=
  let '(st, ls) := p in
  match ev with
  | Reload => restoreSession initialState ls
  | LoginBegin => (login_begin st, ls)
  | LoginSettled u pw t1 t2 => login_resume (authApi_login u pw t1 t2) st ls
  | Logout => logout st ls
  end.

Inductive authReachable (ls0 : Storage) : AuthState * Storage -> Prop :=
| authReachable_init : authReachable ls0 (initialState, ls0)
| authReachable_step ev p : authReachable ls0 p -> authReachable ls0 (authStep ev p).


Definition authInv (st : AuthState) : Prop :=
  isAuthenticated st = true <-> is_Some (token st).

Ltac auth_inv :=
  unfold authInv in *; simpl in *;
  first [ assumption
        | split; [intros ?; first [done | eexists; done] | intros [? ?]; done] ].

(** ** Lemmas *)

Lemma authReducer_inv st a : authInv st -> authInv (authReducer st a).
Proof. unfold authInv. destruct a; simpl; try done; split; eauto. Qed.

Lemma restore_authenticated st ls :
  isAuthenticated (restoreSession st ls).1 = true ->
  isAuthenticated st = true
  \/ exists t, ls !! "auth_token"%string = Some t /\ token (restoreSession st ls).1 = Some t.
Proof.
  unfold restoreSession.
  destruct (ls !! "auth_token"%string) as [t|], (ls !! "auth_user"%string) as [u|];
    simpl; auto.
  destruct (_ && _); simpl; auto. destruct (parseUser u); simpl; eauto.
Qed.

Lemma restore_storage st ls :
  (restoreSession st ls).2 = ls
  \/ (restoreSession st ls).2 = delete "auth_user"%string (delete "auth_token"%string ls)
      /\ (restoreSession st ls).1 = st.
Proof.
  unfold restoreSession.
  destruct (ls !! "auth_token"%string), (ls !! "auth_user"%string); simpl; auto.
  destruct (_ && _); simpl; auto. destruct (parseUser _); simpl; auto.
Qed.


Lemma restore_inv st ls : authInv st -> authInv (restoreSession st ls).1.
Proof.
  intros H. unfold restoreSession.
  destruct (ls !! "auth_token"%string), (ls !! "auth_user"%string); simpl; try done.
  destruct (_ && _); simpl; [|done]. destruct (parseUser _); simpl; [|done].
  auth_inv.
Qed.

Lemma initial_inv : authInv initialState.
Proof. unfold authInv. simpl. split; [done | by intros []]. Qed.

Lemma restore_backed ls :
  isAuthenticated (restoreSession initialState ls).1 = true ->
  (restoreSession initialState ls).2 !! "auth_token"%string
  = token (restoreSession initialState ls).1.
Proof.
  intros H. destruct (restore_authenticated _ _ H) as [? | (t & Ht & Et)]; [done|].
  rewrite Et. destruct (restore_storage initialState ls) as [-> | [_ E]]; [done|].
  rewrite E in H. done.
Qed.

(** The session is backed by [localStorage]: [authInv], and an
    authenticated session's token is the stored one. *)
Definition sessionBacked (p : AuthState * Storage) : Prop :=
  authInv p.1 /\ (isAuthenticated p.1 = true -> p.2 !! "auth_token"%string = token p.1).

Lemma sessionBacked_init ls : sessionBacked (initialState, ls).
Proof. split; [apply initial_inv | done]. Qed.

Lemma sessionBacked_step ev p : sessionBacked p -> sessionBacked (authStep ev p).
Proof.
  destruct p as [st ls]. intros [Hi Hb].
  destruct ev as [| |u pw t1 t2|]; simpl.
  - split; [apply restore_inv, initial_inv | apply restore_backed].
  - split; [auth_inv | done].
  - unfold authApi_login. destruct (negb _); simpl; [split; [auth_inv | done]|].
    split; [auth_inv|]. intros _. simpl.
    rewrite lookup_insert_ne by done. by rewrite lookup_insert_eq.
  - split; [auth_inv | done].
Qed.

(** ** Properties *)

(** C11. In every state the provider reaches, from any initial
    [localStorage], the reducer keeps [isAuthenticated] true exactly when
    a token is held, and an authenticated session's token is the one in
    [localStorage]. *)
Theorem auth_session_backed ls0 p :
  authReachable ls0 p ->
  authInv p.1 /\ (isAuthenticated p.1 = true -> p.2 !! "auth_token"%string = token p.1).
Proof.
  induction 1 as [|ev p _ IH]; [apply sessionBacked_init | by apply sessionBacked_step].
Qed.

(** A stored user that parses to [null] ([JSON.parse("null")])
    still restores an authenticated session, with no user. *)
Theorem restore_null_user t :
  parseUser "null" = Some UNull -> JsString.truthy t = true ->
  let p := restoreSession initialState
             (<["auth_user"%string := "null"%string]> (<["auth_token"%string := t]> ∅)) in
  isAuthenticated p.1 = true /\ user p.1 = UNull.
Proof.
  intros Hp Ht. unfold restoreSession.
  rewrite lookup_insert_ne, lookup_insert_eq, lookup_insert_eq by done.
  by rewrite Ht, Hp.
Qed.

(** After a successful login, a page reload restores the same user and
    the same token from [localStorage], given the three facts of the
    serialisations it relies on. *)
Theorem login_reload_roundtrip u t1 t2 q :
  parseUser (stringifyUser (mkLoginUser u)) = Some (UObj (mkLoginUser u)) ->
  JsString.truthy (stringifyUser (mkLoginUser u)) = true ->
  JsString.truthy (btoaJson (mkPayload u (t1 + 86400000) t2)) = true ->
  let p := authStep Reload (authStep (LoginSettled u "test123" t1 t2) q) in
  isAuthenticated p.1 = true /\ user p.1 = UObj (mkLoginUser u)
  /\ token p.1 = Some (btoaJson (mkPayload u (t1 + 86400000) t2)).
Proof.
  intros Hp Hu Ht. destruct q as [st ls]. simpl.
  unfold restoreSession. rewrite lookup_insert_ne, !lookup_insert_eq by done.
  replace (t1 + 24 * 60 * 60 * 1000)%Z with (t1 + 86400000)%Z by lia.
  by rewrite Ht, Hu, Hp.
Qed.

(** C31. A failed login from a stored session logs the page out, but
    leaves [localStorage] as it was: the next reload logs back in. *)
Theorem failed_login_keeps_storage st ls t su v u pw t1 t2 :
  ls !! "auth_token"%string = Some t -> ls !! "auth_user"%string = Some su ->
  JsString.truthy t = true -> JsString.truthy su = true -> parseUser su = Some v ->
  pw <> "test123"%string ->
  let p1 := authStep (LoginSettled u pw t1 t2) (st, ls) in
  isAuthenticated p1.1 = false /\ p1.2 = ls
  /\ isAuthenticated (authStep Reload p1).1 = true /\ token (authStep Reload p1).1 = Some t.
Proof.
  intros Ht Hu Htt Hut Hp Hpw. simpl. unfold authApi_login.
  rewrite bool_decide_false by done. simpl.
  unfold restoreSession. rewrite Ht, Hu, Htt, Hut. simpl. by rewrite Hp.
Qed.

(** Logout clears the session state and both storage keys, so a
    reload stays logged out. *)
Theorem logout_clears st ls :
  let p := authStep Logout (st, ls) in
  isAuthenticated p.1 = false /\ token p.1 = None
  /\ p.2 !! "auth_token"%string = None /\ p.2 !! "auth_user"%string = None
  /\ isAuthenticated (authStep Reload p).1 = false.
Proof.
  simpl. rewrite lookup_delete_eq, lookup_delete_ne, lookup_delete_eq by done.
  split_and!; try done. unfold restoreSession.
  by rewrite lookup_delete_ne, lookup_delete_eq by done.
Qed.

(** [authApi.login] succeeds exactly for the password "test123";
    the user it returns has the e-mail [username@example.com] and the
    username with its first character upper-cased as name, and the
    token's payload expires 24 hours after the first clock reading and
    is issued at the second, so with a clock that does not go back the
    token lives at most 24 hours. *)
Theorem authApi_login_spec u pw t1 t2 :
  match authApi_login u pw t1 t2 with
  | Resolve r =>
      pw = "test123"%string /\ email (resp_user r) = (u ++ "@example.com")%string
      /\ uname (resp_user r) = match u with
                               | EmptyString => EmptyString
                               | String c rest => String (JsString.upperChar c) rest
                               end
      /\ resp_token r = btoaJson (mkPayload u (t1 + 86400000) t2)
      /\ ((t1 <= t2)%Z -> (t1 + 86400000 - t2 <= 86400000)%Z)
  | Reject m => pw <> "test123"%string /\ m = "Invalid credentials"%string
  end.
Proof.
  unfold authApi_login. case_bool_decide as E; simpl.
  - split_and!; [done | done | by destruct u | do 3 f_equal; lia | lia].
  - done.
Qed.

End Provider.

(** ** Witnesses

    Concrete serialisations for the examples: a user is stored as
    [{username}], and a token as [tok:username]. *)

Definition demoStringify (u : User) : string := ("{" ++ username u ++ "}")%string.

Definition demoParse (s : string) : option UserValue :=
  if bool_decide (s = "null"%string) then Some UNull
  else if bool_decide (s = "{alice}"%string) then Some (UObj (mkLoginUser "alice"))
  else None.

Definition demoBtoa (p : TokenPayload) : string := ("tok:" ++ p_username p)%string.

Definition demoLoggedIn : AuthState * gmap string string :=
  authStep demoStringify demoParse demoBtoa (LoginSettled "alice" "test123" 0 1) (initialState, ∅).

Lemma auth_session_backed_witness :
  authReachable demoStringify demoParse demoBtoa ∅ demoLoggedIn
  /\ authInv demoLoggedIn.1
  /\ (isAuthenticated demoLoggedIn.1 = true ->
      demoLoggedIn.2 !! "auth_token"%string = token demoLoggedIn.1).
Proof.
  assert (H : authReachable demoStringify demoParse demoBtoa ∅ demoLoggedIn)
    by (apply authReachable_step, authReachable_init).
  split; [exact H|]. exact (auth_session_backed _ _ _ _ _ H).
Defined.

Lemma failed_login_keeps_storage_witness :
  demoLoggedIn.2 !! "auth_token"%string = Some "tok:alice"%string
  /\ demoLoggedIn.2 !! "auth_user"%string = Some "{alice}"%string
  /\ (let p1 := authStep demoStringify demoParse demoBtoa (LoginSettled "alice" "wrong" 5 5)
                 (demoLoggedIn.1, demoLoggedIn.2) in
      isAuthenticated p1.1 = false /\ p1.2 = demoLoggedIn.2
      /\ isAuthenticated (authStep demoStringify demoParse demoBtoa Reload p1).1 = true
      /\ token (authStep demoStringify demoParse demoBtoa Reload p1).1 = Some "tok:alice"%string).
Proof.
  split; [vm_compute; reflexivity|]. split; [vm_compute; reflexivity|].
  apply (failed_login_keeps_storage demoStringify demoParse demoBtoa demoLoggedIn.1 demoLoggedIn.2
           "tok:alice" "{alice}" (UObj (mkLoginUser "alice")) "alice" "wrong" 5 5);
    try (vm_compute; reflexivity).
  vm_compute. discriminate.
Defined.

End Auth.
