(* ===== verification/Json.v ===== *)
(** [JSON.stringify], [JSON.parse] and [btoa], as ECMA-262 and the HTML
    standard define them, for the values the provider stores: the user
    object in [auth_user] and the token payload that [authApi.login]
    encodes.  With them the serialisations that [Section Provider] of
    [Auth] takes as variables become concrete.

    A JSON text is parsed into a syntax tree; a number is kept as its
    text (the program never reads a stored number back).  Strings are
    sequences of code units below 256, so a [\u] escape above [ÿ]
    is outside the model and is rejected.  [JSON.parse] keeps the last
    of duplicate keys, as property assignment does. *)

From S2P Require Import Prelude JsRuntime Auth.
From Stdlib Require Import Ascii.
From stdpp Require Import pretty.

Module Json.
Import Auth.

Inductive JSON :=
| JNull
| JBool (b : bool)
| JNum (lexeme : string)
| JStr (s : string)
| JArr (items : list JSON)
| JObj (members : list (string * JSON)).

(** ** [JSON.stringify] *)

Definition hexDigit (n : nat) : ascii := ascii_of_nat (if (n <? 10)%nat then 48 + n else 87 + n).

(** The quotation mark, code unit 34. *)
Definition dq : ascii := ascii_of_nat 34.

(** QuoteJSONString: the escapes of one code unit. *)
Definition escapeChar (c : ascii) : string :=
  let n := nat_of_ascii c in
  if bool_decide (c = dq) then String "\" (String dq EmptyString)
  else if bool_decide (c = "\"%char) then "\\"
  else if (n =? 8)%nat then "\b"
  else if (n =? 12)%nat then "\f"
  else if (n =? 10)%nat then "\n"
  else if (n =? 13)%nat then "\r"
  else if (n =? 9)%nat then "\t"
  else if (n <? 32)%nat then String "\" (String "u" (String "0" (String "0"
         (String (hexDigit (n / 16)) (String (hexDigit (n mod 16)) EmptyString)))))
  else String c EmptyString.

Fixpoint escape (s : string) : string :=
  match s with
  | EmptyString => EmptyString
  | String c s' => escapeChar c +:+ escape s'
  end.

Definition quote (s : string) : string := String dq (escape s +:+ String dq EmptyString).

Definition joinComma (l : list string) : string :=
  match l with
  | [] => EmptyString
  | x :: l' => x +:+ foldr (fun y acc => "," +:+ y +:+ acc) EmptyString l'
  end.

Fixpoint stringify (v : JSON) : string :=
  match v with
  | JNull => "null"
  | JBool true => "true"
  | JBool false => "false"
  | JNum lex => lex
  | JStr s => quote s
  | JArr items => "[" +:+ joinComma (map stringify items) +:+ "]"
  | JObj members =>
      "{" +:+ joinComma (map (fun kv => quote kv.1 +:+ ":" +:+ stringify kv.2) members) +:+ "}"
  end.

(** ** [JSON.parse] *)

Definition isWs (c : ascii) : bool :=
  let n := nat_of_ascii c in (n =? 32)%nat || (n =? 9)%nat || (n =? 10)%nat || (n =? 13)%nat.

Fixpoint skipWs (s : string) : string :=
  match s with
  | String c s' => if isWs c then skipWs s' else s
  | EmptyString => EmptyString
  end.

Definition isDigit (c : ascii) : bool :=
  let n := nat_of_ascii c in (48 <=? n)%nat && (n <=? 57)%nat.

(** The longest prefix of digits, and what follows it. *)
Fixpoint scanDigits (s : string) : string * string :=
  match s with
  | String c s' =>
      if isDigit c then let '(d, r) := scanDigits s' in (String c d, r) else (EmptyString, s)
  | EmptyString => (EmptyString, EmptyString)
  end.

(** [digits+]: at least one digit. *)
Definition digits1 (s : string) : option (string * string) :=
  match scanDigits s with
  | (EmptyString, _) => None
  | dr => Some dr
  end.

(** The fraction [.digits+] and exponent [(e|E)(+|-)?digits+], each
    optional. *)
Definition parseFrac (s : string) : option (string * string) :=
  match s with
  | String c s' =>
      if bool_decide (c = "."%char)
      then match digits1 s' with Some (d, r) => Some (String c d, r) | None => None end
      else Some (EmptyString, s)
  | EmptyString => Some (EmptyString, EmptyString)
  end.

Definition parseExp (s : string) : option (string * string) :=
  match s with
  | String c s' =>
      if bool_decide (c = "e"%char) || bool_decide (c = "E"%char) then
        match s' with
        | String sg s'' =>
            if bool_decide (sg = "+"%char) || bool_decide (sg = "-"%char)
            then match digits1 s'' with Some (d, r) => Some (String c (String sg d), r) | None => None end
            else match digits1 s' with Some (d, r) => Some (String c d, r) | None => None end
        | EmptyString => None
        end
      else Some (EmptyString, s)
  | EmptyString => Some (EmptyString, EmptyString)
  end.

(** The optional minus sign. *)
Definition parseSign (s : string) : string * string :=
  match s with
  | String c s' => if bool_decide (c = "-"%char) then ("-"%string, s') else (EmptyString, s)
  | EmptyString => (EmptyString, EmptyString)
  end.

(** The integer part: [0], or a non-zero digit and digits. *)
Definition parseInt (s : string) : option (string * string) :=
  match s with
  | String c s' =>
      if bool_decide (c = "0"%char) then Some ("0"%string, s')
      else if isDigit c then Some (scanDigits s) else None
  | EmptyString => None
  end.

(** [-? (0 | [1-9][0-9]* ) frac? exp?], as its text. *)
Definition parseNumber (s : string) : option (string * string) :=
  let '(sign, s1) := parseSign s in
  match parseInt s1 with
  | Some (i, r1) =>
      match parseFrac r1 with
      | Some (f, r2) =>
          match parseExp r2 with
          | Some (e, r3) => Some (sign +:+ i +:+ f +:+ e, r3)
          | None => None
          end
      | None => None
      end
  | None => None
  end.

Definition hexVal (c : ascii) : option nat :=
  let n := nat_of_ascii c in
  if (48 <=? n)%nat && (n <=? 57)%nat then Some (n - 48)
  else if (97 <=? n)%nat && (n <=? 102)%nat then Some (n - 87)
  else if (65 <=? n)%nat && (n <=? 70)%nat then Some (n - 55)
  else None.

(** The code unit of a four-digit unicode escape, when it is below 256. *)
Definition unicodeEscape (h1 h2 h3 h4 : ascii) : option ascii :=
  match hexVal h1, hexVal h2, hexVal h3, hexVal h4 with
  | Some a, Some b, Some c, Some d =>
      let n := ((a * 16 + b) * 16 + c) * 16 + d in
      if (n <? 256)%nat then Some (ascii_of_nat n) else None
  | _, _, _, _ => None
  end.

(** The code unit a one-letter escape stands for. *)
Definition simpleEscape (e : ascii) : option ascii :=
  if bool_decide (e = dq) || bool_decide (e = "\"%char) || bool_decide (e = "/"%char) then Some e
  else if bool_decide (e = "b"%char) then Some (ascii_of_nat 8)
  else if bool_decide (e = "f"%char) then Some (ascii_of_nat 12)
  else if bool_decide (e = "n"%char) then Some (ascii_of_nat 10)
  else if bool_decide (e = "r"%char) then Some (ascii_of_nat 13)
  else if bool_decide (e = "t"%char) then Some (ascii_of_nat 9)
  else None.

Definition consFst (c : ascii) (o : option (string * string)) : option (string * string) :=
  match o with Some (w, r) => Some (String c w, r) | None => None end.

(** The rest of a string after its opening quote: its value and the
    text after the closing quote.  Unescaped control characters are
    errors. *)
Fixpoint parseStrBody (s : string) : option (string * string) :=
  match s with
  | EmptyString => None
  | String c r =>
      if bool_decide (c = dq) then Some (EmptyString, r)
      else if bool_decide (c = "\"%char) then
        match r with
        | String e r' =>
            if bool_decide (e = "u"%char) then
              match r' with
              | String h1 (String h2 (String h3 (String h4 r''))) =>
                  match unicodeEscape h1 h2 h3 h4 with
                  | Some u => consFst u (parseStrBody r'')
                  | None => None
                  end
              | _ => None
              end
            else match simpleEscape e with
                 | Some u => consFst u (parseStrBody r')
                 | None => None
                 end
        | EmptyString => None
        end
      else if (nat_of_ascii c <? 32)%nat then None
      else consFst c (parseStrBody r)
  end.

Fixpoint stripPrefix (p s : string) : option string :=
  match p with
  | EmptyString => Some s
  | String c p' =>
      match s with
      | String d s' => if bool_decide (c = d) then stripPrefix p' s' else None
      | EmptyString => None
      end
  end.

(** Values, array elements after the opening bracket and members after
    the opening brace, with fuel: every call but the last consumes
    text, so the length of the text plus one is enough ([parse]). *)
Fixpoint parseValue (fuel : nat) (s : string) : option (JSON * string) :=
  match fuel with
  | O => None
  | S f =>
      match skipWs s with
      | EmptyString => None
      | String c r as t =>
          if bool_decide (c = dq) then
            match parseStrBody r with Some (w, r') => Some (JStr w, r') | None => None end
          else if bool_decide (c = "["%char) then
            match skipWs r with
            | String d r' => if bool_decide (d = "]"%char) then Some (JArr [], r')
                             else match parseElems f r with
                                  | Some (l, r'') => Some (JArr l, r'')
                                  | None => None
                                  end
            | EmptyString => None
            end
          else if bool_decide (c = "{"%char) then
            match skipWs r with
            | String d r' => if bool_decide (d = "}"%char) then Some (JObj [], r')
                             else match parseMembers f r with
                                  | Some (m, r'') => Some (JObj m, r'')
                                  | None => None
                                  end
            | EmptyString => None
            end
          else if bool_decide (c = "-"%char) || isDigit c then
            match parseNumber t with Some (lex, r') => Some (JNum lex, r') | None => None end
          else match stripPrefix "null" t with
               | Some r' => Some (JNull, r')
               | None =>
                   match stripPrefix "true" t with
                   | Some r' => Some (JBool true, r')
                   | None =>
                       match stripPrefix "false" t with
                       | Some r' => Some (JBool false, r')
                       | None => None
                       end
                   end
               end
      end
  end
with parseElems (fuel : nat) (s : string) : option (list JSON * string) :=
  match fuel with
  | O => None
  | S f =>
      match parseValue f s with
      | Some (v, r) =>
          match skipWs r with
          | String d r' =>
              if bool_decide (d = ","%char) then
                match parseElems f r' with Some (l, r'') => Some (v :: l, r'') | None => None end
              else if bool_decide (d = "]"%char) then Some ([v], r')
              else None
          | EmptyString => None
          end
      | None => None
      end
  end
with parseMembers (fuel : nat) (s : string) : option (list (string * JSON) * string) :=
  match fuel with
  | O => None
  | S f =>
      match skipWs s with
      | String q r =>
          if bool_decide (q = dq) then
            match parseStrBody r with
            | Some (k, r1) =>
                match skipWs r1 with
                | String col r2 =>
                    if bool_decide (col = ":"%char) then
                      match parseValue f r2 with
                      | Some (v, r3) =>
                          match skipWs r3 with
                          | String d r4 =>
                              if bool_decide (d = ","%char) then
                                match parseMembers f r4 with
                                | Some (m, r5) => Some ((k, v) :: m, r5)
                                | None => None
                                end
                              else if bool_decide (d = "}"%char) then Some ([(k, v)], r4)
                              else None
                          | EmptyString => None
                          end
                      | None => None
                      end
                    else None
                | EmptyString => None
                end
            | None => None
            end
          else None
      | EmptyString => None
      end
  end.

(** [JSON.parse(text)]: one value between white space; [None] is the
    [SyntaxError] it throws. *)
Definition parse (text : string) : option JSON :=
  match parseValue (S (String.length text)) text with
  | Some (v, r) => match skipWs r with EmptyString => Some v | _ => None end
  | None => None
  end.

(** ** Well-formed values *)

(** An integer part exactly as [parseInt] reads it. *)
Definition intBodyOk (body : string) : bool :=
  match body with
  | String c r =>
      if bool_decide (c = "0"%char) then bool_decide (r = EmptyString)
      else isDigit c && bool_decide (scanDigits r = (r, EmptyString))
  | EmptyString => false
  end.

(** An integer in the form [JSON.stringify] writes it: an optional
    minus sign and digits without a leading zero. *)
Definition validIntLex (lex : string) : bool := intBodyOk (parseSign lex).2.

Fixpoint wf (v : JSON) : bool :=
  match v with
  | JNum lex => validIntLex lex
  | JArr items => forallb wf items
  | JObj members => forallb (fun kv => wf kv.2) members
  | _ => true
  end.

(** Induction over values, with the hypothesis for every element of an
    array and every member of an object. *)
Section JSON_ind'.
Variable P : JSON -> Prop.
Hypothesis HNull : P JNull.
Hypothesis HBool : forall b, P (JBool b).
Hypothesis HNum : forall lex, P (JNum lex).
Hypothesis HStr : forall s, P (JStr s).
Hypothesis HArr : forall l, Forall P l -> P (JArr l).
Hypothesis HObj : forall m, Forall (fun kv => P kv.2) m -> P (JObj m).

Fixpoint JSON_ind' (v : JSON) : P v :=
  match v with
  | JNull => HNull
  | JBool b => HBool b
  | JNum lex => HNum lex
  | JStr s => HStr s
  | JArr l =>
      HArr l ((fix go (l : list JSON) : Forall P l :=
                 match l with
                 | [] => @List.Forall_nil _ P
                 | x :: l' => @List.Forall_cons _ P x l' (JSON_ind' x) (go l')
                 end) l)
  | JObj m =>
      HObj m ((fix go (m : list (string * JSON)) : Forall (fun kv => P kv.2) m :=
                 match m with
                 | [] => @List.Forall_nil _ (fun kv => P kv.2)
                 | kv :: m' => @List.Forall_cons _ (fun kv => P kv.2) kv m' (JSON_ind' kv.2) (go m')
                 end) m)
  end.
End JSON_ind'.

(** ** Lemmas on strings *)

Lemma ascii_nat (c : ascii) (n : nat) : nat_of_ascii c = n -> c = ascii_of_nat n.
Proof. intros <-. by rewrite ascii_nat_embedding. Qed.

Lemma hexVal_hexDigit k : (k < 16)%nat -> hexVal (hexDigit k) = Some k.
Proof.
  intros Hk. do 16 (destruct k as [|k]; [reflexivity|]). lia.
Qed.

(** The equations of [parseStrBody] on each kind of code unit. *)
Lemma parseStrBody_dq s : parseStrBody (String dq s) = Some (EmptyString, s).
Proof. reflexivity. Qed.

Lemma parseStrBody_u h1 h2 h3 h4 s :
  parseStrBody (String "\" (String "u" (String h1 (String h2 (String h3 (String h4 s))))))
  = match unicodeEscape h1 h2 h3 h4 with Some u => consFst u (parseStrBody s) | None => None end.
Proof. reflexivity. Qed.

Lemma parseStrBody_simple e s :
  e <> "u"%char ->
  parseStrBody (String "\" (String e s))
  = match simpleEscape e with Some u => consFst u (parseStrBody s) | None => None end.
Proof. intros He. simpl. by rewrite bool_decide_false. Qed.

Lemma parseStrBody_plain c s :
  c <> dq -> c <> "\"%char -> (32 <= nat_of_ascii c)%nat ->
  parseStrBody (String c s) = consFst c (parseStrBody s).
Proof.
  intros H1 H2 H3. simpl. rewrite !bool_decide_false by done.
  by rewrite (proj2 (Nat.ltb_ge _ 32)).
Qed.

(** One of the short escapes of [escapeChar]: the code unit [n]. *)
Ltac escape_case n :=
  match goal with
  | Hs : parseStrBody ?s = Some ?r |- context [(nat_of_ascii ?c =? n)%nat] =>
      destruct (Nat.eqb_spec (nat_of_ascii c) n) as [E|_];
      [apply ascii_nat in E; subst c; autorewrite with jsm_rw;
       rewrite parseStrBody_simple by discriminate; by rewrite Hs|]
  end.

(** A code unit written by [escapeChar] is read back by [parseStrBody]. *)
Lemma parseStrBody_escapeChar c s r :
  parseStrBody s = Some r -> parseStrBody (escapeChar c +:+ s) = consFst c (Some r).
Proof.
  intros Hs. unfold escapeChar. pose proof (nat_ascii_bounded c) as Hb.
  case_bool_decide as E1; [subst c; autorewrite with jsm_rw;
    rewrite parseStrBody_simple by (vm_compute; discriminate); by rewrite Hs|].
  case_bool_decide as E2; [subst c; autorewrite with jsm_rw;
    rewrite parseStrBody_simple by discriminate; by rewrite Hs|].
  escape_case 8. escape_case 12. escape_case 10. escape_case 13. escape_case 9.
  destruct (Nat.ltb_spec (nat_of_ascii c) 32) as [Hlt|Hge].
  - assert (unicodeEscape "0" "0" (hexDigit (nat_of_ascii c / 16)) (hexDigit (nat_of_ascii c mod 16))
            = Some c) as Hu.
    { unfold unicodeEscape.
      rewrite (hexVal_hexDigit (nat_of_ascii c / 16)) by (apply Nat.Div0.div_lt_upper_bound; lia).
      rewrite (hexVal_hexDigit (nat_of_ascii c mod 16)) by (apply Nat.mod_upper_bound; lia).
      change (hexVal "0"%char) with (Some 0%nat). cbv beta iota.
      replace (((0 * 16 + 0) * 16 + nat_of_ascii c / 16) * 16 + nat_of_ascii c mod 16)%nat
        with (nat_of_ascii c) by (pose proof (Nat.div_mod_eq (nat_of_ascii c) 16); lia).
      rewrite (proj2 (Nat.ltb_lt _ 256)) by lia. by rewrite ascii_nat_embedding. }
    autorewrite with jsm_rw. rewrite parseStrBody_u, Hu. by rewrite Hs.
  - autorewrite with jsm_rw. rewrite parseStrBody_plain by (done || lia). by rewrite Hs.
Qed.

Lemma parseStrBody_escape s r :
  parseStrBody (escape s +:+ String dq r) = Some (s, r).
Proof.
  induction s as [|c s IH]; simpl; autorewrite with jsm_rw; [done|].
  rewrite str_app_assoc. by rewrite (parseStrBody_escapeChar c _ (s, r) IH).
Qed.

(** ** Numbers *)

(** What may follow a value inside a serialisation: nothing, a comma
    or a closing bracket or brace. *)
Definition delim (rest : string) : bool :=
  match rest with
  | EmptyString => true
  | String c _ => bool_decide (c = ","%char) || bool_decide (c = "]"%char) || bool_decide (c = "}"%char)
  end.

Lemma str_app_nil_r (s : string) : s +:+ EmptyString = s.
Proof. induction s as [|x s IH]; [done | rewrite str_app_cons; by f_equal]. Qed.

Lemma delim_cases rest :
  delim rest = true ->
  rest = EmptyString \/ exists c t, rest = String c t /\ (c = ","%char \/ c = "]"%char \/ c = "}"%char).
Proof.
  destruct rest as [|c t]; [by left|]. simpl. intros H. right. exists c, t. split; [done|].
  repeat (apply orb_true_iff in H as [H|H]); apply bool_decide_eq_true in H; tauto.
Qed.

Ltac delim_cases H :=
  destruct (delim_cases _ H) as [-> | (?c & ?t & -> & [-> | [-> | ->]])].

Lemma scanDigits_app r rest :
  scanDigits r = (r, EmptyString) -> delim rest = true -> scanDigits (r +:+ rest) = (r, rest).
Proof.
  induction r as [|c r IH]; intros Hr Hd.
  - rewrite str_app_nil. by delim_cases Hd.
  - simpl in Hr. rewrite str_app_cons. simpl.
    destruct (isDigit c); [|discriminate].
    destruct (scanDigits r) as [d r'] eqn:E. injection Hr as -> ->.
    by rewrite IH.
Qed.

Lemma parseFrac_delim rest : delim rest = true -> parseFrac rest = Some (EmptyString, rest).
Proof. intros Hd. by delim_cases Hd. Qed.

Lemma parseExp_delim rest : delim rest = true -> parseExp rest = Some (EmptyString, rest).
Proof. intros Hd. by delim_cases Hd. Qed.

Lemma parseInt_ok body rest :
  intBodyOk body = true -> delim rest = true -> parseInt (body +:+ rest) = Some (body, rest).
Proof.
  intros Hb Hd. destruct body as [|c r]; [done|]. rewrite str_app_cons. simpl in Hb |- *.
  case_bool_decide as E0.
  - apply bool_decide_eq_true in Hb. subst r c. by rewrite str_app_nil.
  - apply andb_true_iff in Hb as [Hc Hr]. apply bool_decide_eq_true in Hr. rewrite Hc.
    by rewrite scanDigits_app.
Qed.

Lemma parseSign_app lex rest :
  intBodyOk (parseSign lex).2 = true ->
  parseSign (lex +:+ rest) = ((parseSign lex).1, (parseSign lex).2 +:+ rest).
Proof. destruct lex as [|c r]; [done|]. simpl. by case_bool_decide. Qed.

Lemma parseSign_join lex : (parseSign lex).1 +:+ (parseSign lex).2 = lex.
Proof. destruct lex as [|c r]; [done|]. simpl. by case_bool_decide; [subst|]. Qed.

(** An integer written as [JSON.stringify] writes it is read back as
    one number, up to the next delimiter. *)
Lemma parseNumber_valid lex rest :
  validIntLex lex = true -> delim rest = true -> parseNumber (lex +:+ rest) = Some (lex, rest).
Proof.
  intros Hv Hd. unfold parseNumber. rewrite parseSign_app by done.
  rewrite parseInt_ok by done. rewrite parseFrac_delim, parseExp_delim by done.
  by rewrite !str_app_nil_r, parseSign_join.
Qed.

(** ** Reading back a serialisation *)

Lemma isDigit_not_special c :
  isDigit c = true -> isWs c = false /\ c <> "]"%char /\ c <> "}"%char /\ c <> dq
  /\ c <> "["%char /\ c <> "{"%char.
Proof.
  intros H. unfold isDigit in H. apply andb_true_iff in H as [H1 H2].
  apply Nat.leb_le in H1, H2.
  split_and!; [| intros -> .. ]; [|unfold dq in *; cbv in H1, H2; lia ..].
  unfold isWs. repeat (apply orb_false_iff; split); apply Nat.eqb_neq; lia.
Qed.

Lemma skipWs_cons c t : isWs c = false -> skipWs (String c t) = String c t.
Proof. intros H. simpl. by rewrite H. Qed.

(** A serialisation starts with a character that is neither white space
    nor a closing bracket or brace. *)
Lemma stringify_first v :
  wf v = true ->
  exists c t, stringify v = String c t /\ isWs c = false /\ c <> "]"%char /\ c <> "}"%char.
Proof.
  intros Hw. destruct v as [| [] | lex | s | l | m]; simpl in *; try by do 2 eexists.
  unfold validIntLex in Hw. destruct lex as [|c t]; [done|]. exists c, t. split; [done|].
  simpl in Hw. case_bool_decide as E.
  - subst c. split_and!; [done | discriminate | discriminate].
  - destruct t as [|d t']; simpl in Hw.
    + destruct (isDigit_not_special c) as (? & ? & ? & _); [|done].
      case_bool_decide; [subst; done|]. by destruct (isDigit c).
    + case_bool_decide as E0; [subst; done|].
      apply andb_true_iff in Hw as [Hc _]. by destruct (isDigit_not_special c Hc) as (? & ? & ? & _).
Qed.

(** The branches of [parseValue] by the first character. *)
Lemma parseValue_str f r :
  parseValue (S f) (String dq r)
  = match parseStrBody r with Some (w, r') => Some (JStr w, r') | None => None end.
Proof. reflexivity. Qed.

Lemma parseValue_arr f r :
  parseValue (S f) (String "[" r)
  = match skipWs r with
    | String d r' => if bool_decide (d = "]"%char) then Some (JArr [], r')
                     else match parseElems f r with
                          | Some (l, r'') => Some (JArr l, r'')
                          | None => None
                          end
    | EmptyString => None
    end.
Proof. reflexivity. Qed.

Lemma parseValue_obj f r :
  parseValue (S f) (String "{" r)
  = match skipWs r with
    | String d r' => if bool_decide (d = "}"%char) then Some (JObj [], r')
                     else match parseMembers f r with
                          | Some (m, r'') => Some (JObj m, r'')
                          | None => None
                          end
    | EmptyString => None
    end.
Proof. reflexivity. Qed.

Lemma parseValue_num f c r :
  isWs c = false -> c <> dq -> c <> "["%char -> c <> "{"%char ->
  bool_decide (c = "-"%char) || isDigit c = true ->
  parseValue (S f) (String c r)
  = match parseNumber (String c r) with Some (lex, r') => Some (JNum lex, r') | None => None end.
Proof. intros H1 H2 H3 H4 H5. simpl. rewrite H1, !bool_decide_false by done. by rewrite H5. Qed.

Lemma joinComma_cons2 x y l : joinComma (x :: y :: l) = x +:+ String "," (joinComma (y :: l)).
Proof. cbn [joinComma foldr]. by rewrite str_app_cons, str_app_nil. Qed.

Lemma joinComma_one x : joinComma [x] = x.
Proof. apply str_app_nil_r. Qed.

Lemma quote_app k r : quote k +:+ r = String dq (escape k +:+ String dq r).
Proof. unfold quote. by rewrite str_app_cons, str_app_assoc, str_app_cons, str_app_nil. Qed.

(** What the round trip states of one value, for any fuel above its
    length and any text after it that starts with a delimiter. *)
Definition readsBack (v : JSON) : Prop :=
  wf v = true -> forall f rest, String.length (stringify v) < f -> delim rest = true ->
  parseValue f (stringify v +:+ rest) = Some (v, rest).

Lemma parseElems_joinComma l :
  Forall readsBack l -> forallb wf l = true -> l <> [] ->
  forall f rest, S (String.length (joinComma (map stringify l))) < f ->
  parseElems f (joinComma (map stringify l) +:+ String "]" rest) = Some (l, rest).
Proof.
  induction l as [|x l IH]; [done|]. intros HP Hw _ f rest Hf.
  inversion HP as [|? ? Hx HP']; subst. simpl in Hw. apply andb_true_iff in Hw as [Hwx Hw].
  destruct f as [|g]; [lia|]. destruct l as [|y l].
  - cbn [map] in *. rewrite joinComma_one in *; simpl. rewrite Hx by (done || lia). reflexivity.
  - cbn [map] in *. rewrite joinComma_cons2, str_length_app in *.
    remember (joinComma (stringify y :: map stringify l)) as J eqn:EJ. simpl in Hf.
    rewrite str_app_assoc, str_app_cons. simpl.
    rewrite Hx by (done || lia). simpl. rewrite IH by (done || lia). reflexivity.
Qed.

Lemma parseMembers_joinComma m :
  Forall (fun kv => readsBack kv.2) m -> forallb (fun kv => wf kv.2) m = true -> m <> [] ->
  forall f rest,
  S (String.length (joinComma (map (fun kv => quote kv.1 +:+ ":" +:+ stringify kv.2) m))) < f ->
  parseMembers f (joinComma (map (fun kv => quote kv.1 +:+ ":" +:+ stringify kv.2) m) +:+ String "}" rest)
  = Some (m, rest).
Proof.
  induction m as [|[k v] m IH]; [done|]. intros HP Hw _ f rest Hf.
  inversion HP as [|? ? Hv HP']; subst. change (readsBack v) in Hv.
  simpl in Hw. apply andb_true_iff in Hw as [Hwv Hw].
  destruct f as [|g]; [lia|]. destruct m as [|kv' m].
  - cbn [map] in *. rewrite joinComma_one in *. rewrite !str_length_app in Hf. simpl in Hf.
    rewrite !str_app_assoc, quote_app. autorewrite with jsm_rw. simpl.
    rewrite parseStrBody_escape. simpl. rewrite Hv by (done || simpl; lia). reflexivity.
  - cbn [map] in *. rewrite joinComma_cons2, !str_length_app in *.
    remember (joinComma _) as J eqn:EJ. simpl in Hf.
    rewrite !str_app_assoc, quote_app. autorewrite with jsm_rw. simpl.
    rewrite parseStrBody_escape. simpl. rewrite Hv by (done || simpl; lia). simpl.
    rewrite IH by (done || lia). reflexivity.
Qed.

Lemma validIntLex_first lex :
  validIntLex lex = true -> exists c t, lex = String c t /\ bool_decide (c = "-"%char) || isDigit c = true.
Proof.
  unfold validIntLex. destruct lex as [|c t]; [done|]. simpl. intros Hv. exists c, t. split; [done|].
  case_bool_decide; [done|]. destruct t as [|d t']; simpl in Hv;
    (case_bool_decide; [subst; done | by destruct (isDigit c)]).
Qed.

Lemma joinComma_app_head x l y : exists z, joinComma (x :: l) +:+ y = x +:+ z.
Proof. eexists. unfold joinComma. by rewrite str_app_assoc. Qed.

Lemma parseValue_arr_elems f c t :
  isWs c = false -> c <> "]"%char ->
  parseValue (S f) (String "[" (String c t))
  = match parseElems f (String c t) with Some (l, r) => Some (JArr l, r) | None => None end.
Proof. intros H1 H2. rewrite parseValue_arr, skipWs_cons, bool_decide_false by done. done. Qed.

Lemma parseValue_obj_members f t :
  parseValue (S f) (String "{" (String dq t))
  = match parseMembers f (String dq t) with Some (m, r) => Some (JObj m, r) | None => None end.
Proof. reflexivity. Qed.

(** Every well-formed value reads back from its serialisation. *)
Lemma parseValue_stringify v : readsBack v.
Proof.
  induction v as [| [] | lex | s | l IH | m IH] using JSON_ind'; intros Hw f rest Hf Hd;
    (destruct f as [|g]; [simpl in Hf; lia|]); try reflexivity.
  - simpl in Hw. cbn [stringify]. destruct (validIntLex_first lex Hw) as (c & t & -> & Hc).
    assert (isWs c = false /\ c <> dq /\ c <> "["%char /\ c <> "{"%char) as (H1 & H2 & H3 & H4).
    { case_bool_decide as E; [subst c; split_and!; done|].
      destruct (isDigit_not_special c) as (? & _ & _ & ?  & ? & ?); [by destruct (isDigit c)|done]. }
    rewrite str_app_cons, parseValue_num by done. rewrite <- str_app_cons, parseNumber_valid; done.
  - cbn [stringify]. rewrite quote_app, parseValue_str, parseStrBody_escape. done.
  - destruct l as [|x l]; [reflexivity|].
    change (stringify (JArr (x :: l))) with ("[" +:+ joinComma (map stringify (x :: l)) +:+ "]") in *.
    rewrite !str_length_app in Hf. simpl in Hf, Hw. apply andb_true_iff in Hw as [Hwx Hwl].
    autorewrite with jsm_rw. rewrite str_app_assoc. autorewrite with jsm_rw. simpl map.
    destruct (joinComma_app_head (stringify x) (map stringify l) (String "]" rest)) as [z Ez].
    destruct (stringify_first x Hwx) as (c & t & Ex & Hc1 & Hc2 & _).
    rewrite Ez, Ex, str_app_cons, parseValue_arr_elems, <- str_app_cons, <- Ex, <- Ez by done.
    rewrite (parseElems_joinComma (x :: l)); [done | done | simpl; by rewrite Hwx | done | simpl in *; lia].
  - destruct m as [|[k x] m]; [reflexivity|].
    change (stringify (JObj ((k, x) :: m))) with
      ("{" +:+ joinComma (map (fun kv => quote kv.1 +:+ ":" +:+ stringify kv.2) ((k, x) :: m)) +:+ "}") in *.
    rewrite !str_length_app in Hf. simpl in Hf.
    autorewrite with jsm_rw. rewrite str_app_assoc. autorewrite with jsm_rw. simpl map.
    destruct (joinComma_app_head (quote k +:+ ":" +:+ stringify x)
                (map (fun kv => quote kv.1 +:+ ":" +:+ stringify kv.2) m) (String "}" rest)) as [z Ez].
    rewrite Ez, quote_app, str_app_cons, parseValue_obj_members, <- str_app_cons, <- quote_app, <- Ez.
    rewrite (parseMembers_joinComma ((k, x) :: m)); [done..|simpl in *; lia].
Qed.

(** [parse] reads back a serialisation: [parseValue_stringify] with
    the fuel [parse] gives and nothing after the value. *)
Lemma parse_readback v : readsBack v -> wf v = true -> parse (stringify v) = Some v.
Proof.
  intros Hv Hw. unfold parse.
  pose proof (Hv Hw (S (String.length (stringify v))) EmptyString) as H.
  rewrite str_app_nil_r in H. by rewrite H by (done || lia).
Qed.


(** ** The provider's serialisations *)

(** The value of a key after [JSON.parse]: the last binding wins. *)
Definition member (k : string) (m : list (string * JSON)) : option JSON :=
  fold_left (fun acc kv => if bool_decide (kv.1 = k) then Some kv.2 else acc) m None.

(** What the restored [user] is: [null], an object with the three
    string fields the pages read, or anything else. *)
Definition userOfJSON (v : JSON) : UserValue :=
  match v with
  | JNull => UNull
  | JObj m =>
      match member "username" m, member "email" m, member "name" m with
      | Some (JStr u), Some (JStr e), Some (JStr n) => UObj (mkUser u e n)
      | _, _, _ => UOther
      end
  | _ => UOther
  end.

(** The object literal [{ username, email, name }] of [authApi.login]. *)
Definition userJSON (u : User) : JSON :=
  JObj [("username", JStr (username u)); ("email", JStr (email u)); ("name", JStr (uname u))].

(** [JSON.stringify(response.user)]. *)
Definition stringifyUser (u : User) : string := stringify (userJSON u).

(** [JSON.parse(user)]; [None] is the exception the provider catches. *)
Definition parseUser (s : string) : option UserValue := option_map userOfJSON (parse s).

(** [JSON.stringify] of an integral number below [10^21]: its decimal
    digits. *)
Definition numberLex (z : Z) : string := pretty z.

(** The token payload [{ username, exp, iat }]. *)
Definition payloadJSON (p : TokenPayload) : JSON :=
  JObj [("username", JStr (p_username p)); ("exp", JNum (numberLex (exp p)));
        ("iat", JNum (numberLex (iat p)))].

Definition b64alphabet : string :=
  "ABCDEFGHIJKLMNOPQRSTUVWXYZabcdefghijklmnopqrstuvwxyz0123456789+/".

Definition b64 (n : nat) : ascii := default "="%char (String.get n b64alphabet).

(** [btoa]: base64 of a string of code units below 256, three units to
    four characters, the last group padded with [=]. *)
Fixpoint btoa (s : string) : string :=
  match s with
  | String a (String b (String c r)) =>
      let x := nat_of_ascii a in let y := nat_of_ascii b in let z := nat_of_ascii c in
      String (b64 (x / 4)) (String (b64 (x mod 4 * 16 + y / 16))
        (String (b64 (y mod 16 * 4 + z / 64)) (String (b64 (z mod 64)) (btoa r))))
  | String a (String b EmptyString) =>
      let x := nat_of_ascii a in let y := nat_of_ascii b in
      String (b64 (x / 4)) (String (b64 (x mod 4 * 16 + y / 16))
        (String (b64 (y mod 16 * 4)) (String "=" EmptyString)))
  | String a EmptyString =>
      let x := nat_of_ascii a in
      String (b64 (x / 4)) (String (b64 (x mod 4 * 16)) (String "=" (String "=" EmptyString)))
  | EmptyString => EmptyString
  end.

(** [btoa(JSON.stringify({ username, exp, iat }))]. *)
Definition btoaJson (p : TokenPayload) : string := btoa (stringify (payloadJSON p)).

(** ** Properties of the serialisations *)

Lemma parseUser_stringifyUser u : parseUser (stringifyUser u) = Some (UObj u).
Proof.
  unfold parseUser, stringifyUser. rewrite parse_readback by (apply parseValue_stringify || done).
  destruct u. reflexivity.
Qed.

Lemma stringifyUser_truthy u : JsString.truthy (stringifyUser u) = true.
Proof. reflexivity. Qed.

Lemma btoaJson_truthy p : JsString.truthy (btoaJson p) = true.
Proof. reflexivity. Qed.

Lemma parseUser_null : parseUser "null" = Some UNull.
Proof. reflexivity. Qed.

(** C29. With the serialisations the code uses, a page reload after a
    successful login restores the same user and the same token, for
    every user name and both readings of the clock. *)
Theorem login_reload_restores u t1 t2 q :
  let p := authStep stringifyUser parseUser btoaJson Reload
             (authStep stringifyUser parseUser btoaJson (LoginSettled u "test123" t1 t2) q) in
  isAuthenticated p.1 = true /\ user p.1 = UObj (mkLoginUser u)
  /\ token p.1 = Some (btoaJson (mkPayload u (t1 + 86400000) t2)).
Proof.
  apply login_reload_roundtrip;
    [apply parseUser_stringifyUser | apply stringifyUser_truthy | apply btoaJson_truthy].
Qed.

(** C32. A stored user [null] (what [JSON.stringify(null)] writes) with
    a token restores an authenticated session without a user: the
    [RESTORE_SESSION] case does not look at the parsed value. *)
Theorem restore_null_session t :
  JsString.truthy t = true ->
  let p := restoreSession parseUser initialState
             (<["auth_user"%string := "null"%string]> (<["auth_token"%string := t]> ∅)) in
  isAuthenticated p.1 = true /\ user p.1 = UNull.
Proof. intros Ht. by apply restore_null_user; [apply parseUser_null|]. Qed.

(** The token is the base64 text of the JSON payload, and a stored user
    that is not JSON logs nothing in and clears both keys. *)
Example token_and_bad_user :
  btoaJson (mkPayload "alice" 1700000086400000 1700000000000)
  = "eyJ1c2VybmFtZSI6ImFsaWNlIiwiZXhwIjoxNzAwMDAwMDg2NDAwMDAwLCJpYXQiOjE3MDAwMDAwMDAwMDB9"
  /\ restoreSession parseUser initialState
       (<["auth_user"%string := "{alice}"%string]> (<["auth_token"%string := "t"%string]> ∅))
     = (initialState, ∅).
Proof. split; vm_compute; reflexivity. Qed.

Lemma restore_null_session_witness :
  JsString.truthy "eyJ1" = true
  /\ (let p := restoreSession parseUser initialState
                 (<["auth_user"%string := "null"%string]> (<["auth_token"%string := "eyJ1"%string]> ∅)) in
      isAuthenticated p.1 = true /\ user p.1 = UNull).
Proof. split; [reflexivity | apply restore_null_session; reflexivity]. Defined.


End Json.
