(* ===== verification/Upload.v ===== *)
(** The upload dialog: [src/src/components/UploadModal.jsx] and
    [uploadApi] of [src/src/services/api.js] (lines 122-139).

    The dialog keeps one shared list [files]; every asynchronous task
    updates it through [setFiles(prev => prev.map(...))], matching the
    item by [id].  The tasks of one upload are the progress interval
    (every 200 ms, while registered) and the settling of
    [uploadApi.uploadFile]; the user can remove a file or close the
    dialog at any time, and the tasks of earlier uploads keep running.
    The state therefore also holds the registered intervals ([timers])
    and the unsettled uploads ([pendingUploads]), by file id, and each
    task is an event of [uploadStep].

    Ids ([Date.now() + Math.random()]), progress values and random draws
    are JavaScript numbers, modelled as rationals [Q] and compared by
    value ([===] is [Qeq_bool]).  The code relies on fresh ids being
    distinct from every id in use; the events that add files require it. *)

From S2P Require Import Prelude JsRuntime.
From Stdlib Require Import QArith Qround Lqa.
From stdpp Require Import pretty.

Module Upload.

(** [a < b] on numbers. *)
Definition Qltb (a b : Q) : bool := negb (Qle_bool b a).

Record FileInfo := mkFileInfo { file_name : string; file_size : Z }.

(** [status: 'pending' | 'uploading' | 'success' | 'error']. *)
Inductive FileStatus := Pending | Uploading | Success | Failed.

Record FileItem := mkItem {
  fid : Q;
  file : FileInfo;
  fname : string;
  fsize : Z;
  fstatus : FileStatus;
  progress : Q;
  ferror : option string;
}.

Record UploadState := mkUpload {
  isOpen : bool;
  files : list FileItem;
  dragActive : bool;
  timers : list Q;
  pendingUploads : list Q;
}.

Definition idIn (i : Q) (l : list Q) : bool := existsb (Qeq_bool i) l.
Definition idRemove (i : Q) (l : list Q) : list Q := List.filter (fun j => negb (Qeq_bool j i)) l.

(** ** [uploadApi.uploadFile] *)

(** The record the mock returns; [id] is [Date.now().toString()] and
    [uploadedAt] the same instant as an ISO string, both kept as the
    instant [now] (the dialog never reads the result). *)
Record UploadResult := mkUploadResult {
  up_id : Z; up_name : string; up_size : Z; up_status : string; uploadedAt : Z
}.

(** [uploadApi.uploadFile(file)] with [Math.random()] = [r] at [now];
    the [delay(2000)] only postpones the settling, which is an event of
    its own below. *)
Definition uploadApi_uploadFile (fi : FileInfo) (r : Q) (now : Z) : Promise UploadResult :=
  if Qltb (1 # 10) r
  then Resolve (mkUploadResult now (file_name fi) (file_size fi) "success" now)
  else Reject "Upload failed".

(** ** Handlers *)

Definition setFiles (fs : list FileItem) (s : UploadState) : UploadState :=
  mkUpload (isOpen s) fs (dragActive s) (timers s) (pendingUploads s).

Definition setDragActive (b : bool) (s : UploadState) : UploadState :=
  mkUpload (isOpen s) (files s) b (timers s) (pendingUploads s).

(** [prev.map(f => f.id === id ? g(f) : f)]. *)
Definition mapFile (i : Q) (g : FileItem -> FileItem) (fs : list FileItem) : list FileItem :=
  map (fun f => if Qeq_bool (fid f) i then g f else f) fs.

(** The item [handleFiles] creates for a file. *)
Definition newItem (fi : FileInfo) (i : Q) : FileItem :=
  mkItem i fi (file_name fi) (file_size fi) Pending 0 None.

Definition withStatus (st : FileStatus) (p : Q) (f : FileItem) : FileItem :=
  mkItem (fid f) (file f) (fname f) (fsize f) st p (ferror f).

Definition withProgress (p : Q) (f : FileItem) : FileItem :=
  mkItem (fid f) (file f) (fname f) (fsize f) (fstatus f) p (ferror f).

Definition withError (m : string) (f : FileItem) : FileItem :=
  mkItem (fid f) (file f) (fname f) (fsize f) Failed (progress f) (Some m).

(** [uploadFile(fileItem)] up to [await uploadApi.uploadFile(...)]: mark it
    uploading, register its interval, start the upload. *)
Definition uploadFile_begin (it : FileItem) (s : UploadState) : UploadState :=
  mkUpload (isOpen s) (mapFile (fid it) (withStatus Uploading 0) (files s)) (dragActive s)
    (timers s ++ [fid it]) (pendingUploads s ++ [fid it]).

(** [handleFiles(fileList)]: append the new items, then start each upload. *)
Definition handleFiles (items : list (FileInfo * Q)) (s : UploadState) : UploadState :=
  let newFiles := map (fun '(fi, i) => newItem fi i) items in
  fold_left (fun s it => uploadFile_begin it s) newFiles (setFiles (files s ++ newFiles) s).

(** One run of the interval of upload [i], with [Math.random()] = [r]. *)
Definition tick (i r : Q) (s : UploadState) : UploadState :=
  setFiles (map (fun f => if Qeq_bool (fid f) i && Qltb (progress f) 90
                          then withProgress (progress f + r * 20) f else f) (files s)) s.

(** The rest of [uploadFile] once the upload settled: on success clear
    the interval and mark the item; on failure only mark it. *)
Definition uploadFile_resume (i : Q) (res : Promise UploadResult) (s : UploadState) : UploadState :=
  match res with
  | Resolve _ =>
      mkUpload (isOpen s) (mapFile i (withStatus Success 100) (files s)) (dragActive s)
        (idRemove i (timers s)) (idRemove i (pendingUploads s))
  | Reject m =>
      mkUpload (isOpen s) (mapFile i (withError m) (files s)) (dragActive s)
        (timers s) (idRemove i (pendingUploads s))
  end.

(** [removeFile(fileId)]. *)
Definition removeFile (i : Q) (s : UploadState) : UploadState :=
  setFiles (List.filter (fun f => negb (Qeq_bool (fid f) i)) (files s)) s.

(** [handleClose()]: empty the list, then [onClose()] closes the dialog. *)
Definition handleClose (s : UploadState) : UploadState :=
  mkUpload false [] (dragActive s) (timers s) (pendingUploads s).

(** ** What a file's row shows *)

(** [getStatusText(file)]; [file.error || 'Upload failed'] falls back on
    an empty message too. *)
Definition getStatusText (f : FileItem) : string :=
  match fstatus f with
  | Pending => "Pending..."
  | Uploading => "Uploading... " +:+ pretty (JsMath.round (progress f)) +:+ "%"
  | Success => "Uploaded successfully"
  | Failed =>
      match ferror f with
      | Some m => if JsString.truthy m then m else "Upload failed"
      | None => "Upload failed"
      end
  end.

(** [Math.floor(Math.log(bytes) / Math.log(1024))] for a positive
    integer size: the floor of the base-1024 logarithm.  The floating
    point quotient agrees with it for every size below [1024^5 - 1]. *)
Definition unitIndex (bytes : Z) : Z := (Z.log2 bytes / 10)%Z.

Definition sizes : list string := ["Bytes"; "KB"; "MB"; "GB"].

(** [sizes[i]], which is [undefined] past the end of the array and is
    then printed as such. *)
Definition sizeAt (i : Z) : string :=
  match sizes !! Z.to_nat i with Some u => u | None => "undefined" end.

(** [x.toFixed(2)] as a count of hundredths: the nearest one, halves up
    ([bytes / 1024^i] is exact in floating point). *)
Definition hundredths (bytes i : Z) : Z := ((200 * bytes + 1024 ^ i) / (2 * 1024 ^ i))%Z.

(** [String(parseFloat(s))] for [s] with two decimals: [n] hundredths
    printed without trailing zeros. *)
Definition showHundredths (n : Z) : string :=
  let q := (n / 100)%Z in
  let c := (n mod 100)%Z in
  if (c =? 0)%Z then pretty q
  else if (c mod 10 =? 0)%Z then pretty q +:+ "." +:+ pretty (c / 10)%Z
  else pretty q +:+ "." +:+ (if (c <? 10)%Z then "0" else "") +:+ pretty c.

(** [formatFileSize(bytes)]. *)
Definition formatFileSize (bytes : Z) : string :=
  if (bytes =? 0)%Z then "0 Bytes"
  else let i := unitIndex bytes in
       showHundredths (hundredths bytes i) +:+ " " +:+ sizeAt i.

(** The footer: "{successes} of {files.length} files uploaded". *)
Definition uploadedCount (fs : list FileItem) : nat :=
  length (List.filter (fun f => match fstatus f with Success => true | _ => false end) fs).

(** The event types [handleDrag] distinguishes. *)
Inductive DragType := DragEnter | DragOver | DragLeave | DragOther.

Definition handleDrag (t : DragType) (s : UploadState) : UploadState :=
  match t with
  | DragEnter | DragOver => setDragActive true s
  | DragLeave => setDragActive false s
  | DragOther => s
  end.

(** [handleDrop]: [files[0]] exists when the list is not empty. *)
Definition handleDrop (items : list (FileInfo * Q)) (s : UploadState) : UploadState :=
  let s := setDragActive false s in
  match items with [] => s | _ => handleFiles items s end.

(** ** Events *)

Inductive UploadEvent :=
| Open                                     (** the parent sets [isOpen] *)
| Drag (t : DragType)
| Drop (items : list (FileInfo * Q))
| Browse (items : list (FileInfo * Q))     (** the file input's [onChange] *)
| Tick (i r : Q)                           (** an interval fires *)
| Settled (i : Q) (fi : FileInfo) (r : Q) (now : Z)
    (** the upload of [fi] settles; the dialog discards the result *)
| Remove (i : Q)                           (** a file's X button *)
| Close.                                   (** X or Close *)

(** Ids in use: listed files, registered intervals, unsettled uploads. *)
Definition idsInUse (s : UploadState) : list Q := map fid (files s) ++ timers s ++ pendingUploads s.

(** The ids a batch brings are distinct and not in use. *)
Fixpoint freshIds (l : list Q) (used : list Q) : bool :=
  match l with
  | [] => true
  | i :: l' => negb (idIn i used) && freshIds l' (used ++ [i])
  end.

Definition random (r : Q) : bool := Qle_bool 0 r && Qltb r 1.

Definition uploadEnabled (ev : UploadEvent) (s : UploadState) : bool :=
  match ev with
  | Open => true
  | Drag _ => isOpen s
  | Drop items | Browse items => isOpen s && freshIds (map snd items) (idsInUse s)
  | Tick i r => idIn i (timers s) && random r
  | Settled i _ r _ => idIn i (pendingUploads s) && random r
  | Remove i => isOpen s && existsb (fun f => Qeq_bool (fid f) i) (files s)
  | Close => isOpen s
  end.

Definition uploadStep (ev : UploadEvent) (s : UploadState) : UploadState :=
  match ev with
  | Open => mkUpload true (files s) (dragActive s) (timers s) (pendingUploads s)
  | Drag t => handleDrag t s
  | Drop items => handleDrop items s
  | Browse items => handleFiles items s
  | Tick i r => tick i r s
  | Settled i fi r now => uploadFile_resume i (uploadApi_uploadFile fi r now) s
  | Remove i => removeFile i s
  | Close => handleClose s
  end.

Definition initialUpload : UploadState := mkUpload false [] false [] [].

Inductive uploadReachable : UploadState -> Prop :=
| ur_init : uploadReachable initialUpload
| ur_step ev s : uploadReachable s -> uploadEnabled ev s = true -> uploadReachable (uploadStep ev s).

(** Runs of enabled events from a given state. *)
Inductive uploadRun : UploadState -> UploadState -> Prop :=
| run_nil s : uploadRun s s
| run_cons ev s s' : uploadEnabled ev s = true -> uploadRun (uploadStep ev s) s' -> uploadRun s s'.

(** A sequence of events, and whether each is enabled when it comes. *)
Definition runEvents (evs : list UploadEvent) (s : UploadState) : UploadState :=
  fold_left (fun s ev => uploadStep ev s) evs s.

Fixpoint runEnabled (evs : list UploadEvent) (s : UploadState) : bool :=
  match evs with
  | [] => true
  | ev :: evs => uploadEnabled ev s && runEnabled evs (uploadStep ev s)
  end.

(** The item an upload shows once [handleFiles] has started it. *)
Definition startedItem (x : FileInfo * Q) : FileItem :=
  withStatus Uploading 0 (newItem (fst x) (snd x)).

(** ** The invariant *)

(** What holds of a listed item, given the registered intervals [T] and
    the unsettled uploads [P]. *)
Definition itemOk (T P : list Q) (f : FileItem) : Prop :=
  (0 <= progress f < 110)%Q
  /\ fstatus f <> Pending
  /\ (fstatus f = Uploading <-> idIn (fid f) P = true)
  /\ (fstatus f = Success -> progress f == 100 /\ idIn (fid f) T = false)
  /\ (fstatus f = Failed -> ferror f = Some "Upload failed"%string /\ idIn (fid f) T = true).

Definition filesInv (fs : list FileItem) (T P : list Q) : Prop :=
  NoDup (map Qred (map fid fs))
  /\ NoDup (map Qred T)
  /\ NoDup (map Qred P)
  /\ (forall i, idIn i P = true -> idIn i T = true)
  /\ Forall (itemOk T P) fs.

Definition uploadInv (s : UploadState) : Prop :=
  filesInv (files s) (timers s) (pendingUploads s).

(** ** Ids *)

Lemma Qeq_bool_red a b : Qeq_bool a b = true <-> Qred a = Qred b.
Proof.
  rewrite Qeq_bool_iff. split; [apply Qred_complete|].
  intros E. rewrite <- (Qred_correct a), <- (Qred_correct b), E. reflexivity.
Qed.

Lemma Qeq_bool_red_false a b : Qeq_bool a b = false <-> Qred a <> Qred b.
Proof. rewrite <- Qeq_bool_red. destruct (Qeq_bool a b); intuition congruence. Qed.

Lemma idIn_spec i l : idIn i l = true <-> Qred i ∈ map Qred l.
Proof.
  induction l as [|j l IH]; simpl; [by rewrite elem_of_nil|].
  by rewrite orb_true_iff, elem_of_cons, IH, Qeq_bool_red.
Qed.

Lemma idIn_false i l : idIn i l = false <-> Qred i ∉ map Qred l.
Proof. rewrite <- idIn_spec. destruct (idIn i l); intuition congruence. Qed.

Lemma idIn_app i l1 l2 : idIn i (l1 ++ l2) = idIn i l1 || idIn i l2.
Proof. apply existsb_app. Qed.

Lemma idIn_single i j : idIn i [j] = Qeq_bool i j.
Proof. simpl. by rewrite orb_false_r. Qed.

Lemma idIn_remove j i l : idIn j (idRemove i l) = idIn j l && negb (Qeq_bool j i).
Proof.
  induction l as [|k l IH]; simpl; [done|].
  destruct (Qeq_bool k i) eqn:Eki; simpl; rewrite IH;
    destruct (Qeq_bool j k) eqn:Ejk, (Qeq_bool j i) eqn:Eji, (idIn j l); simpl; try done;
    rewrite ?Qeq_bool_red, ?Qeq_bool_red_false in *; congruence.
Qed.

Lemma NoDup_idRemove i l : NoDup (map Qred l) -> NoDup (map Qred (idRemove i l)).
Proof. apply NoDup_map_filter. Qed.

Create Rewrite HintDb upload_rw.
#[export] Hint Rewrite idIn_app idIn_single idIn_remove : upload_rw.

(** A fresh batch: its ids are distinct and miss every id of [used]. *)
Lemma freshIds_used l used :
  freshIds l used = true -> Forall (fun k => idIn k used = false) l.
Proof.
  revert used. induction l as [|i l IH]; intros used H; simpl in H; [constructor|].
  bool_props. constructor; [done|].
  eapply Forall_impl; [apply (IH _ H0)|]. intros k Hk. cbv beta in Hk.
  rewrite idIn_app in Hk. by apply orb_false_iff in Hk as [? _].
Qed.

Lemma freshIds_mono l u1 u2 :
  (forall k, idIn k u1 = true -> idIn k u2 = true) ->
  freshIds l u2 = true -> freshIds l u1 = true.
Proof.
  revert u1 u2. induction l as [|i l IH]; intros u1 u2 Hsub H; simpl in *; [done|].
  bool_props. apply andb_true_iff. split.
  - apply negb_true_iff. destruct (idIn i u1) eqn:E; [|done]. rewrite Hsub in H; done.
  - eapply IH; [|exact H0]. intros k. rewrite !idIn_app.
    intros [?%Hsub | ?]%orb_true_iff; apply orb_true_iff; auto.
Qed.

Lemma freshIds_NoDup l u :
  NoDup (map Qred u) -> freshIds l u = true -> NoDup (map Qred (u ++ l)).
Proof.
  revert u. induction l as [|i l IH]; intros u Hu H; simpl in H; [by rewrite app_nil_r|].
  bool_props. replace (u ++ i :: l) with ((u ++ [i]) ++ l) by by rewrite <- app_assoc.
  apply IH; [|done]. rewrite map_app. apply NoDup_app. split_and!; [done| |by apply NoDup_singleton].
  intros x Hx ->%list_elem_of_singleton. by apply idIn_false in H.
Qed.

(** ** [handleFiles] *)

Lemma Qeq_bool_comm a b : Qeq_bool a b = Qeq_bool b a.
Proof. apply eq_bool_prop_intro. rewrite !Is_true_true, !Qeq_bool_red. intuition congruence. Qed.

Lemma mapFile_fresh i g l :
  Forall (fun f => Qeq_bool (fid f) i = false) l -> mapFile i g l = l.
Proof. unfold mapFile. induction 1 as [|f l Hf _ IH]; simpl; [done|]. by rewrite Hf, IH. Qed.

Lemma idIn_map_false i (l : list FileItem) :
  idIn i (map fid l) = false -> Forall (fun f => Qeq_bool (fid f) i = false) l.
Proof.
  induction l as [|f l IH]; simpl; intros H; [constructor|]. bool_props.
  constructor; [by rewrite Qeq_bool_comm | auto].
Qed.

Lemma mapFile_fresh_app i fi old (items : list (FileInfo * Q)) :
  idIn i (map fid old) = false ->
  Forall (fun k => idIn k (map fid old ++ [i]) = false) (map snd items) ->
  mapFile i (withStatus Uploading 0) (old ++ newItem fi i :: map (fun x => newItem (fst x) (snd x)) items)
  = old ++ startedItem (fi, i) :: map (fun x => newItem (fst x) (snd x)) items.
Proof.
  intros Hold Hrest. unfold mapFile in *. rewrite map_app. simpl.
  rewrite Qeq_bool_refl. f_equal; [by apply mapFile_fresh, idIn_map_false|].
  f_equal. apply mapFile_fresh. apply Forall_map. apply Forall_map in Hrest.
  eapply Forall_impl; [exact Hrest|]. intros [fi' k] Hk; simpl in *.
  rewrite idIn_app, idIn_single in Hk. by apply orb_false_iff in Hk as [_ ?].
Qed.

Lemma newItems_eq (items : list (FileInfo * Q)) :
  map (fun '(fi, i) => newItem fi i) items = map (fun x => newItem (fst x) (snd x)) items.
Proof. apply map_ext. by intros []. Qed.

(** Starting the uploads of a fresh batch one after the other. *)
Lemma fold_begin items o old d T P :
  freshIds (map snd items) (map fid old) = true ->
  fold_left (fun s it => uploadFile_begin it s) (map (fun x => newItem (fst x) (snd x)) items)
    (mkUpload o (old ++ map (fun x => newItem (fst x) (snd x)) items) d T P)
  = mkUpload o (old ++ map startedItem items) d (T ++ map snd items) (P ++ map snd items).
Proof.
  revert old T P. induction items as [|[fi i] items IH]; intros old T P H; simpl in *.
  - by rewrite !app_nil_r.
  - bool_props. pose proof (freshIds_used _ _ H0) as Hrest.
    unfold uploadFile_begin at 2. simpl.
    rewrite (mapFile_fresh_app _ _ _ _ H Hrest).
    replace (map fid old ++ [i]) with (map fid (old ++ [startedItem (fi, i)])) in H0
      by by rewrite map_app.
    replace (old ++ startedItem (fi, i) :: map (fun x => newItem (fst x) (snd x)) items)
      with ((old ++ [startedItem (fi, i)]) ++ map (fun x => newItem (fst x) (snd x)) items)
      by by rewrite <- app_assoc.
    rewrite IH by done. by rewrite <- !app_assoc.
Qed.

Lemma freshIds_files l s :
  freshIds l (idsInUse s) = true -> freshIds l (map fid (files s)) = true.
Proof.
  apply freshIds_mono. unfold idsInUse. intros k. rewrite idIn_app. by intros ->.
Qed.

Lemma handleFiles_eq items s :
  freshIds (map snd items) (map fid (files s)) = true ->
  handleFiles items s
  = mkUpload (isOpen s) (files s ++ map startedItem items) (dragActive s)
      (timers s ++ map snd items) (pendingUploads s ++ map snd items).
Proof. intros H. unfold handleFiles, setFiles. rewrite newItems_eq. by apply fold_begin. Qed.

(** ** Preservation of the invariant, operation by operation *)

Lemma idIn_Qeq a b l : Qeq_bool a b = true -> idIn a l = idIn b l.
Proof.
  intros E. apply Qeq_bool_red in E. apply eq_bool_prop_intro.
  by rewrite !Is_true_true, !idIn_spec, E.
Qed.

Lemma idIn_In i l : In i l -> idIn i l = true.
Proof. intros H. apply existsb_exists. exists i. split; [done | apply Qeq_bool_refl]. Qed.

Lemma idIn_map_In f fs : In f fs -> idIn (fid f) (map fid fs) = true.
Proof. intros H. by apply idIn_In, in_map. Qed.

Lemma fresh_sym l u j :
  Forall (fun k => idIn k u = false) l -> idIn j u = true -> idIn j l = false.
Proof.
  induction 1 as [|k l Hk _ IH]; intros Hj; simpl; [done|].
  destruct (Qeq_bool j k) eqn:E; simpl; [|auto].
  by rewrite <- (idIn_Qeq _ _ _ E), Hj in Hk.
Qed.

Lemma itemOk_ext T P T' P' f :
  idIn (fid f) T' = idIn (fid f) T -> idIn (fid f) P' = idIn (fid f) P ->
  itemOk T P f -> itemOk T' P' f.
Proof. unfold itemOk. intros -> ->. done. Qed.

Lemma map_ext_eq_fid fs (h : FileItem -> FileItem) :
  (forall f, fid (h f) = fid f) -> map fid (map h fs) = map fid fs.
Proof. intros H. rewrite map_map. apply map_ext, H. Qed.

Lemma map_fid_mapFile i g fs :
  (forall f, fid (g f) = fid f) -> map fid (mapFile i g fs) = map fid fs.
Proof.
  intros Hg. apply map_ext_eq_fid. intros f. by case_if.
Qed.

Lemma Forall_mapFile (R : FileItem -> Prop) i g fs :
  (forall f, In f fs -> Qeq_bool (fid f) i = true -> R (g f)) ->
  (forall f, In f fs -> Qeq_bool (fid f) i = false -> R f) ->
  Forall R (mapFile i g fs).
Proof.
  intros H1 H2. apply List.Forall_forall. intros x (f & <- & Hf)%in_map_iff. case_if; auto.
Qed.

Lemma filesInv_handleFiles fs T P items :
  filesInv fs T P -> freshIds (map snd items) (map fid fs ++ T ++ P) = true ->
  filesInv (fs ++ map startedItem items) (T ++ map snd items) (P ++ map snd items).
Proof.
  intros (Hf & HT & HP & HPT & Hok) Hfr.
  assert (forall u, (forall k, idIn k u = true -> idIn k (map fid fs ++ T ++ P) = true) ->
    freshIds (map snd items) u = true) as Hmono by (intros; eapply freshIds_mono; eauto).
  pose proof (freshIds_used _ _ Hfr) as Hused.
  split_and!.
  - rewrite map_app, map_map. apply freshIds_NoDup; [done|]. apply Hmono.
    intros k. rewrite !idIn_app. by intros ->.
  - apply freshIds_NoDup; [done|]. apply Hmono. intros k. rewrite !idIn_app. intros ->.
    by rewrite orb_true_r.
  - apply freshIds_NoDup; [done|]. apply Hmono. intros k. rewrite !idIn_app. intros ->.
    by rewrite !orb_true_r.
  - intros i. rewrite !idIn_app. intros [?%HPT | ->]%orb_true_iff; [by rewrite H|].
    by rewrite orb_true_r.
  - apply Forall_app. split.
    + apply List.Forall_forall. intros f Hin. eapply List.Forall_forall in Hok; [|done].
      assert (idIn (fid f) (map snd items) = false) as E.
      { eapply fresh_sym; [exact Hused|]. by rewrite idIn_app, idIn_map_In. }
      eapply itemOk_ext; [| |exact Hok]; by rewrite idIn_app, E, orb_false_r.
    + apply Forall_map, List.Forall_forall. intros [fi i] Hin. unfold itemOk; simpl.
      rewrite idIn_app, (idIn_In i (map snd items)), orb_true_r by (apply (in_map snd _ _ Hin)).
      split_and!; try done; lra.
Qed.

Lemma filesInv_success fs T P i :
  filesInv fs T P -> idIn i P = true ->
  filesInv (mapFile i (withStatus Success 100) fs) (idRemove i T) (idRemove i P).
Proof.
  intros (Hf & HT & HP & HPT & Hok) Hi. split_and!.
  - by rewrite map_fid_mapFile.
  - by apply NoDup_idRemove.
  - by apply NoDup_idRemove.
  - intros j. rewrite !idIn_remove. intros [?%HPT ?]%andb_true_iff. by rewrite H, H0.
  - apply Forall_mapFile; intros f Hin E.
    + unfold itemOk; simpl. rewrite !idIn_remove, E, !andb_false_r. split_and!; done || lra.
    + eapply List.Forall_forall in Hok; [|done].
      eapply itemOk_ext; [| |exact Hok]; by rewrite idIn_remove, E, andb_true_r.
Qed.

Lemma filesInv_failure fs T P i :
  filesInv fs T P -> idIn i P = true ->
  filesInv (mapFile i (withError "Upload failed") fs) T (idRemove i P).
Proof.
  intros (Hf & HT & HP & HPT & Hok) Hi. split_and!.
  - by rewrite map_fid_mapFile.
  - done.
  - by apply NoDup_idRemove.
  - intros j. rewrite !idIn_remove. intros [?%HPT ?]%andb_true_iff. done.
  - apply Forall_mapFile; intros f Hin E.
    + eapply List.Forall_forall in Hok; [|done]. destruct Hok as (Hp & _).
      assert (idIn (fid f) T = true) as HT' by (rewrite (idIn_Qeq _ _ _ E); auto).
      unfold itemOk; simpl. rewrite !idIn_remove, E, HT', andb_false_r.
      split_and!; first [done | lra | split; intros; discriminate | intros; discriminate].
    + eapply List.Forall_forall in Hok; [|done].
      eapply itemOk_ext; [| |exact Hok]; by rewrite ?idIn_remove, ?E, ?andb_true_r.
Qed.

Lemma Qltb_lt a b : Qltb a b = true <-> (a < b)%Q.
Proof.
  unfold Qltb. rewrite negb_true_iff. split.
  - intros H. apply Qnot_le_lt. intros ?%Qle_bool_iff. congruence.
  - intros H. destruct (Qle_bool b a) eqn:E; [|done]. apply Qle_bool_iff in E. lra.
Qed.

Lemma filesInv_tick fs T P i r :
  filesInv fs T P -> random r = true ->
  filesInv (map (fun f => if Qeq_bool (fid f) i && Qltb (progress f) 90
                          then withProgress (progress f + r * 20) f else f) fs) T P.
Proof.
  intros (Hf & HT & HP & HPT & Hok) Hr. unfold random in Hr. bool_props.
  apply Qle_bool_iff in H. apply Qltb_lt in H0. split_and!; try done.
  - erewrite (map_ext_eq_fid fs); [exact Hf|]. intros f. by case_if.
  - apply List.Forall_forall. intros x (f & <- & Hin)%in_map_iff.
    eapply List.Forall_forall in Hok; [|done]. case_if; [|done]. bool_props.
    apply Qltb_lt in H2. destruct Hok as (Hp & Hn & Hu & Hs & Hfl).
    unfold itemOk; simpl. split_and!; try done; [nra|nra|].
    intros Hsucc. destruct (Hs Hsucc) as [E _]. rewrite E in H2. lra.
Qed.

Lemma filesInv_remove fs T P i :
  filesInv fs T P -> filesInv (List.filter (fun f => negb (Qeq_bool (fid f) i)) fs) T P.
Proof.
  intros (Hf & HT & HP & HPT & Hok). split_and!; try done.
  - rewrite map_map in *. by apply NoDup_map_filter.
  - apply List.Forall_forall. intros f [Hin _]%filter_In. by eapply List.Forall_forall in Hok.
Qed.

Lemma filesInv_close T P fs : filesInv fs T P -> filesInv [] T P.
Proof. intros (Hf & HT & HP & HPT & Hok). split_and!; try done; constructor. Qed.

Lemma inv_step ev s : uploadInv s -> uploadEnabled ev s = true -> uploadInv (uploadStep ev s).
Proof.
  unfold uploadInv. intros Hinv Hen. destruct ev; simpl in *; bool_props.
  - done.
  - by destruct t.
  - destruct items as [|x items]; [done|]. unfold handleDrop.
    rewrite handleFiles_eq; cbn [files timers pendingUploads setDragActive].
    + by apply filesInv_handleFiles.
    + by apply freshIds_files.
  - rewrite handleFiles_eq.
    + by apply filesInv_handleFiles.
    + by apply freshIds_files.
  - by apply filesInv_tick.
  - unfold uploadApi_uploadFile. case_if; simpl.
    + by apply filesInv_success.
    + by apply filesInv_failure.
  - by apply filesInv_remove.
  - by eapply filesInv_close.
Qed.

Lemma reachable_uploadInv s : uploadReachable s -> uploadInv s.
Proof.
  induction 1 as [|ev s _ IH Hen]; [|by apply inv_step].
  split_and!; by constructor || (intros i; discriminate).
Qed.

Lemma In_files_itemOk s f : uploadReachable s -> In f (files s) -> itemOk (timers s) (pendingUploads s) f.
Proof.
  intros Hr Hin. destruct (reachable_uploadInv s Hr) as (_ & _ & _ & _ & Hok).
  by eapply List.Forall_forall in Hok.
Qed.

(** Two listed items with the same id are the same item. *)
Lemma NoDup_map_In_inj {A B} (h : A -> B) l a b :
  NoDup (map h l) -> In a l -> In b l -> h a = h b -> a = b.
Proof.
  induction l as [|x l IH]; simpl; [done|]. intros [Hx Hl]%NoDup_cons Ha Hb E.
  destruct Ha as [<-|Ha], Hb as [<-|Hb]; [done| | |eauto]; exfalso; apply Hx.
  - rewrite E. apply list_elem_of_In, in_map, Hb.
  - rewrite <- E. apply list_elem_of_In, in_map, Ha.
Qed.

Lemma same_id_same_item s f g :
  uploadInv s -> In f (files s) -> In g (files s) -> Qeq_bool (fid g) (fid f) = true -> g = f.
Proof.
  intros (Hf & _) Hinf Hing E. rewrite map_map in Hf.
  eapply (NoDup_map_In_inj (fun x => Qred (fid x))); eauto. by apply Qeq_bool_red.
Qed.

(** The events that can end a run: the frame of a registered interval
    whose upload has settled. *)
Lemma step_keeps_leaked_timer ev s i :
  uploadEnabled ev s = true -> idIn i (timers s) = true -> idIn i (pendingUploads s) = false ->
  idIn i (timers (uploadStep ev s)) = true /\ idIn i (pendingUploads (uploadStep ev s)) = false.
Proof.
  intros Hen HT HP. destruct ev; simpl in *; bool_props; try done.
  - by destruct t.
  - assert (idIn i (map snd items) = false) as Hn.
    { eapply fresh_sym; [apply (freshIds_used _ _ H0)|]. unfold idsInUse. by rewrite !idIn_app, HT, orb_true_r. }
    destruct items as [|x items]; [done|]. unfold handleDrop.
    rewrite handleFiles_eq; cbn [files timers pendingUploads setDragActive].
    + by rewrite !idIn_app, HT, HP, Hn.
    + by apply freshIds_files.
  - assert (idIn i (map snd items) = false) as Hn.
    { eapply fresh_sym; [apply (freshIds_used _ _ H0)|]. unfold idsInUse. by rewrite !idIn_app, HT, orb_true_r. }
    rewrite handleFiles_eq; cbn [files timers pendingUploads].
    + by rewrite !idIn_app, HT, HP, Hn.
    + by apply freshIds_files.
  - assert (Qeq_bool i i0 = false) as Hne.
    { destruct (Qeq_bool i i0) eqn:E; [|done]. by rewrite (idIn_Qeq _ _ _ E), H in HP. }
    unfold uploadApi_uploadFile. case_if; simpl; by rewrite !idIn_remove, ?HT, ?HP, Hne.
Qed.

Lemma run_keeps_leaked_timer s s' i :
  uploadRun s s' -> idIn i (timers s) = true -> idIn i (pendingUploads s) = false ->
  idIn i (timers s') = true.
Proof.
  induction 1 as [s|ev s s' Hen _ IH]; [done|]. intros HT HP.
  destruct (step_keeps_leaked_timer ev s i Hen HT HP). auto.
Qed.

(** An item of a state after a fresh batch with the id of an item
    listed before is that item. *)
Lemma batch_item_old s f g items :
  uploadInv s -> In f (files s) -> freshIds (map snd items) (idsInUse s) = true ->
  (forall g, In g (files s) -> Qeq_bool (fid g) (fid f) = true -> fstatus g = fstatus f) ->
  In g (files s ++ map startedItem items) -> Qeq_bool (fid g) (fid f) = true ->
  fstatus g = fstatus f.
Proof.
  intros Hinv Hf Hfr Hold [Hg | Hg]%in_app_or E; [auto|]. exfalso.
  apply in_map_iff in Hg as (x & <- & Hx).
  assert (idIn (snd x) (idsInUse s) = false) as Hn.
  { eapply List.Forall_forall in Hx; [|apply Forall_map, (freshIds_used _ _ Hfr)]. exact Hx. }
  unfold idsInUse in Hn. rewrite !idIn_app in Hn. simpl in E.
  rewrite (idIn_Qeq _ _ _ E), idIn_map_In in Hn by done. discriminate.
Qed.

Lemma runEvents_run evs s : runEnabled evs s = true -> uploadRun s (runEvents evs s).
Proof.
  revert s. induction evs as [|ev evs IH]; intros s H; simpl in *; [constructor|].
  bool_props. econstructor; eauto.
Qed.

Lemma runEvents_reachable evs s :
  uploadReachable s -> runEnabled evs s = true -> uploadReachable (runEvents evs s).
Proof.
  revert s. induction evs as [|ev evs IH]; intros s Hr H; simpl in *; [done|].
  bool_props. apply IH; [by constructor | done].
Qed.

(** ** File sizes *)

Lemma unitIndex_bounds b :
  (0 < b)%Z -> (0 <= unitIndex b /\ 1024 ^ unitIndex b <= b < 1024 ^ (unitIndex b + 1))%Z.
Proof.
  intros Hb. unfold unitIndex. pose proof (Z.log2_spec b Hb) as [Hlo Hhi].
  pose proof (Z.log2_nonneg b). pose proof (Z.mod_pos_bound (Z.log2 b) 10 ltac:(lia)).
  pose proof (Z.div_mod (Z.log2 b) 10 ltac:(lia)).
  replace 1024%Z with (2 ^ 10)%Z by reflexivity. rewrite <- !Z.pow_mul_r by lia.
  split_and!; [apply Z.div_pos; lia | |].
  - etransitivity; [|exact Hlo]. apply Z.pow_le_mono_r; lia.
  - eapply Z.lt_le_trans; [exact Hhi|]. apply Z.pow_le_mono_r; lia.
Qed.

Lemma unitIndex_ge4 b : (1024 ^ 4 <= b)%Z -> (4 <= unitIndex b)%Z.
Proof.
  intros Hb. unfold unitIndex. change 4%Z with (40 / 10)%Z. apply Z.div_le_mono; [lia|].
  change 40%Z with (Z.log2 (1024 ^ 4)). by apply Z.log2_le_mono.
Qed.

(** The tasks of upload [i] as [prev.map] over the items of id [i]. *)
Lemma tick_mapFile i r fs :
  map (fun f => if Qeq_bool (fid f) i && Qltb (progress f) 90
                then withProgress (progress f + r * 20) f else f) fs
  = mapFile i (fun f => if Qltb (progress f) 90 then withProgress (progress f + r * 20) f else f) fs.
Proof. apply map_ext. intros f. by destruct (Qeq_bool (fid f) i). Qed.

(** ** Properties *)

(** C9. Every reachable state of the dialog satisfies the invariant:
    listed ids are distinct, every unsettled upload has its interval
    registered, no item is left [pending], an item is [uploading]
    exactly while its upload is unsettled, its progress stays in
    [[0, 110)], a successful item shows 100 and has no interval, and a
    failed item carries "Upload failed" and still has its interval. *)
Theorem upload_reachable_inv s :
  uploadReachable s ->
  NoDup (map Qred (map fid (files s)))
  /\ (forall i, idIn i (pendingUploads s) = true -> idIn i (timers s) = true)
  /\ Forall (itemOk (timers s) (pendingUploads s)) (files s).
Proof. intros Hr. destruct (reachable_uploadInv s Hr) as (? & _ & _ & ? & ?). done. Qed.

(** C10. The interval of a failed upload is never cleared: whatever the
    user does afterwards (remove the file, close the dialog, start
    other uploads) and whatever the other uploads do, it stays
    registered and keeps firing every 200 ms. *)
Theorem failed_upload_timer_leak s f s' :
  uploadReachable s -> In f (files s) -> fstatus f = Failed -> uploadRun s s' ->
  idIn (fid f) (timers s') = true.
Proof.
  intros Hr Hin Hst Hrun. destruct (In_files_itemOk s f Hr Hin) as (_ & _ & Hu & _ & Hfl).
  destruct (Hfl Hst) as [_ HT]. eapply run_keeps_leaked_timer; [exact Hrun|done|].
  destruct (idIn (fid f) (pendingUploads s)); [|done]. rewrite Hst in Hu. destruct Hu as [_ Hu]. by specialize (Hu eq_refl).
Qed.

(** C15. In every reachable state a listed file's progress is in
    [[0, 110)], so the text of an uploading file reads "Uploading... k%"
    with [0 <= k <= 110]: the bound is 110, not 100. *)
Theorem upload_progress_bound s f :
  uploadReachable s -> In f (files s) -> fstatus f = Uploading ->
  (0 <= progress f < 110)%Q
  /\ exists k, (0 <= k <= 110)%Z /\ getStatusText f = ("Uploading... " +:+ pretty k +:+ "%")%string.
Proof.
  intros Hr Hin Hst. destruct (In_files_itemOk s f Hr Hin) as (Hp & _).
  split; [done|]. exists (JsMath.round (progress f)). unfold getStatusText. rewrite Hst.
  split; [|done]. split.
  - transitivity (JsMath.round 0); [reflexivity | apply JsMath.round_mono; lra].
  - transitivity (JsMath.round 110); [apply JsMath.round_mono; lra | reflexivity].
Qed.

(** C17. [success] and [error] are final: once a listed item has
    settled, no event changes the status of the item with its id. *)
Theorem upload_status_final ev s f g :
  uploadReachable s -> uploadEnabled ev s = true -> In f (files s) ->
  (fstatus f = Success \/ fstatus f = Failed) ->
  In g (files (uploadStep ev s)) -> Qeq_bool (fid g) (fid f) = true -> fstatus g = fstatus f.
Proof.
  intros Hr Hen Hf Hst Hg E. pose proof (reachable_uploadInv s Hr) as Hinv.
  destruct (In_files_itemOk s f Hr Hf) as (_ & _ & Hu & _).
  assert (forall g, In g (files s) -> Qeq_bool (fid g) (fid f) = true -> fstatus g = fstatus f) as Hold
    by (intros g' ? ?; by rewrite (same_id_same_item s f g')).
  destruct ev; simpl in *; bool_props.
  - auto.
  - destruct t; auto.
  - destruct items as [|x items]; [auto|]. unfold handleDrop in Hg.
    rewrite handleFiles_eq in Hg by by apply freshIds_files.
    by apply (batch_item_old s f g (x :: items)).
  - rewrite handleFiles_eq in Hg by by apply freshIds_files.
    by apply (batch_item_old s f g items).
  - rewrite tick_mapFile in Hg. unfold mapFile in Hg. apply in_map_iff in Hg as (g0 & <- & Hg0).
    destruct (Qeq_bool (fid g0) i); [|auto]. case_if; simpl; auto.
  - unfold uploadApi_uploadFile in Hg.
    destruct (Qltb (1 # 10) r); simpl in Hg; apply in_map_iff in Hg as (g0 & <- & Hg0);
      destruct (Qeq_bool (fid g0) i) eqn:Ei; auto; exfalso; simpl in E;
      rewrite (same_id_same_item s f g0) in Ei by done;
      rewrite <- (idIn_Qeq _ _ _ Ei) in H; apply Hu in H; destruct Hst; congruence.
  - apply filter_In in Hg as [? _]. auto.
  - done.
Qed.

(** C34. A size from 1 byte up to 1024 GB is shown in the unit [u] of
    [sizes] with [1024^i <= bytes < 1024^(i+1)], by a number of
    hundredths [n] with [1 <= n/100 <= 1024] that is [bytes / 1024^i]
    rounded to the nearest hundredth. *)
Theorem formatFileSize_accuracy b :
  (0 < b < 1024 ^ 4)%Z ->
  let i := unitIndex b in
  let n := hundredths b i in
  formatFileSize b = (showHundredths n +:+ " " +:+ sizeAt i)%string
  /\ In (sizeAt i) sizes
  /\ (1024 ^ i <= b < 1024 ^ (i + 1))%Z
  /\ (100 <= n <= 102400)%Z
  /\ (2 * Z.abs (100 * b - n * 1024 ^ i) <= 1024 ^ i)%Z.
Proof.
  intros Hb i n. destruct (unitIndex_bounds b ltac:(lia)) as (Hi0 & Hlo & Hhi). fold i in Hi0, Hlo, Hhi.
  assert (i <= 3)%Z as Hi3.
  { destruct (Z.le_gt_cases i 3) as [|Hgt]; [done|].
    pose proof (Z.pow_le_mono_r 1024 4 i ltac:(lia) ltac:(lia)). lia. }
  assert (0 < 1024 ^ i)%Z as Hm by (apply Z.pow_pos_nonneg; lia).
  rewrite Z.pow_add_r, Z.pow_1_r in Hhi by lia.
  pose proof (Z.mul_div_le (200 * b + 1024 ^ i) (2 * 1024 ^ i) ltac:(lia)).
  pose proof (Z.mul_succ_div_gt (200 * b + 1024 ^ i) (2 * 1024 ^ i) ltac:(lia)).
  unfold n, hundredths in *. split_and!.
  - unfold formatFileSize. by replace (b =? 0)%Z with false by lia.
  - unfold sizeAt, sizes. fold i.
    destruct (Z.to_nat i) as [|[|[|[|k]]]] eqn:E; simpl; auto. lia.
  - done.
  - rewrite Z.pow_add_r, Z.pow_1_r by lia. lia.
  - apply Z.div_le_lower_bound; lia.
  - apply Z.lt_succ_r, Z.div_lt_upper_bound; lia.
  - set (m := (1024 ^ i)%Z) in *. set (q := ((200 * b + m) / (2 * m))%Z) in *.
    replace (2 * m * q)%Z with (2 * (q * m))%Z in * by ring.
    replace (2 * m * Z.succ q)%Z with (2 * (q * m) + 2 * m)%Z in * by (rewrite Z.mul_succ_r; ring).
    generalize dependent (q * m)%Z. intros. lia.
Qed.

(** C35. From 1024 GB on, [sizes[i]] is past the end of the array and
    the text ends with "undefined", e.g. "1 undefined" for [1024^4]
    bytes. *)
Theorem formatFileSize_undefined b :
  (1024 ^ 4 <= b)%Z -> exists num, formatFileSize b = (num +:+ " undefined")%string.
Proof.
  intros Hb. pose proof (unitIndex_ge4 b Hb). unfold formatFileSize.
  replace (b =? 0)%Z with false by lia. eexists. do 2 f_equal.
  unfold sizeAt. rewrite lookup_ge_None_2; [done|]. simpl. lia.
Qed.

(** C22. [handleFiles] on a batch with fresh ids appends one item per
    file, in order, already [uploading] at 0%, and registers one
    interval and one unsettled upload per file, in the same order. *)
Theorem handleFiles_starts_batch items s :
  freshIds (map snd items) (idsInUse s) = true ->
  handleFiles items s
  = mkUpload (isOpen s) (files s ++ map startedItem items) (dragActive s)
      (timers s ++ map snd items) (pendingUploads s ++ map snd items).
Proof. intros H. by apply handleFiles_eq, freshIds_files. Qed.

(** ** Runs of the dialog *)

Definition demoFile : FileInfo := mkFileInfo "lease.pdf" 2500000.

(** Open the dialog, pick one file (id 1), and let its interval fire
    five times with [Math.random()] = 0.85 and once with 0.999. *)
Definition fastTicks : list UploadEvent :=
  [Open; Browse [(demoFile, 1%Q)]; Tick 1 (17 # 20); Tick 1 (17 # 20); Tick 1 (17 # 20);
   Tick 1 (17 # 20); Tick 1 (17 # 20); Tick 1 (999 # 1000)].

(** Open the dialog, pick one file (id 1), and let its upload fail. *)
Definition failedUpload : list UploadEvent :=
  [Open; Browse [(demoFile, 1%Q)]; Settled 1 demoFile (1 # 20) 0].

Lemma fastTicks_reachable : uploadReachable (runEvents fastTicks initialUpload).
Proof. apply runEvents_reachable; [constructor | vm_compute; reflexivity]. Qed.

Lemma failedUpload_reachable : uploadReachable (runEvents failedUpload initialUpload).
Proof. apply runEvents_reachable; [constructor | vm_compute; reflexivity]. Qed.

Definition fastState : UploadState := runEvents fastTicks initialUpload.
Definition failedState : UploadState := runEvents failedUpload initialUpload.
Definition firstItem (s : UploadState) : FileItem := hd (newItem demoFile 0) (files s).

(** C16. The progress text does go past 100%: a run reaches an
    uploading file that reads "Uploading... 105%". *)
Theorem upload_progress_exceeds_100 :
  exists s f, uploadReachable s /\ In f (files s) /\ fstatus f = Uploading
              /\ getStatusText f = "Uploading... 105%"%string.
Proof.
  exists (runEvents fastTicks initialUpload).
  eexists. split_and!; [apply fastTicks_reachable | vm_compute; left; reflexivity | reflexivity | vm_compute; reflexivity].
Qed.

(** The failed item keeps its interval after it is removed and the
    dialog closed. *)
Example failed_then_closed :
  firstItem failedState = mkItem 1 demoFile "lease.pdf" 2500000 Failed 0 (Some "Upload failed")
  /\ files (runEvents [Remove 1; Close] failedState) = []
  /\ timers (runEvents [Remove 1; Close] failedState) = [1%Q].
Proof. vm_compute. split_and!; reflexivity. Qed.

(** Rounding to hundredths can reach the next unit's size without
    switching unit: one byte short of 1 MB reads "1024 KB". *)
Example formatFileSize_1024KB : formatFileSize 1048575 = "1024 KB"%string.
Proof. vm_compute. reflexivity. Qed.

Lemma upload_reachable_inv_witness :
  uploadReachable failedState
  /\ NoDup (map Qred (map fid (files failedState)))
  /\ (forall i, idIn i (pendingUploads failedState) = true -> idIn i (timers failedState) = true)
  /\ Forall (itemOk (timers failedState) (pendingUploads failedState)) (files failedState).
Proof. split; [apply failedUpload_reachable | apply upload_reachable_inv, failedUpload_reachable]. Defined.

Lemma failed_upload_timer_leak_witness :
  uploadReachable failedState /\ In (firstItem failedState) (files failedState)
  /\ fstatus (firstItem failedState) = Failed
  /\ uploadRun failedState (runEvents [Remove 1; Close] failedState)
  /\ idIn (fid (firstItem failedState)) (timers (runEvents [Remove 1; Close] failedState)) = true.
Proof.
  assert (uploadRun failedState (runEvents [Remove 1; Close] failedState)) as Hrun
    by (apply runEvents_run; vm_compute; reflexivity).
  split_and!; [apply failedUpload_reachable | vm_compute; left; reflexivity | reflexivity | exact Hrun |].
  apply (failed_upload_timer_leak failedState); [apply failedUpload_reachable | vm_compute; left; reflexivity
                                                | reflexivity | exact Hrun].
Defined.

Lemma upload_progress_bound_witness :
  uploadReachable fastState /\ In (firstItem fastState) (files fastState)
  /\ fstatus (firstItem fastState) = Uploading
  /\ (0 <= progress (firstItem fastState) < 110)%Q
  /\ exists k, (0 <= k <= 110)%Z
        /\ getStatusText (firstItem fastState) = ("Uploading... " +:+ pretty k +:+ "%")%string.
Proof.
  assert (In (firstItem fastState) (files fastState)) as Hin by (vm_compute; left; reflexivity).
  split; [apply fastTicks_reachable|]. split; [exact Hin|]. split; [reflexivity|].
  exact (upload_progress_bound fastState _ fastTicks_reachable Hin eq_refl).
Defined.

Lemma upload_status_final_witness :
  uploadReachable failedState /\ uploadEnabled (Tick 1 (1 # 2)) failedState = true
  /\ In (firstItem failedState) (files failedState)
  /\ In (firstItem (uploadStep (Tick 1 (1 # 2)) failedState)) (files (uploadStep (Tick 1 (1 # 2)) failedState))
  /\ fstatus (firstItem (uploadStep (Tick 1 (1 # 2)) failedState)) = fstatus (firstItem failedState).
Proof.
  split_and!; [apply failedUpload_reachable | reflexivity | vm_compute; left; reflexivity
              | vm_compute; left; reflexivity |].
  apply (upload_status_final (Tick 1 (1 # 2)) failedState);
    first [apply failedUpload_reachable | reflexivity | vm_compute; left; reflexivity | right; reflexivity].
Defined.

Lemma handleFiles_starts_batch_witness :
  freshIds (map snd [(demoFile, 1%Q); (demoFile, 2%Q)]) (idsInUse failedState) = false
  /\ freshIds (map snd [(demoFile, 2%Q); (demoFile, 3%Q)]) (idsInUse failedState) = true
  /\ handleFiles [(demoFile, 2%Q); (demoFile, 3%Q)] failedState
     = mkUpload (isOpen failedState) (files failedState ++ map startedItem [(demoFile, 2%Q); (demoFile, 3%Q)])
         (dragActive failedState) (timers failedState ++ [2%Q; 3%Q]) (pendingUploads failedState ++ [2%Q; 3%Q]).
Proof.
  split_and!; [vm_compute; reflexivity | vm_compute; reflexivity |].
  apply (handleFiles_starts_batch [(demoFile, 2%Q); (demoFile, 3%Q)] failedState). vm_compute. reflexivity.
Defined.

Lemma formatFileSize_accuracy_witness :
  (0 < 2500000 < 1024 ^ 4)%Z /\ formatFileSize 2500000 = "2.38 MB"%string
  /\ (let i := unitIndex 2500000 in
      let n := hundredths 2500000 i in
      formatFileSize 2500000 = (showHundredths n +:+ " " +:+ sizeAt i)%string
      /\ In (sizeAt i) sizes
      /\ (1024 ^ i <= 2500000 < 1024 ^ (i + 1))%Z
      /\ (100 <= n <= 102400)%Z
      /\ (2 * Z.abs (100 * 2500000 - n * 1024 ^ i) <= 1024 ^ i)%Z).
Proof.
  split_and!; [lia | lia | vm_compute; reflexivity |].
  apply formatFileSize_accuracy. lia.
Defined.

Lemma formatFileSize_undefined_witness :
  (1024 ^ 4 <= 1099511627776)%Z /\ formatFileSize 1099511627776 = "1 undefined"%string
  /\ exists num, formatFileSize 1099511627776 = (num +:+ " undefined")%string.
Proof.
  split_and!; [lia | vm_compute; reflexivity |]. apply formatFileSize_undefined. lia.
Defined.

End Upload.
