(* ===== verification/UploadView.v ===== *)
(** What the upload dialog renders ([UploadModal.jsx], lines 113-124
    and 140-281): nothing while closed ([if (!isOpen) return null]),
    otherwise the file list (when there is a file) with one row per
    item (status icon, name, size, status text with its color, and the
    progress bar while uploading), and the footer count.  The theorems
    read the dialog's reachable states through this view: the
    [pending] status of the code is never on screen. *)

From S2P Require Import Prelude JsRuntime Upload.
From Stdlib Require Import QArith Lqa.

Module UploadView.
Import Upload.

(** [getStatusIcon(status)] of the dialog; [pending] takes the
    [default] branch. *)
Inductive FileIcon := Loader2 | CheckCircle | AlertCircle | FileText.

Definition getStatusIcon (st : FileStatus) : FileIcon * string :=
  match st with
  | Uploading => (Loader2, "w-4 h-4 text-blue-500 animate-spin")
  | Success => (CheckCircle, "w-4 h-4 text-green-500")
  | Failed => (AlertCircle, "w-4 h-4 text-red-500")
  | Pending => (FileText, "w-4 h-4 text-gray-400")
  end.

(** The class chain of the status text. *)
Definition statusTextClass (st : FileStatus) : string :=
  "text-xs " +:+
  match st with Success => "text-green-600" | Failed => "text-red-600" | _ => "text-gray-600" end.

Record FileRow := mkFileRow {
  fr_icon : FileIcon * string;
  fr_name : string;
  fr_size : string;
  fr_textClass : string;
  fr_text : string;
  fr_bar : option Q;   (** [width: `${file.progress}%`] *)
}.

(** One row of [files.map((file) => ...)]. *)
Definition fileRow (f : FileItem) : FileRow :=
  mkFileRow (getStatusIcon (fstatus f)) (fname f) (formatFileSize (fsize f))
    (statusTextClass (fstatus f)) (getStatusText f)
    (match fstatus f with Uploading => Some (progress f) | _ => None end).

Record DialogView := mkDialogView {
  dv_list : option (nat * list FileRow);   (** "Uploaded Files (n)" and the rows *)
  dv_footer : option (nat * nat);          (** "k of n files uploaded" *)
}.

Definition uploadView (s : UploadState) : option DialogView :=
  if isOpen s then
    let n := length (files s) in
    Some (mkDialogView
            (if (0 <? n)%nat then Some (n, map fileRow (files s)) else None)
            (if (0 <? n)%nat then Some (uploadedCount (files s), n) else None))
  else None.

(** ** The rows of reachable states *)

(** A row as the dialog shows it for an item that satisfies the
    invariant: never the pending text or icon, and a bar exactly while
    uploading, within [[0, 110)]. *)
Lemma itemOk_row T P f :
  itemOk T P f ->
  fr_text (fileRow f) <> "Pending..." /\ fst (fr_icon (fileRow f)) <> FileText
  /\ (forall w, fr_bar (fileRow f) = Some w -> fstatus f = Uploading /\ 0 <= w < 110).
Proof.
  intros (Hp & Hnp & _ & _ & Hf). unfold fileRow, getStatusText.
  destruct (fstatus f) eqn:E; simpl; try done; split_and!; try done.
  - intros w [= <-]. done.
  - destruct (Hf eq_refl) as [-> _]. done.
Qed.

(** C39. In every reachable state of the dialog, no row reads
    "Pending..." or shows the pending icon ([handleFiles] adds items as
    [pending] but the same batch of updates marks them [uploading]), and
    every progress bar is between 0% and 110% wide. *)
Theorem pending_never_shown s v r :
  uploadReachable s -> uploadView s = Some v -> In r (default [] (snd <$> dv_list v)) ->
  fr_text r <> "Pending..." /\ fst (fr_icon r) <> FileText
  /\ (forall w, fr_bar r = Some w -> 0 <= w < 110).
Proof.
  intros Hs Hv Hr. unfold uploadView in Hv. destruct (isOpen s); [|done]. injection Hv as <-.
  simpl in Hr. destruct (0 <? _)%nat; [|done]. simpl in Hr.
  apply in_map_iff in Hr as (f & <- & Hin).
  destruct (itemOk_row _ _ _ (In_files_itemOk s f Hs Hin)) as (H1 & H2 & H3).
  split_and!; [done | done | intros w Hw; apply H3, Hw].
Qed.

(** The footer counts the successful uploads among the listed ones. *)
Lemma footer_bound s v k n :
  uploadView s = Some v -> dv_footer v = Some (k, n) -> (0 < n /\ k <= n)%nat.
Proof.
  unfold uploadView. destruct (isOpen s); [|done]. intros [= <-]. simpl.
  destruct (0 <? _)%nat eqn:E; [|done]. intros [= <- <-]. apply Nat.ltb_lt in E.
  split; [done | apply filter_length_le].
Qed.

(** The dialog after five fast ticks: one row, uploading at 105%. *)
Definition fastView : DialogView :=
  mkDialogView (Some (1%nat, [fileRow (firstItem fastState)])) (Some (0%nat, 1%nat)).

Lemma pending_never_shown_witness :
  uploadReachable fastState /\ uploadView fastState = Some fastView
  /\ In (fileRow (firstItem fastState)) (default [] (snd <$> dv_list fastView))
  /\ (fr_text (fileRow (firstItem fastState)) <> "Pending..."
      /\ fst (fr_icon (fileRow (firstItem fastState))) <> FileText
      /\ (forall w, fr_bar (fileRow (firstItem fastState)) = Some w -> 0 <= w < 110)).
Proof.
  assert (uploadView fastState = Some fastView) as H1 by (vm_compute; reflexivity).
  assert (In (fileRow (firstItem fastState)) (default [] (snd <$> dv_list fastView))) as H2
    by (left; reflexivity).
  split; [exact fastTicks_reachable|]. split; [exact H1|]. split; [exact H2|].
  exact (pending_never_shown _ _ _ fastTicks_reachable H1 H2).
Defined.

End UploadView.
