(* ===== verification/DetailPage.v ===== *)
(** The contract page: [src/src/pages/ContractDetailPage.jsx].

    The page reads the route parameter [id]; an effect on [[id]] calls
    [loadContract], which sets [loading] and clears [error], awaits
    [contractsApi.getContractById(id)] and then stores the contract or
    the error message and clears [loading].  Nothing ties a response to
    the [id] that asked for it: when the route moves to another
    contract while a request is pending, both requests are pending at
    once and may settle in either order.  The state therefore holds,
    beside the hooks, the list of pending requests with the id each
    was issued for, and settling any one of them is an event.

    The render shows a skeleton while [loading], the error panel when
    [error] is set, nothing without a contract, and otherwise the
    contract with its clauses, insights and evidence and, when open,
    the evidence drawer ([render]). *)

From S2P Require Import Prelude JsRuntime Contract ContractsApi.
From Stdlib Require Import QArith.

Module DetailPage.
Import ContractsApi.

Record DetailState := mkDetail {
  routeId : string;                     (** [useParams().id] *)
  contract : option Contract;
  loading : bool;
  error : option string;
  selectedEvidence : option Evidence;
  evidenceDrawerOpen : bool;
  pendingLoads : list string;           (** the ids of the unsettled requests, oldest first *)
}.

Definition setContract (c : option Contract) (s : DetailState) : DetailState :=
  mkDetail (routeId s) c (loading s) (error s) (selectedEvidence s) (evidenceDrawerOpen s) (pendingLoads s).
Definition setLoading (b : bool) (s : DetailState) : DetailState :=
  mkDetail (routeId s) (contract s) b (error s) (selectedEvidence s) (evidenceDrawerOpen s) (pendingLoads s).
Definition setError (e : option string) (s : DetailState) : DetailState :=
  mkDetail (routeId s) (contract s) (loading s) e (selectedEvidence s) (evidenceDrawerOpen s) (pendingLoads s).
Definition setSelectedEvidence (e : option Evidence) (s : DetailState) : DetailState :=
  mkDetail (routeId s) (contract s) (loading s) (error s) e (evidenceDrawerOpen s) (pendingLoads s).
Definition setEvidenceDrawerOpen (b : bool) (s : DetailState) : DetailState :=
  mkDetail (routeId s) (contract s) (loading s) (error s) (selectedEvidence s) b (pendingLoads s).
Definition setPendingLoads (l : list string) (s : DetailState) : DetailState :=
  mkDetail (routeId s) (contract s) (loading s) (error s) (selectedEvidence s) (evidenceDrawerOpen s) l.
Definition setRouteId (i : string) (s : DetailState) : DetailState :=
  mkDetail i (contract s) (loading s) (error s) (selectedEvidence s) (evidenceDrawerOpen s) (pendingLoads s).

(** [loadContract()] up to its [await]: the request is issued for the
    [id] of the render that created this [loadContract]. *)
Definition loadContract_begin (s : DetailState) : DetailState :=
  setPendingLoads (pendingLoads s ++ [routeId s]) (setError None (setLoading true s)).

(** The rest of [loadContract] once the request settled: [setContract]
    or [setError(err.message)], then [finally setLoading(false)]. *)
Definition loadContract_resume (res : Promise Contract) (s : DetailState) : DetailState :=
  let s := match res with
           | Resolve data => setContract (Some data) s
           | Reject m => setError (Some m) s
           end in
  setLoading false s.

(** [openEvidenceDrawer(evidence)]. *)
Definition openEvidenceDrawer (e : Evidence) (s : DetailState) : DetailState :=
  setEvidenceDrawerOpen true (setSelectedEvidence (Some e) s).

(** The first render with [id]: [useState] initial values, then the
    effect's [loadContract()]. *)
Definition mountDetail (i : string) : DetailState :=
  loadContract_begin (mkDetail i None true None None false []).

(** ** What the page shows *)

Inductive DetailView :=
| VSkeleton
| VError (message : string)
| VNothing
| VContract (c : Contract) (drawer : option Evidence).

(** The early returns of the component, in order, and the drawer's
    guard [evidenceDrawerOpen && selectedEvidence]. *)
Definition render (s : DetailState) : DetailView :=
  if loading s then VSkeleton else
  match error s with
  | Some m => if JsString.truthy m then VError m else
              match contract s with
              | None => VNothing
              | Some c => VContract c (if evidenceDrawerOpen s then selectedEvidence s else None)
              end
  | None =>
      match contract s with
      | None => VNothing
      | Some c => VContract c (if evidenceDrawerOpen s then selectedEvidence s else None)
      end
  end.

(** ** Events *)

Inductive DetailEvent :=
| Navigate (i : string)                      (** the route parameter becomes [i] *)
| LoadSettled (k : nat) (o : FetchOutcome)   (** the [k]-th pending request settles *)
| TryAgainButton                             (** the error panel's Try Again *)
| EvidenceCard (k : nat)                     (** the [k]-th card of the evidence panel *)
| DrawerClose.                               (** the drawer's X button *)

Definition detailEnabled (ev : DetailEvent) (s : DetailState) : bool :=
  match ev with
  | Navigate _ => true
  | LoadSettled k _ => bool_decide (k < length (pendingLoads s))%nat
  | TryAgainButton => match render s with VError _ => true | _ => false end
  | EvidenceCard k =>
      match render s with VContract c _ => bool_decide (k < length (evidence c))%nat | _ => false end
  | DrawerClose => match render s with VContract _ (Some _) => true | _ => false end
  end.

(** The effect on [[id]] runs [loadContract] when the id changed. *)
Definition detailStep (ev : DetailEvent) (s : DetailState) : DetailState :=
  match ev with
  | Navigate i => if bool_decide (i = routeId s) then s else loadContract_begin (setRouteId i s)
  | LoadSettled k o =>
      match pendingLoads s !! k with
      | Some i => loadContract_resume (getContractById o i) (setPendingLoads (delete k (pendingLoads s)) s)
      | None => s
      end
  | TryAgainButton => loadContract_begin s
  | EvidenceCard k =>
      match contract s with
      | Some c => match evidence c !! k with Some e => openEvidenceDrawer e s | None => s end
      | None => s
      end
  | DrawerClose => setEvidenceDrawerOpen false s
  end.

Inductive detailReachable : DetailState -> Prop :=
| dr_mount i : detailReachable (mountDetail i)
| dr_step ev s : detailReachable s -> detailEnabled ev s = true -> detailReachable (detailStep ev s).

Definition runDetail (evs : list DetailEvent) (s : DetailState) : DetailState :=
  fold_left (fun s ev => detailStep ev s) evs s.

Fixpoint detailRunEnabled (evs : list DetailEvent) (s : DetailState) : bool :=
  match evs with
  | [] => true
  | ev :: evs => detailEnabled ev s && detailRunEnabled evs (detailStep ev s)
  end.

(** ** Badges and scores *)

(** [`px-3 ... ${styles[risk]}`]: a risk outside the table reads
    [undefined]. *)
Definition riskStyle (risk : string) : string :=
  if bool_decide (risk = "Low") then "bg-green-100 text-green-800"
  else if bool_decide (risk = "Medium") then "bg-yellow-100 text-yellow-800"
  else if bool_decide (risk = "High") then "bg-red-100 text-red-800"
  else "undefined".

Definition getRiskBadge (risk : string) : string :=
  "px-3 py-1 text-sm font-medium rounded-full " +:+ riskStyle risk.

Definition statusStyle (status : string) : string :=
  if bool_decide (status = "Active") then "bg-green-100 text-green-800"
  else if bool_decide (status = "Renewal Due") then "bg-orange-100 text-orange-800"
  else if bool_decide (status = "Expired") then "bg-gray-100 text-gray-800"
  else "undefined".

Definition getStatusBadge (status : string) : string :=
  "px-3 py-1 text-sm font-medium rounded-full " +:+ statusStyle status.

(** [getRiskColor(risk)], with its [default]. *)
Definition getRiskColor (risk : string) : string :=
  if bool_decide (risk = "Low") then "text-green-600"
  else if bool_decide (risk = "Medium") then "text-yellow-600"
  else if bool_decide (risk = "High") then "text-red-600"
  else "text-gray-600".

(** [Math.round(score * 100)]: the percentage shown for a clause's
    confidence or an evidence's relevance. *)
Definition percent (score : Q) : Z := JsMath.round (score * 100).

(** ** Lemmas *)

(** What the drawer shows, per its guard. *)
Definition drawerOf (s : DetailState) : option Evidence :=
  if evidenceDrawerOpen s then selectedEvidence s else None.

Definition detailError : string := "Failed to load contract details".

Lemma getContractById_reject o i m : getContractById o i = Reject m -> m = detailError.
Proof.
  unfold getContractById. rewrite api_shape.
  destruct o as [[[] [cs|]]|]; simpl; try by intros [= <-].
  destruct (findById i cs); simpl; by intros [= <-].
Qed.

Lemma getContractById_resolve o i c : getContractById o i = Resolve c -> id c = i.
Proof.
  unfold getContractById. rewrite api_shape.
  destruct o as [[[] [cs|]]|]; simpl; try discriminate.
  destruct (findById i cs) eqn:E; simpl; [|discriminate]. intros [= <-].
  by apply findById_spec in E as (? & ? & ? & ? & _).
Qed.

Definition detailInv (s : DetailState) : Prop :=
  (loading s = true -> pendingLoads s <> [])
  /\ (error s = None \/ error s = Some detailError)
  /\ (evidenceDrawerOpen s = true -> selectedEvidence s <> None).

Lemma begin_inv s : detailInv s -> detailInv (loadContract_begin s).
Proof.
  intros (_ & _ & Hd). split_and!; simpl; auto. intros _. by destruct (pendingLoads s).
Qed.

(** The settling of a request clears [loading], so only the other two
    parts of the invariant are needed before it. *)
Lemma resume_inv res s :
  (forall m, res = Reject m -> m = detailError) ->
  (error s = None \/ error s = Some detailError) ->
  (evidenceDrawerOpen s = true -> selectedEvidence s <> None) ->
  detailInv (loadContract_resume res s).
Proof.
  intros Hm He Hd. destruct res as [c|m]; split_and!; simpl; auto; try discriminate.
  right. by rewrite (Hm m).
Qed.

Lemma detailStep_inv ev s : detailInv s -> detailInv (detailStep ev s).
Proof.
  intros Hinv. destruct ev as [i|k o| |k|]; simpl.
  - case_bool_decide; [done|]. apply begin_inv. destruct Hinv as (? & ? & ?). by split_and!.
  - destruct (pendingLoads s !! k); [|done]. destruct Hinv as (? & ? & ?).
    apply resume_inv; [apply getContractById_reject | done | done].
  - by apply begin_inv.
  - destruct (contract s) as [c|]; [|done]. destruct (evidence c !! k); [|done].
    destruct Hinv as (? & ? & ?). split_and!; simpl; done || discriminate.
  - destruct Hinv as (? & ? & ?). split_and!; simpl; done || discriminate.
Qed.

Lemma reachable_detailInv s : detailReachable s -> detailInv s.
Proof.
  induction 1 as [i|ev s _ IH _]; [|by apply detailStep_inv].
  split_and!; simpl; auto; discriminate.
Qed.

Lemma runDetail_reachable evs s :
  detailReachable s -> detailRunEnabled evs s = true -> detailReachable (runDetail evs s).
Proof.
  revert s. induction evs as [|ev evs IH]; intros s Hr H; simpl in *; [done|].
  bool_props. apply IH; [by constructor | done].
Qed.

(** The page after request [k] (issued for [j]) settles. *)
Lemma settle_state s k o j :
  pendingLoads s !! k = Some j ->
  detailStep (LoadSettled k o) s
  = loadContract_resume (getContractById o j) (setPendingLoads (delete k (pendingLoads s)) s).
Proof. intros H. simpl. by rewrite H. Qed.

(** ** Runs of the page *)

Definition ev1 : Evidence := mkEvidence "Clause 4.2" "Payment within 30 days" (9 # 10).
Definition c1 : Contract :=
  mkContract "1" "Acme Supply" "Acme Corp" "2024-01-01" "2025-01-01" "Active" "Low" [] [] [ev1].
Definition c2 : Contract :=
  mkContract "2" "Beta NDA" "Beta LLC" "2024-03-01" "2026-03-01" "Active" "Medium" [] [] [].
Definition okFetch : FetchOutcome := Some (mkResponse true (Some [c1; c2])).

(** Open contract 1, move to contract 2 before the first response; the
    second request answers first, then the first one. *)
Definition staleRun : DetailState :=
  runDetail [Navigate "2"; LoadSettled 1 okFetch; LoadSettled 0 okFetch] (mountDetail "1").

(** The same, with the first request failing last. *)
Definition staleErrorRun : DetailState :=
  runDetail [Navigate "2"; LoadSettled 1 okFetch; LoadSettled 0 None] (mountDetail "1").

(** Open contract 1, open its first evidence, then move to contract 2. *)
Definition drawerRun : DetailState :=
  runDetail [LoadSettled 0 okFetch; EvidenceCard 0; Navigate "2"; LoadSettled 0 okFetch] (mountDetail "1").

Lemma staleRun_reachable : detailReachable staleRun.
Proof. apply runDetail_reachable; [constructor | vm_compute; reflexivity]. Qed.

Lemma staleErrorRun_reachable : detailReachable staleErrorRun.
Proof. apply runDetail_reachable; [constructor | vm_compute; reflexivity]. Qed.

Lemma drawerRun_reachable : detailReachable drawerRun.
Proof. apply runDetail_reachable; [constructor | vm_compute; reflexivity]. Qed.

(** ** Properties *)

(** C18. Every reachable state of the page satisfies [detailInv]: the
    skeleton is only shown while some request is pending, the only
    error ever stored is "Failed to load contract details", and an
    open drawer has an evidence to show. *)
Theorem detail_reachable_inv s :
  detailReachable s ->
  (loading s = true -> pendingLoads s <> [])
  /\ (error s = None \/ error s = Some "Failed to load contract details"%string)
  /\ (evidenceDrawerOpen s = true -> selectedEvidence s <> None).
Proof. apply reachable_detailInv. Qed.

(** C13. When request [k], issued for id [j], settles, the page shows
    that request's outcome whatever the current route is: its contract
    (whose id is [j]) unless an earlier error is still stored, or its
    error; the drawer keeps its state. *)
Theorem detail_settle_shows_response s k o j :
  detailReachable s -> pendingLoads s !! k = Some j ->
  let s' := detailStep (LoadSettled k o) s in
  pendingLoads s' = delete k (pendingLoads s)
  /\ render s' = match getContractById o j with
                 | Resolve c => match error s with Some m => VError m | None => VContract c (drawerOf s) end
                 | Reject m => VError m
                 end
  /\ (forall c d, render s' = VContract c d -> id c = j).
Proof.
  intros Hr Hk s'. unfold s'. rewrite (settle_state s k o j Hk).
  destruct (reachable_detailInv s Hr) as (_ & He & _).
  destruct (getContractById o j) as [c|m] eqn:E; simpl; (split; [done|]); unfold render; simpl.
  - destruct He as [-> | ->]; simpl; split; try done; intros ? ? [= <- _].
    by apply (getContractById_resolve o).
  - apply getContractById_reject in E as ->. by split.
Qed.

(** C14. Responses are not matched to the route: a reachable page at
    rest (no request pending) on route 2 shows contract 1, and another
    shows the error panel although it holds the contract of its route,
    because a stale request failed after the current one succeeded. *)
Theorem out_of_order_responses :
  (exists s c, detailReachable s /\ pendingLoads s = [] /\ render s = VContract c None
               /\ id c <> routeId s)
  /\ (exists s c m, detailReachable s /\ pendingLoads s = [] /\ render s = VError m
                   /\ contract s = Some c /\ id c = routeId s).
Proof.
  split.
  - exists staleRun, c1. split_and!; [apply staleRun_reachable | reflexivity | reflexivity | discriminate].
  - exists staleErrorRun, c2, detailError.
    split_and!; [apply staleErrorRun_reachable | reflexivity.. ].
Qed.

(** C19. The evidence drawer is not reset when the route changes: a
    reachable page shows contract 2 with the drawer open on an evidence
    that is not one of contract 2's. *)
Theorem drawer_survives_navigation :
  exists s c e, detailReachable s /\ render s = VContract c (Some e) /\ ~ In e (evidence c).
Proof.
  exists drawerRun, c2, ev1. split_and!; [apply drawerRun_reachable | reflexivity | simpl; tauto].
Qed.

(** A risk or status outside the badge tables gives the class
    [undefined] (the color lookup has a default), and scores are not
    clamped: a relevance of 1.5 reads 150%. *)
Example badges_and_scores :
  getRiskBadge "Critical" = "px-3 py-1 text-sm font-medium rounded-full undefined"%string
  /\ getStatusBadge "Draft" = "px-3 py-1 text-sm font-medium rounded-full undefined"%string
  /\ getRiskColor "Critical" = "text-gray-600"%string
  /\ getRiskBadge "High" = "px-3 py-1 text-sm font-medium rounded-full bg-red-100 text-red-800"%string
  /\ percent (9 # 10) = 90%Z /\ percent (3 # 2) = 150%Z.
Proof. vm_compute. split_and!; reflexivity. Qed.

Lemma detail_reachable_inv_witness :
  detailReachable staleErrorRun
  /\ (loading staleErrorRun = true -> pendingLoads staleErrorRun <> [])
  /\ (error staleErrorRun = None \/ error staleErrorRun = Some "Failed to load contract details"%string)
  /\ (evidenceDrawerOpen staleErrorRun = true -> selectedEvidence staleErrorRun <> None).
Proof. split; [apply staleErrorRun_reachable | apply detail_reachable_inv, staleErrorRun_reachable]. Defined.

Lemma detail_settle_shows_response_witness :
  let s := runDetail [Navigate "2"] (mountDetail "1") in
  detailReachable s /\ pendingLoads s !! 0%nat = Some "1"%string
  /\ (let s' := detailStep (LoadSettled 0 okFetch) s in
      pendingLoads s' = delete 0%nat (pendingLoads s)
      /\ render s' = match getContractById okFetch "1" with
                     | Resolve c => match error s with Some m => VError m | None => VContract c (drawerOf s) end
                     | Reject m => VError m
                     end
      /\ (forall c d, render s' = VContract c d -> id c = "1"%string)).
Proof.
  intros s. assert (detailReachable s) as Hr
    by (apply runDetail_reachable; [constructor | vm_compute; reflexivity]).
  split; [exact Hr|]. split; [reflexivity|].
  apply (detail_settle_shows_response s 0 okFetch "1"); [exact Hr | reflexivity].
Defined.

End DetailPage.
