(* ===== verification/DetailView.v ===== *)
(** What the contract page renders once a contract is loaded
    ([ContractDetailPage.jsx], lines 141-355): the header, the
    information panel with the status icon and the two badges, one card
    per clause, insight and evidence (in the order of the record), and
    the evidence drawer.  A progress bar is its [width] (the number
    before [%] of [`${score * 100}%`]) and its label
    [Math.round(score * 100)]; the page itself is [pageView], over the
    early returns of [DetailPage.render]. *)

From S2P Require Import Prelude JsRuntime Contract ContractsApi DetailPage.
From Stdlib Require Import QArith Qround Lqa.

Module DetailView.
Import DetailPage.

(** [getStatusIcon(status)]: the icon and its class, [null] by default. *)
Inductive StatusIcon := CheckCircle | Clock | AlertTriangle.

Definition getStatusIcon (status : string) : option (StatusIcon * string) :=
  if bool_decide (status = "Active") then Some (CheckCircle, "w-5 h-5 text-green-500")
  else if bool_decide (status = "Renewal Due") then Some (Clock, "w-5 h-5 text-orange-500")
  else if bool_decide (status = "Expired") then Some (AlertTriangle, "w-5 h-5 text-gray-500")
  else None.

(** A bar: [style={{ width: `${score * 100}%` }}] and the label
    [{Math.round(score * 100)}%] beside it. *)
Record Bar := mkBar { bar_width : Q; bar_label : Z }.

Definition scoreBar (score : Q) : Bar := mkBar (score * 100) (percent score).

Record ClauseCard := mkClauseCard {
  cc_title : string;
  cc_confidence : Bar;
  cc_summary : string;
}.

Definition clauseCard (cl : Clause) : ClauseCard :=
  mkClauseCard (clause_title cl) (scoreBar (confidence cl)) (clause_summary cl).

(** The insight's dot and badge: the two conditional class chains. *)
Definition insightDot (risk : string) : string :=
  if bool_decide (risk = "High") then "bg-red-500"
  else if bool_decide (risk = "Medium") then "bg-yellow-500" else "bg-green-500".

Definition insightBadge (risk : string) : string :=
  "text-xs font-medium px-2 py-1 rounded " +:+
  (if bool_decide (risk = "High") then "bg-red-100 text-red-800"
   else if bool_decide (risk = "Medium") then "bg-yellow-100 text-yellow-800"
   else "bg-green-100 text-green-800").

Record InsightCard := mkInsightCard {
  ic_dot : string;
  ic_badgeClass : string;
  ic_label : string;
  ic_message : string;
}.

Definition insightCard (i : Insight) : InsightCard :=
  mkInsightCard (insightDot (insight_risk i)) (insightBadge (insight_risk i))
    (insight_risk i +:+ " Risk") (insight_message i).

Record EvidenceCard := mkEvidenceCard {
  ec_source : string;
  ec_snippet : string;
  ec_relevance : Bar;
}.

Definition evidenceCard (e : Evidence) : EvidenceCard :=
  mkEvidenceCard (evidence_source e) (evidence_snippet e) (scoreBar (relevance e)).

(** The drawer: Source, Content and Relevance Score of
    [selectedEvidence]. *)
Record Drawer := mkDrawer {
  dr_source : string;
  dr_content : string;
  dr_relevance : Bar;
}.

Definition drawerView (e : Evidence) : Drawer :=
  mkDrawer (evidence_source e) (evidence_snippet e) (scoreBar (relevance e)).

Record ContractPage := mkContractPage {
  cp_title : string;
  cp_parties : string;
  cp_start : string;
  cp_expiry : string;
  cp_statusIcon : option (StatusIcon * string);
  cp_statusClass : string;
  cp_status : string;
  cp_riskClass : string;
  cp_riskLabel : string;
  cp_clauses : list ClauseCard;
  cp_insights : list InsightCard;
  cp_evidence : list EvidenceCard;
  cp_drawer : option Drawer;
}.

(** The JSX of the final [return], for the contract and the drawer's
    evidence ([evidenceDrawerOpen && selectedEvidence]). *)
Definition contractPage (c : Contract) (d : option Evidence) : ContractPage :=
  mkContractPage (name c) (parties c) (start c) (expiry c) (getStatusIcon (status c))
    (getStatusBadge (status c)) (status c) (getRiskBadge (risk c)) (risk c +:+ " Risk")
    (map clauseCard (clauses c)) (map insightCard (insights c)) (map evidenceCard (evidence c))
    (option_map drawerView d).

Inductive PageView :=
| PSkeleton
| PError (message : string)
| PNothing
| PContract (p : ContractPage).

Definition pageView (s : DetailState) : PageView :=
  match render s with
  | VSkeleton => PSkeleton
  | VError m => PError m
  | VNothing => PNothing
  | VContract c d => PContract (contractPage c d)
  end.

(** ** Lemmas *)

(** [Math.round] is within a half of its argument. *)
Lemma round_spec x : x - (1 # 2) < inject_Z (JsMath.round x) <= x + (1 # 2).
Proof.
  unfold JsMath.round. pose proof (Qfloor_le (x + (1 # 2))) as H1.
  pose proof (Qlt_floor (x + (1 # 2))) as H2. rewrite inject_Z_plus in H2.
  change (inject_Z 1) with 1 in H2. split; lra.
Qed.

Definition setDrawer (d : option Drawer) (p : ContractPage) : ContractPage :=
  mkContractPage (cp_title p) (cp_parties p) (cp_start p) (cp_expiry p) (cp_statusIcon p)
    (cp_statusClass p) (cp_status p) (cp_riskClass p) (cp_riskLabel p) (cp_clauses p)
    (cp_insights p) (cp_evidence p) d.

(** The fields [render] reads are the loading flag, the error and the
    contract; the drawer only changes the drawer. *)
Lemma render_contract s c d :
  render s = VContract c d ->
  loading s = false /\ contract s = Some c /\ d = drawerOf s
  /\ forall e, render (openEvidenceDrawer e s) = VContract c (Some e).
Proof.
  unfold render, drawerOf, openEvidenceDrawer. destruct s as [i oc l er se op pl]; simpl.
  destruct l; [done|]. destruct er as [m|]; [destruct (JsString.truthy m); [done|]|];
    destruct oc; intros [= <- <-]; split_and!; done.
Qed.

(** ** Properties *)

(** C38. Clicking the [k]-th evidence card of a contract page opens the
    drawer on that card's evidence: the page is the same but for the
    drawer, which shows the card's source, snippet and relevance bar. *)
Theorem evidence_card_opens_drawer s p k :
  pageView s = PContract p -> (k < length (cp_evidence p))%nat ->
  exists card d, cp_evidence p !! k = Some card
  /\ pageView (detailStep (DetailPage.EvidenceCard k) s) = PContract (setDrawer (Some d) p)
  /\ dr_source d = ec_source card /\ dr_content d = ec_snippet card
  /\ dr_relevance d = ec_relevance card.
Proof.
  unfold pageView. destruct (render s) as [| | |c d] eqn:R; try discriminate.
  intros [= <-] Hk. destruct (render_contract _ _ _ R) as (_ & Hc & _ & Ho).
  simpl in Hk. rewrite length_map in Hk. destruct (lookup_lt_is_Some_2 _ _ Hk) as [e He].
  exists (evidenceCard e), (drawerView e). simpl. rewrite Hc, He, Ho, lookup_map_opt, He.
  split_and!; done.
Qed.

(** C40. A score's bar and its label agree: the label
    [Math.round(score * 100)] is the bar's width rounded to the nearest
    integer, and a score in [0, 1] is labelled between 0% and 100%. *)
Theorem scoreBar_label score :
  bar_width (scoreBar score) - (1 # 2) < inject_Z (bar_label (scoreBar score))
    <= bar_width (scoreBar score) + (1 # 2)
  /\ (0 <= score <= 1 -> (0 <= bar_label (scoreBar score) <= 100)%Z).
Proof.
  split; [apply round_spec|]. intros [H0 H1]. simpl. unfold percent. split.
  - apply (JsMath.round_mono 0). lra.
  - apply (JsMath.round_mono _ 100). lra.
Qed.

(** An insight of any risk but [High] and [Medium] is shown as low,
    dot and badge alike, where the risk badge reads [undefined]. *)
Example insight_colours :
  insightDot "Critical" = "bg-green-500" /\ insightBadge "high" = insightBadge "Low"
  /\ getRiskBadge "Critical" = "px-3 py-1 text-sm font-medium rounded-full undefined".
Proof. vm_compute. split_and!; reflexivity. Qed.

Definition loadedDetail : DetailState := runDetail [LoadSettled 0 okFetch] (mountDetail "1").

Lemma evidence_card_opens_drawer_witness :
  pageView loadedDetail = PContract (contractPage c1 None)
  /\ (0 < length (cp_evidence (contractPage c1 None)))%nat
  /\ exists card d, cp_evidence (contractPage c1 None) !! 0%nat = Some card
     /\ pageView (detailStep (DetailPage.EvidenceCard 0%nat) loadedDetail)
        = PContract (setDrawer (Some d) (contractPage c1 None))
     /\ dr_source d = ec_source card /\ dr_content d = ec_snippet card
     /\ dr_relevance d = ec_relevance card.
Proof.
  assert (pageView loadedDetail = PContract (contractPage c1 None)) as H1 by (vm_compute; reflexivity).
  assert (0 < length (cp_evidence (contractPage c1 None)))%nat as H2 by (simpl; lia).
  split; [exact H1|]. split; [exact H2|]. exact (evidence_card_opens_drawer _ _ 0%nat H1 H2).
Defined.

Lemma scoreBar_label_witness :
  0 <= 9 # 10 <= 1 /\ (0 <= bar_label (scoreBar (9 # 10)) <= 100)%Z.
Proof.
  assert (0 <= 9 # 10 <= 1) as H by (split; vm_compute; discriminate).
  split; [exact H | exact (proj2 (scoreBar_label (9 # 10)) H)].
Defined.

End DetailView.
