(* ===== verification/Shell.v ===== *)
(** The application shell: [src/src/App.jsx] (the route table of
    [AppLayout], its [upload-modal-open] listener and the upload
    dialog's [isOpen] flag) and [src/src/components/DashboardLayout.jsx]
    (the sidebar and user menu, the navigation items with their
    [current] marking, [handleNavigation] and [handleLogout]).

    The whole application is one state: the location, the provider's
    session and [localStorage] ([Auth]), the layout's two flags, and the
    upload dialog ([Upload]), whose [isOpen] is [AppLayout]'s
    [uploadModalOpen].  Route matching follows React Router 6 for the
    patterns of the table: static segments compare without regard to
    ASCII case, [:id] matches one non-empty segment, and trailing
    slashes are ignored.  [navigate(to)] and the address bar set the
    pathname of [to] ([browserPath]: [parsePath] drops the search and
    the hash, the URL parser resolves [.] and [..]); percent-encoding is
    not modelled.  [ProtectedRoute] and [LoginPage] are not in
    the repository: a protected element is marked as such and its
    behaviour is left open. *)

From S2P Require Import Prelude JsRuntime Auth Upload.
From Stdlib Require Import Ascii.
From stdpp Require Import gmap.

Module Shell.
Import Auth Upload.

(** ** Paths and routes *)

(** [s.split(c)]. *)
Fixpoint splitOn (c : ascii) (s : string) : list string :=
  match s with
  | EmptyString => [EmptyString]
  | String d rest =>
      let l := splitOn c rest in
      if bool_decide (d = c) then EmptyString :: l
      else match l with
           | w :: l' => String d w :: l'
           | [] => [String d EmptyString]
           end
  end.

Fixpoint dropTrailingEmpty (l : list string) : list string :=
  match l with
  | [] => []
  | w :: l' =>
      match dropTrailingEmpty l' with
      | [] => if bool_decide (w = EmptyString) then [] else [w]
      | l'' => w :: l''
      end
  end.

(** The segments of a [location.pathname]: after its leading slash,
    without trailing slashes. *)
Definition segments (path : string) : list string :=
  match splitOn "/" path with
  | EmptyString :: rest => dropTrailingEmpty rest
  | l => dropTrailingEmpty l
  end.

(** The pathname part of a [to] string ([parsePath]): what precedes
    the first [?] (search) or [#] (hash). *)
Fixpoint pathOf (to : string) : string :=
  match to with
  | EmptyString => EmptyString
  | String c r =>
      if bool_decide (c = "?"%char) || bool_decide (c = "#"%char) then EmptyString
      else String c (pathOf r)
  end.

(** The URL parser's removal of [.] and [..] segments from a path's
    segments, with [acc] the segments kept so far (reversed); a final
    [.] or [..] leaves an empty last segment (a trailing slash). *)
Fixpoint dotSegments (acc : list string) (segs : list string) : list string :=
  match segs with
  | [] => rev acc
  | [w] =>
      if bool_decide (w = ".") then rev (EmptyString :: acc)
      else if bool_decide (w = "..") then rev (EmptyString :: tail acc)
      else rev (w :: acc)
  | w :: rest =>
      if bool_decide (w = ".") then dotSegments acc rest
      else if bool_decide (w = "..") then dotSegments (tail acc) rest
      else dotSegments (w :: acc) rest
  end.

Fixpoint joinSlash (l : list string) : string :=
  match l with
  | [] => EmptyString
  | [w] => w
  | w :: l' => w +:+ String "/" (joinSlash l')
  end.

(** The [location.pathname] after [navigate(to)] for an absolute [to]
    (every call of the code): the browser's [history] keeps the
    pathname of [to], with its dot segments resolved. *)
Definition browserPath (to : string) : string :=
  String "/" (joinSlash (dotSegments [] (tail (splitOn "/" (pathOf to))))).

(** A static segment of a pattern, matched without regard to case. *)
Definition segIs (w lit : string) : bool := bool_decide (JsString.toLowerCase w = lit).

Inductive Page :=
| LoginPage
| ContractsDashboardPage
| ContractDetailPage (id : string)
| InsightsPage
| ReportsPage
| SettingsPage.

Inductive Element :=
| ERedirect (to : string)                 (** [<Navigate to=... replace />] *)
| EPage (p : Page) (protected : bool)     (** under [<ProtectedRoute>] and [DashboardLayout] when [protected] *)
| ENoMatch.                               (** no route matches: nothing is rendered *)

(** The [<Routes>] of [AppLayout]. *)
Definition routeElement (isAuthenticated : bool) (path : string) : Element :=
  match segments path with
  | [] => ERedirect (if isAuthenticated then "/dashboard" else "/login")
  | [w] =>
      if segIs w "login" then EPage LoginPage false
      else if segIs w "dashboard" then EPage ContractsDashboardPage true
      else if segIs w "insights" then EPage InsightsPage true
      else if segIs w "reports" then EPage ReportsPage true
      else if segIs w "settings" then EPage SettingsPage true
      else ENoMatch
  | [w; v; i] =>
      if segIs w "dashboard" && segIs v "contract" && bool_decide (i <> EmptyString)
      then EPage (ContractDetailPage i) true else ENoMatch
  | _ => ENoMatch
  end.

(** The location after the redirects of the table ([replace]). *)
Definition resolveLocation (isAuthenticated : bool) (path : string) : string :=
  match routeElement isAuthenticated path with
  | ERedirect to => to
  | _ => path
  end.

(** ** The layout *)

Record NavItem := mkNavItem { nav_name : string; href : string; current : bool }.

(** [navigation], with [current: location.pathname === href]. *)
Definition navigation (pathname : string) : list NavItem :=
  map (fun '(n, h) => mkNavItem n h (bool_decide (pathname = h)))
    [("Contracts", "/dashboard"); ("Insights", "/insights"); ("Reports", "/reports");
     ("Settings", "/settings")]%string.

Record LayoutState := mkLayout { sidebarOpen : bool; userDropdownOpen : bool }.

Definition initialLayout : LayoutState := mkLayout false false.

(** ** The application *)

Record AppState := mkApp {
  location : string;
  auth : AuthState;
  storage : gmap string string;
  layout : LayoutState;
  upload : UploadState;                  (** [isOpen] is [uploadModalOpen] *)
}.

(** Whether the current location shows [DashboardLayout]. *)
Definition layoutShown (s : AppState) : bool :=
  match routeElement (isAuthenticated (auth s)) (location s) with
  | EPage _ true => true
  | _ => false
  end.

(** The layout's controls can be clicked: it is shown and the upload
    dialog, rendered after the routes with the same [z-50] as the
    dropdown, does not cover it. *)
Definition layoutUsable (s : AppState) : bool := layoutShown s && negb (isOpen (upload s)).

(** [navigate(to)]: the new [location.pathname], then the table's
    redirects. *)
Definition navigate (to : string) (s : AppState) : AppState :=
  mkApp (resolveLocation (isAuthenticated (auth s)) (browserPath to)) (auth s) (storage s)
    (layout s) (upload s).

Definition setLayout (l : LayoutState) (s : AppState) : AppState :=
  mkApp (location s) (auth s) (storage s) l (upload s).

(** [handleNavigation(href)]: navigate, then close the sidebar. *)
Definition handleNavigation (h : string) (s : AppState) : AppState :=
  let s := navigate h s in
  setLayout (mkLayout false (userDropdownOpen (layout s))) s.

(** [handleLogout()]: [await logout()], then [navigate('/login')]. *)
Definition handleLogout (s : AppState) : AppState :=
  let '(st, ls) := Auth.logout (auth s) (storage s) in
  navigate "/login" (mkApp (location s) st ls (layout s) (upload s)).

(** The Upload Files button dispatches [upload-modal-open]; the
    listener of [AppLayout] sets [uploadModalOpen]. *)
Definition openUploadModal (s : AppState) : AppState :=
  mkApp (location s) (auth s) (storage s) (layout s) (uploadStep Open (upload s)).

Section App.
Context (stringifyUser : User -> string).
Context (parseUser : string -> option UserValue).
Context (btoaJson : TokenPayload -> string).

(** A page load at [path] with the storage [ls]: the state of the
    components is lost.  The first render has the provider's initial
    state, so the redirect of [/] is taken as logged out: React runs the
    effect of [<Navigate>] (a descendant) before the provider's mount
    effect, which then restores the session from [localStorage]. *)
Definition pageLoad (path : string) (ls : gmap string string) : AppState :=
  let loc := resolveLocation (isAuthenticated initialState) (browserPath path) in
  let '(st, ls) := restoreSession parseUser initialState ls in
  mkApp loc st ls initialLayout initialUpload.

Inductive AppEvent :=
| GoTo (path : string)                  (** the address bar or history *)
| Reload                                (** the browser reloads the page *)
| LoginStart                            (** [login(...)] up to its [await] *)
| LoginDone (username password : string) (tExp tIat : Z)  (** [authApi.login] settles *)
| NavButton (h : string)                (** a navigation item *)
| MenuButton                            (** the header's menu button *)
| SidebarClose                          (** the sidebar's X or its overlay *)
| UserButton                            (** the user menu button *)
| DropdownOutside                       (** the click-outside layer *)
| SignOut                               (** the dropdown's Sign out *)
| UploadFiles                           (** the sidebar's Upload Files *)
| UploadEv (ev : UploadEvent).          (** an event of the dialog, its tasks included *)

Definition appEnabled (ev : AppEvent) (s : AppState) : bool :=
  match ev with
  | GoTo _ | Reload | LoginStart | LoginDone _ _ _ _ => true
  | NavButton h => layoutUsable s && existsb (fun it => bool_decide (href it = h)) (navigation (location s))
  | MenuButton | UserButton | UploadFiles => layoutUsable s
  | SidebarClose => layoutUsable s && sidebarOpen (layout s)
  | DropdownOutside | SignOut => layoutUsable s && userDropdownOpen (layout s)
  | UploadEv Open => false                 (** only through [UploadFiles] *)
  | UploadEv e => uploadEnabled e (upload s)
  end.

Definition setAuth (p : AuthState * gmap string string) (s : AppState) : AppState :=
  mkApp (location s) p.1 p.2 (layout s) (upload s).

Definition appStep (ev : AppEvent) (s : AppState) : AppState :=
  match ev with
  | GoTo p => navigate p s
  | Reload => pageLoad (location s) (storage s)
  | LoginStart => setAuth (authStep stringifyUser parseUser btoaJson LoginBegin (auth s, storage s)) s
  | LoginDone u pw t1 t2 =>
      setAuth (authStep stringifyUser parseUser btoaJson (LoginSettled u pw t1 t2) (auth s, storage s)) s
  | NavButton h => handleNavigation h s
  | MenuButton => setLayout (mkLayout true (userDropdownOpen (layout s))) s
  | SidebarClose => setLayout (mkLayout false (userDropdownOpen (layout s))) s
  | UserButton => setLayout (mkLayout (sidebarOpen (layout s)) (negb (userDropdownOpen (layout s)))) s
  | DropdownOutside => setLayout (mkLayout (sidebarOpen (layout s)) false) s
  | SignOut => handleLogout s
  | UploadFiles => openUploadModal s
  | UploadEv e => mkApp (location s) (auth s) (storage s) (layout s) (uploadStep e (upload s))
  end.

Inductive appReachable : AppState -> Prop :=
| ar_load path ls : appReachable (pageLoad path ls)
| ar_step ev s : appReachable s -> appEnabled ev s = true -> appReachable (appStep ev s).

(** ** Lemmas *)

Lemma pageLoad_session path ls :
  (auth (pageLoad path ls), storage (pageLoad path ls)) = restoreSession parseUser initialState ls.
Proof. unfold pageLoad. by destruct (restoreSession parseUser initialState ls). Qed.

Lemma pageLoad_upload path ls : upload (pageLoad path ls) = initialUpload.
Proof. unfold pageLoad. by destruct (restoreSession parseUser initialState ls). Qed.

Lemma handleLogout_session s :
  (auth (handleLogout s), storage (handleLogout s)) = Auth.logout (auth s) (storage s).
Proof. unfold handleLogout. by destruct (Auth.logout (auth s) (storage s)). Qed.

Lemma handleLogout_upload s : upload (handleLogout s) = upload s.
Proof. unfold handleLogout. by destruct (Auth.logout (auth s) (storage s)). Qed.

Lemma logout_storage (ls : gmap string string) :
  delete "auth_user"%string (delete "auth_token"%string ls) !! "auth_token"%string = None
  /\ delete "auth_user"%string (delete "auth_token"%string ls) !! "auth_user"%string = None.
Proof. rewrite lookup_delete_ne, !lookup_delete_eq by done. done. Qed.

(** The dialog inside the application only reaches states the dialog
    reaches on its own. *)
Lemma app_upload_reachable s : appReachable s -> uploadReachable (upload s).
Proof.
  induction 1 as [path ls|ev s _ IH Hen].
  - rewrite pageLoad_upload. constructor.
  - destruct ev as [| | | | | | | | | | |e]; cbn [appStep appEnabled] in *;
      try (rewrite pageLoad_upload; constructor); try exact IH.
    + by apply ur_step.
    + destruct e; [discriminate | ..]; by apply ur_step.
Qed.

Lemma app_session_backed s : appReachable s -> sessionBacked (auth s, storage s).
Proof.
  induction 1 as [path ls|ev s _ IH Hen].
  - rewrite pageLoad_session. apply (sessionBacked_step stringifyUser parseUser btoaJson Auth.Reload (initialState, ls)),
      sessionBacked_init.
  - destruct ev; cbn [appStep appEnabled] in *; try exact IH.
    + rewrite pageLoad_session. apply (sessionBacked_step stringifyUser parseUser btoaJson Auth.Reload (initialState, storage s)),
        sessionBacked_init.
    + exact (sessionBacked_step stringifyUser parseUser btoaJson (LoginSettled _ _ _ _) (auth s, storage s) IH).
    + rewrite handleLogout_session.
      by apply (sessionBacked_step stringifyUser parseUser btoaJson Auth.Logout (auth s, storage s)).
Qed.

(** ** Properties *)

(** C20. In every state of the application, the upload dialog is in a
    state the dialog reaches on its own (so the properties of [Upload]
    hold of it), and the session is backed by [localStorage]: it is
    authenticated exactly when it holds a token, and that token is the
    stored one. *)
Theorem app_reachable_inv s :
  appReachable s ->
  uploadReachable (upload s)
  /\ authInv (auth s)
  /\ (isAuthenticated (auth s) = true -> storage s !! "auth_token"%string = token (auth s)).
Proof.
  intros Hr. destruct (app_session_backed s Hr) as [Hi Hb].
  split_and!; [by apply app_upload_reachable | done | done].
Qed.

(** C21. Sign out ends on the login page with the session and both
    storage keys cleared, so a reload stays there logged out; the
    upload dialog and its running uploads are left as they were. *)
Theorem sign_out_clears_session s :
  appEnabled SignOut s = true ->
  let s' := appStep SignOut s in
  location s' = "/login"%string
  /\ routeElement (isAuthenticated (auth s')) (location s') = EPage LoginPage false
  /\ isAuthenticated (auth s') = false
  /\ storage s' !! "auth_token"%string = None /\ storage s' !! "auth_user"%string = None
  /\ upload s' = upload s
  /\ location (appStep Reload s') = "/login"%string
  /\ isAuthenticated (auth (appStep Reload s')) = false.
Proof.
  intros _. assert (resolveLocation false (browserPath "/login") = "/login"%string) as Hr
    by reflexivity.
  pose proof (logout_storage (storage s)) as [Ht Hu].
  cbn -[browserPath resolveLocation]. rewrite Hr. unfold pageLoad, restoreSession. rewrite Ht, Hu.
  cbn -[browserPath resolveLocation]. rewrite Hr. by split_and!.
Qed.

End App.

Definition demoApp : AppState := pageLoad demoParse "/dashboard" demoLoggedIn.2.
Definition demoMenu : AppState := appStep demoStringify demoParse demoBtoa UserButton demoApp.

Lemma demoMenu_reachable : appReachable demoStringify demoParse demoBtoa demoMenu.
Proof. apply ar_step; [constructor | vm_compute; reflexivity]. Qed.

(** A page load at [/dashboard] with a stored session shows the
    dashboard logged in; a page load at [/] with the same storage goes
    to the login page although the session is restored. *)
Example demoApp_lands :
  location demoApp = "/dashboard"%string /\ isAuthenticated (auth demoApp) = true
  /\ layoutShown demoApp = true
  /\ location (pageLoad demoParse "/" demoLoggedIn.2) = "/login"%string
  /\ isAuthenticated (auth (pageLoad demoParse "/" demoLoggedIn.2)) = true.
Proof. vm_compute. split_and!; reflexivity. Qed.

(** The pathname of a link drops its search and hash and resolves its
    dot segments. *)
Example browserPath_cases :
  browserPath "/dashboard/contract/a?b" = "/dashboard/contract/a"%string
  /\ browserPath "/dashboard/contract/x#y" = "/dashboard/contract/x"%string
  /\ browserPath "/dashboard/contract/.." = "/dashboard/"%string
  /\ browserPath "/dashboard/./contract/c-1" = "/dashboard/contract/c-1"%string
  /\ browserPath "/login" = "/login"%string.
Proof. vm_compute. split_and!; reflexivity. Qed.

Lemma app_reachable_inv_witness :
  appReachable demoStringify demoParse demoBtoa demoMenu
  /\ uploadReachable (upload demoMenu)
  /\ authInv (auth demoMenu)
  /\ (isAuthenticated (auth demoMenu) = true -> storage demoMenu !! "auth_token"%string = token (auth demoMenu)).
Proof. split; [apply demoMenu_reachable | apply (app_reachable_inv demoStringify demoParse demoBtoa), demoMenu_reachable]. Defined.

Lemma sign_out_clears_session_witness :
  appEnabled SignOut demoMenu = true
  /\ (let s' := appStep demoStringify demoParse demoBtoa SignOut demoMenu in
      location s' = "/login"%string
      /\ routeElement (isAuthenticated (auth s')) (location s') = EPage LoginPage false
      /\ isAuthenticated (auth s') = false
      /\ storage s' !! "auth_token"%string = None /\ storage s' !! "auth_user"%string = None
      /\ upload s' = upload demoMenu
      /\ location (appStep demoStringify demoParse demoBtoa Reload s') = "/login"%string
      /\ isAuthenticated (auth (appStep demoStringify demoParse demoBtoa Reload s')) = false).
Proof.
  assert (appEnabled SignOut demoMenu = true) as H by (vm_compute; reflexivity).
  split; [exact H | exact (sign_out_clears_session demoStringify demoParse demoBtoa demoMenu H)].
Defined.

(** The navigation marks an item current only on its exact path: on a
    contract's page, or with a trailing slash, no item is current. *)
Example navigation_current :
  map current (navigation "/dashboard") = [true; false; false; false]
  /\ map current (navigation "/dashboard/contract/1") = [false; false; false; false]
  /\ map current (navigation "/dashboard/") = [false; false; false; false]
  /\ routeElement true "/dashboard/" = EPage ContractsDashboardPage true
  /\ routeElement true "/Dashboard/Contract/c-7" = EPage (ContractDetailPage "c-7") true.
Proof. vm_compute. split_and!; reflexivity. Qed.

End Shell.
