(* ===== verification/DashboardView.v ===== *)
(** What the contracts dashboard renders ([ContractsDashboard.jsx],
    lines 95-126 and 138-415), as a value computed from [DashState]:
    the skeleton, the error panel, or the main view with the summary
    line, the filter button's count badge, the Clear button, and either
    the "No contracts found" panel with its message or the table rows
    (with their badge classes and View links) and the pager.  The View
    link is followed through the route table of [Shell]. *)

From S2P Require Import Prelude JsRuntime Contract Filtering Pagination ContractsApi Dashboard Auth DetailPage DetailView Shell.
From Stdlib Require Import Ascii.
From Stdlib Require String.

Module DashboardView.
Import Filtering Dashboard.

(** [getRiskBadge] and [getStatusBadge] of the dashboard: the same
    lookup tables as the contract page, with smaller classes. *)
Definition getRiskBadge (risk : string) : string :=
  "px-2 py-1 text-xs font-medium rounded-full " +:+ DetailPage.riskStyle risk.

Definition getStatusBadge (status : string) : string :=
  "px-2 py-1 text-xs font-medium rounded-full " +:+ DetailPage.statusStyle status.

(** [getStatusIcon(status)] of the dashboard: the contract page's
    icons, smaller. *)
Definition getStatusIcon (status : string) : option (DetailView.StatusIcon * string) :=
  if bool_decide (status = "Active") then Some (DetailView.CheckCircle, "w-4 h-4 text-green-500")
  else if bool_decide (status = "Renewal Due") then Some (DetailView.Clock, "w-4 h-4 text-orange-500")
  else if bool_decide (status = "Expired") then Some (DetailView.AlertTriangle, "w-4 h-4 text-gray-500")
  else None.

(** The View button's [navigate(`/dashboard/contract/${contract.id}`)]. *)
Definition viewLink (c : Contract) : string := "/dashboard/contract/" +:+ id c.

Record Row := mkRowView {
  row_name : string;
  row_parties : string;
  row_expiry : string;
  row_statusIcon : option (DetailView.StatusIcon * string);
  row_status : string;
  row_statusClass : string;
  row_risk : string;
  row_riskClass : string;
  row_link : string;
}.

(** One [<tr>] of [currentContracts.map(...)]. *)
Definition rowOf (c : Contract) : Row :=
  mkRowView (name c) (parties c) (expiry c) (getStatusIcon (status c)) (status c)
    ("ml-2 " +:+ getStatusBadge (status c))
    (risk c) (getRiskBadge (risk c)) (viewLink c).

(** The count badge of the Filters button. *)
Definition filterBadge (f : Filters) : option nat :=
  if (0 <? length (f_status f))%nat || (0 <? length (f_risk f))%nat
  then Some (length (f_status f) + length (f_risk f))%nat else None.

(** The "No contracts found" panel's message. *)
Definition emptyMessage (s : DashState) : string :=
  if anyCriterion s then "Try adjusting your search criteria or filters."
  else "Upload your first contract to get started.".

(** The page buttons, each with whether it is the current page. *)
Definition pageButtons (currentPage totalPages : Z) : list (Z * bool) :=
  map (fun p => (p, bool_decide (currentPage = p))) (Pagination.pageNumbers totalPages).

Inductive Body :=
| BEmpty (message : string)
| BTable (rows : list Row) (pager : option (Z * Z * list (Z * bool))).

Inductive DashView :=
| DSkeleton
| DError (message : string)
| DMain (summary : Z * Z * Z) (badge : option nat) (filtersPanel : bool) (clearShown : bool) (body : Body).

(** The main view, once neither early return was taken. *)
Definition mainView (s : DashState) : DashView :=
  let n := length (filteredContracts s) in
  let t := pageCount s in
  DMain (Pagination.summary n (currentPage s)) (filterBadge (filters s)) (showFilters s)
    (showFilters s && anyCriterion s)
    (if (n =? 0)%nat then BEmpty (emptyMessage s)
     else BTable (map rowOf (Pagination.currentContracts (filteredContracts s) (currentPage s)))
                 (if (1 <? t)%Z then Some (currentPage s, t, pageButtons (currentPage s) t) else None)).

(** The component's render: [if (loading)], [if (error)], the rest. *)
Definition dashView (s : DashState) : DashView :=
  if loading s then DSkeleton
  else if errorShown s then DError (default "" (error s))
  else mainView s.

(** The characters a URL path keeps as they are: ASCII letters, digits
    and [-], [_], [.], [~]. *)
Definition urlSafe (c : ascii) : bool :=
  let n := nat_of_ascii c in
  ((65 <=? n) && (n <=? 90)) || ((97 <=? n) && (n <=? 122)) || ((48 <=? n) && (n <=? 57))
  || (n =? 45) || (n =? 95) || (n =? 46) || (n =? 126).

(** An id that a path carries unchanged as one segment. *)
Definition safeId (i : string) : bool :=
  bool_decide (i <> EmptyString) && bool_decide (i <> ".") && bool_decide (i <> "..")
  && forallb urlSafe (String.list_ascii_of_string i).

(** ** Lemmas *)

(** With no criterion the view is the whole store. *)
Lemma applyFilters_none cs q f :
  JsString.truthy q = false -> f_status f = [] -> f_risk f = [] -> applyFilters cs q f = cs.
Proof.
  intros Hq Hs Hr. destruct q; [|discriminate]. unfold applyFilters. rewrite Hs, Hr. done.
Qed.

Lemma anyCriterion_false s :
  anyCriterion s = false <->
  f_status (filters s) = [] /\ f_risk (filters s) = [] /\ JsString.truthy (searchQuery s) = false.
Proof.
  unfold anyCriterion. rewrite !orb_false_iff, !Nat.ltb_ge, !Nat.le_0_r, !length_zero_iff_nil.
  tauto.
Qed.

(** A duplicate-free selection of the offered values has at most as
    many elements as there are values. *)
Lemma selection_length (l opts : list string) : NoDup l -> l ⊆ opts -> (length l <= length opts)%nat.
Proof.
  intros Hn Hs. apply NoDup_incl_length; [by apply NoDup_ListNoDup|].
  intros x Hx. apply list_elem_of_In, Hs, list_elem_of_In, Hx.
Qed.

Lemma splitOn_single c i : ~ In c (String.list_ascii_of_string i) -> Shell.splitOn c i = [i].
Proof.
  induction i as [|d i IH]; simpl; [done|]. intros Hc.
  rewrite bool_decide_false by (intros ->; auto). rewrite IH by auto. done.
Qed.

Lemma segIs_lit w : JsString.toLowerCase w = w -> Shell.segIs w w = true.
Proof. intros H. unfold Shell.segIs. by rewrite H, bool_decide_true. Qed.

Lemma pathOf_safe i : forallb urlSafe (String.list_ascii_of_string i) = true -> Shell.pathOf i = i.
Proof.
  induction i as [|c i IH]; [done|]. simpl. intros [Hc Hi]%andb_true_iff.
  rewrite !bool_decide_false by (intros ->; discriminate). by rewrite IH.
Qed.

Lemma safe_no_slash i :
  forallb urlSafe (String.list_ascii_of_string i) = true -> ~ In "/"%char (String.list_ascii_of_string i).
Proof.
  intros H Hin. apply forallb_forall with (x := "/"%char) in H; [discriminate | done].
Qed.

(** The path [/dashboard/contract/${i}] of a safe id is read back with
    the segment [i]. *)
Lemma safeId_path i :
  safeId i = true ->
  Shell.pathOf i = i /\ ~ In "/"%char (String.list_ascii_of_string i) /\ i <> "." /\ i <> ".."
  /\ forall b, Shell.routeElement b ("/dashboard/contract/" +:+ i) = Shell.EPage (Shell.ContractDetailPage i) true.
Proof.
  unfold safeId. intros H. bool_props. rewrite !bool_decide_eq_true in *.
  assert (forall b, Shell.routeElement b ("/dashboard/contract/" +:+ i)
                    = Shell.EPage (Shell.ContractDetailPage i) true) as Hr.
  { intros b. unfold Shell.routeElement, Shell.segments. autorewrite with jsm_rw. simpl.
    rewrite splitOn_single by (by apply safe_no_slash). simpl.
    rewrite bool_decide_false by done. simpl. rewrite bool_decide_true by done. reflexivity. }
  split_and!; [by apply pathOf_safe | by apply safe_no_slash | done | done | apply Hr].
Qed.

(** ** Properties *)

(** C26. The View link of a row leads to the page of that row's
    contract: [navigate(`/dashboard/contract/${id}`)] sets the pathname
    to the link itself, and the route table matches it as the route
    [contract/:id] with exactly that id.  This holds for an id made of
    the characters a URL path keeps as they are (letters, digits and
    [-_.~]) other than [.] and [..]: [?] or [#] would cut the id short,
    a slash or a dot segment would change the path, and other
    characters are percent-encoded on the way, which the model does not
    represent. *)
Theorem viewLink_route c s :
  safeId (id c) = true ->
  Shell.location (Shell.navigate (viewLink c) s) = viewLink c
  /\ Shell.routeElement (Auth.isAuthenticated (Shell.auth s)) (Shell.location (Shell.navigate (viewLink c) s))
     = Shell.EPage (Shell.ContractDetailPage (id c)) true.
Proof.
  intros Hs. pose proof (safeId_path _ Hs) as (Hp & Hsl & Hd & Hdd & Hr).
  assert (Shell.browserPath (viewLink c) = viewLink c) as Hb.
  { unfold Shell.browserPath, viewLink. autorewrite with jsm_rw. simpl. rewrite Hp, splitOn_single by done.
    simpl. rewrite !bool_decide_false by done. simpl. by autorewrite with jsm_rw. }
  unfold Shell.navigate, Shell.resolveLocation. cbn [Shell.location Shell.auth]. rewrite Hb, Hr. done.
Qed.

(** C33. On the main view, the "No contracts found" panel says
    "Upload your first contract to get started." exactly when the store
    is empty and no criterion (query or check box) is set; with a
    criterion it asks to adjust the search, even for a blank query that
    filters nothing. *)
Theorem empty_store_message s :
  reachable s -> mainShown s = true ->
  (exists sm b fp cl, dashView s = DMain sm b fp cl (BEmpty "Upload your first contract to get started."))
  <-> contracts s = [] /\ anyCriterion s = false.
Proof.
  intros Hr Hm. destruct (inv_reachable s Hr) as (_ & [Hf _] & _).
  unfold mainShown in Hm. bool_props.
  assert (dashView s = mainView s) as ->
    by (unfold dashView; by rewrite H, H0).
  unfold mainView, emptyMessage. split.
  - intros (sm & b & fp & cl & E). injection E as _ _ _ _ E.
    destruct (length (filteredContracts s) =? 0)%nat eqn:En; [|discriminate].
    destruct (anyCriterion s) eqn:Ea; [discriminate|]. split; [|done].
    apply anyCriterion_false in Ea as (Hs & Hrk & Hq).
    rewrite Hf, applyFilters_none in En by done. by apply Nat.eqb_eq, length_zero_iff_nil in En.
  - intros [Hc Ha]. pose proof Ha as (Hs & Hrk & Hq)%anyCriterion_false.
    rewrite Ha, Hf, applyFilters_none, Hc by done. by do 4 eexists.
Qed.

(** The count on the Filters button is between 1 and 6: selections are
    duplicate-free subsets of the three offered values of each facet. *)
Theorem filter_badge_bound s k :
  reachable s -> filterBadge (filters s) = Some k -> (1 <= k <= 6)%nat.
Proof.
  intros Hr Hb. destruct (inv_reachable s Hr) as (_ & _ & Hs & Hrk & Hss & Hrs & _).
  pose proof (selection_length _ _ Hs Hss). pose proof (selection_length _ _ Hrk Hrs).
  unfold filterBadge in Hb. destruct (_ || _) eqn:E; [|done]. injection Hb as <-.
  bool_props; rewrite Nat.ltb_lt in *; simpl in *; lia.
Qed.

(** Outside the safe ids the link goes astray: a slash gives no page,
    a [?] or [#] opens the contract of the id's prefix, and [..] the
    dashboard; the fixed segments match without regard to case. *)
Example viewLink_cases :
  Shell.routeElement true (Shell.browserPath (viewLink (mkRow "a/b" "" "" "" "" ""))) = Shell.ENoMatch
  /\ Shell.routeElement true (Shell.browserPath (viewLink (mkRow "a?b" "" "" "" "" "")))
     = Shell.EPage (Shell.ContractDetailPage "a") true
  /\ Shell.routeElement true (Shell.browserPath (viewLink (mkRow "x#1" "" "" "" "" "")))
     = Shell.EPage (Shell.ContractDetailPage "x") true
  /\ Shell.routeElement true (Shell.browserPath (viewLink (mkRow ".." "" "" "" "" "")))
     = Shell.EPage Shell.ContractsDashboardPage true
  /\ Shell.routeElement true "/DASHBOARD/contract/Ab" = Shell.EPage (Shell.ContractDetailPage "Ab") true.
Proof. vm_compute. split_and!; reflexivity. Qed.

Definition emptyLoaded : DashState := step (LoadSettled (Some (ContractsApi.ContractsApi.mkResponse true (Some [])))) mount.

Lemma emptyLoaded_reachable : reachable emptyLoaded.
Proof. apply reachable_step; [constructor | vm_compute; reflexivity]. Qed.

Definition row17 : Contract := mkRow "c-17" "Lease" "Acme" "2026-01-01" "Active" "Low".

Lemma viewLink_route_witness :
  safeId (id row17) = true
  /\ Shell.location (Shell.navigate (viewLink row17) Shell.demoApp) = viewLink row17
  /\ Shell.routeElement (Auth.isAuthenticated (Shell.auth Shell.demoApp))
       (Shell.location (Shell.navigate (viewLink row17) Shell.demoApp))
     = Shell.EPage (Shell.ContractDetailPage (id row17)) true.
Proof.
  assert (safeId (id row17) = true) as H by (vm_compute; reflexivity).
  split; [exact H | exact (viewLink_route row17 Shell.demoApp H)].
Defined.

Lemma empty_store_message_witness :
  reachable emptyLoaded /\ mainShown emptyLoaded = true
  /\ ((exists sm b fp cl, dashView emptyLoaded = DMain sm b fp cl (BEmpty "Upload your first contract to get started."))
      <-> contracts emptyLoaded = [] /\ anyCriterion emptyLoaded = false).
Proof.
  assert (mainShown emptyLoaded = true) as Hm by (vm_compute; reflexivity).
  split; [apply emptyLoaded_reachable|]. split; [exact Hm|].
  exact (empty_store_message emptyLoaded emptyLoaded_reachable Hm).
Defined.

End DashboardView.
